(** * Bookielocal: the bet computation and risk-aggregation engine

    A shallow embedding of the pure core of the application:

    - [shared/schemas/index.ts]   the data model (categories, entries, tickets,
                                  blocked numbers, settings, lottery results);
    - [frontend/src/lib/expand.ts]      number expansion;
    - [frontend/src/lib/compute.ts]     entry totals, exposure aggregation;
    - [frontend/src/lib/payout.ts]      actual payout reconciliation;
    - [frontend/src/lib/drawPeriod.ts]  draw period containment.

    Conventions of the embedding.

    - A JavaScript [number] that carries money or a quantity is an integer
      of [Z]: prices, quantities and totals are whole currency units, on
      which JavaScript arithmetic is exact.  A payout rate is a [Z] as well,
      as the default rates are.  The settings screen also takes a fractional
      rate, a double, whose products and sums round: for such a rate a
      statement about a payout says which rate a combo carries and which
      terms are added up, not the rounded sum.
    - A JavaScript string is a [string] (a list of bytes); the digits the code
      looks for are ASCII, so every other character is a non-digit byte.
      Text outside ASCII is several bytes here and UTF-16 units in the code:
      what is proved concerns the digit strings that validation accepts.
    - The time zone of the process is a parameter of what reads a date
      through the local getters of [Date].
    - A function that [throw]s returns a [Result].
    - A JavaScript [Map] is an association list in insertion order
      ([JsMap]); an optional field is an [option].
    - [Array.prototype.sort] is stable; it is modelled by a stable insertion
      sort, which on a consistent comparator returns the same array as any
      other stable sort. *)

From Stdlib Require Import List String Ascii ZArith Lia Bool Arith.
From Stdlib Require Import Permutation Sorted DecimalString.
Import ListNotations.

Local Open Scope string_scope.
Local Open Scope list_scope.

Set Implicit Arguments.

(* ------------------------------------------------------------------ *)
(** * Results of functions that may throw *)

Inductive Result (E A : Type) : Type :=
| Ok (a : A)
| Throw (e : E).

Arguments Ok {E A} a.
Arguments Throw {E A} e.

Definition bind {E A B} (r : Result E A) (k : A -> Result E B) : Result E B :=
  match r with
  | Ok a => k a
  | Throw e => Throw e
  end.

Notation "'do' x <- r ; k" := (bind r (fun x => k))
  (at level 10, x name, r at level 100, k at level 200).

(* ------------------------------------------------------------------ *)
(** * JavaScript strings and arrays *)

Module Js.

(** [s.split('')]: the array of the one-character strings of [s]. *)
Definition split_chars (s : string) : list string :=
  map (fun c => String c EmptyString) (list_ascii_of_string s).

(** [a.join('')]. *)
Definition join (a : list string) : string := String.concat "" a.

(** [s[i]] used as a string operand: past the end the value is
    [undefined], which [+] renders as the word. *)
Definition idx (s : string) (i : nat) : string :=
  match String.get i s with
  | Some c => String c EmptyString
  | None => "undefined"
  end.

(** [s.slice(-2)]: the last two characters, the whole string when it is
    shorter. *)
Definition slice_last2 (s : string) : string :=
  substring (String.length s - 2) 2 s.

(** [/^\d+$/.test(s)]. *)
Definition isDigit (c : ascii) : bool :=
  (48 <=? nat_of_ascii c)%nat && (nat_of_ascii c <=? 57)%nat.

Definition all_digits (s : string) : bool :=
  match s with
  | EmptyString => false
  | _ => forallb isDigit (list_ascii_of_string s)
  end.

(** [a.slice(0, i)] followed by [a.slice(i + 1)]. *)
Definition remove_at {A} (i : nat) (a : list A) : list A :=
  firstn i a ++ skipn (S i) a.

(** A [Set] of strings, in insertion order. *)
Definition set_has (k : string) (s : list string) : bool :=
  existsb (String.eqb k) s.

Fixpoint set_add (k : string) (s : list string) : list string :=
  match s with
  | [] => [k]
  | x :: s' => if String.eqb k x then s else x :: set_add k s'
  end.

(** [new Set(a)]. *)
Definition set_of (a : list string) : list string :=
  fold_left (fun s k => set_add k s) a [].

(** [a.sort(cmp)]: [cmp x y] is negative, zero or positive. *)
Section Sort.
Variable A : Type.
Variable cmp : A -> A -> Z.

Fixpoint insert (x : A) (l : list A) : list A :=
  match l with
  | [] => [x]
  | y :: l' => if (cmp x y <=? 0)%Z then x :: l else y :: insert x l'
  end.

Fixpoint sort_by (l : list A) : list A :=
  match l with
  | [] => []
  | x :: l' => insert x (sort_by l')
  end.
End Sort.

(** The default comparator of [a.sort()] on strings: code unit order. *)
Definition string_cmp (a b : string) : Z :=
  match String.compare a b with
  | Lt => (-1)%Z
  | Eq => 0%Z
  | Gt => 1%Z
  end.

Definition sort (a : list string) : list string := sort_by string_cmp a.

End Js.

(* ------------------------------------------------------------------ *)
(** * Categories ([shared/schemas/index.ts]) *)

Inductive Category : Type :=
| C3top | C3tod | C3down | C3back
| C2top | C2tod | C2down | C2back.

Definition Category_eqb (a b : Category) : bool :=
  match a, b with
  | C3top, C3top | C3tod, C3tod | C3down, C3down | C3back, C3back
  | C2top, C2top | C2tod, C2tod | C2down, C2down | C2back, C2back => true
  | _, _ => false
  end.

(** The string of the enumeration's value. *)
Definition categoryName (c : Category) : string :=
  match c with
  | C3top => "3top" | C3tod => "3tod" | C3down => "3down" | C3back => "3back"
  | C2top => "2top" | C2tod => "2tod" | C2down => "2down" | C2back => "2back"
  end.

Definition CATEGORY_DIGIT_LENGTH (c : Category) : nat :=
  match c with
  | C3top | C3tod | C3down | C3back => 3
  | C2top | C2tod | C2down | C2back => 2
  end.

(* ------------------------------------------------------------------ *)
(** * Number expansion ([frontend/src/lib/expand.ts]) *)

Module Expand.

(** The two errors of [validateNumber], with what their messages show. *)
Inductive Error : Type :=
| NotDigits (raw : string)
| WrongLength (raw : string) (len : nat) (category : Category) (expected : nat).

Record PermState : Type := mkPermState {
  seen : list string;
  results : list (list string)
}.

(** The inner [permute] of [getUniquePermutations]; the closure's [seen]
    and [results] are threaded as a state.  [fuel] bounds the depth of the
    recursion, which is the length of [arr]. *)
Fixpoint permute (fuel : nat) (arr current : list string) (st : PermState)
  : PermState :=
  match arr with
  | [] =>
      let key := Js.join current in
      if Js.set_has key (seen st) then st
      else mkPermState (seen st ++ [key]) (results st ++ [current])
  | _ :: _ =>
      match fuel with
      | O => st
      | S fuel' =>
          fold_left
            (fun st i =>
               permute fuel' (Js.remove_at i arr)
                       (current ++ [nth i arr ""]) st)
            (seq 0 (List.length arr)) st
      end
  end.

Definition getUniquePermutations (chars : list string) : list (list string) :=
  results (permute (List.length chars) chars [] (mkPermState [] [])).

Definition validateNumber (raw : string) (category : Category)
  : Result Error unit :=
  if negb (Js.all_digits raw) then Throw (NotDigits raw)
  else
    let expectedLength := CATEGORY_DIGIT_LENGTH category in
    if negb (String.length raw =? expectedLength)%nat
    then Throw (WrongLength raw (String.length raw) category expectedLength)
    else Ok tt.

Definition expandNumber (raw : string) (category : Category)
  : Result Error (list string) :=
  do _ <- validateNumber raw category;
  if Category_eqb category C3tod then
    let chars := Js.split_chars raw in
    let permutations := getUniquePermutations chars in
    Ok (Js.sort (map Js.join permutations))
  else if Category_eqb category C2tod then
    let swapped := (Js.idx raw 1 ++ Js.idx raw 0)%string in
    if String.eqb raw swapped then Ok [raw]
    else Ok (Js.sort [raw; swapped])
  else Ok [raw].

Definition getExpansionCount (raw : string) (category : Category) : nat :=
  if Category_eqb category C3tod then
    let unique := Js.set_of (Js.split_chars raw) in
    if (List.length unique =? 1)%nat then 1
    else if (List.length unique =? 2)%nat then 3
    else 6
  else if Category_eqb category C2tod then
    if String.eqb (Js.idx raw 0) (Js.idx raw 1) then 1 else 2
  else 1.

End Expand.

(* ------------------------------------------------------------------ *)
(** * The data model ([shared/schemas/index.ts]) *)

Module PerComboTotal.
Record t : Type := mk {
  combo : string;
  unitPrice : Z;
  quantity : Z;
  soldAmount : Z;
  payoutRate : Z
}.
End PerComboTotal.

Module Entry.
Record t : Type := mk {
  id : string;
  category : Category;
  raw : string;
  expanded : option (list string);
  unitPrice : Z;
  quantity : Z;
  perComboTotals : option (list PerComboTotal.t);
  total : option Z
}.
End Entry.

Module Ticket.
Record t : Type := mk {
  id : string;
  agentId : string;
  round : string;
  date : string;
  entries : list Entry.t;
  billTotal : Z;
  deleted : bool
}.
End Ticket.

Module BlockedNumber.
Record t : Type := mk {
  id : string;
  number : string;
  category : Category;
  payoutOverride : Z;
  enabled : bool
}.
End BlockedNumber.

Module Settings.
Record t : Type := mk {
  payouts : Category -> Z;
  perComboMax : Z;
  perNumberMax : Z;
  riskyThreshold : Z
}.
End Settings.

Definition DEFAULT_PAYOUTS (c : Category) : Z :=
  match c with
  | C3top => 800 | C3tod => 130 | C3down => 400 | C3back => 130
  | C2top => 70 | C2tod => 35 | C2down => 70 | C2back => 35
  end%Z.

Definition DEFAULT_SETTINGS : Settings.t :=
  Settings.mk DEFAULT_PAYOUTS 10000 50000 5000.

Module LotteryResult.
Record t : Type := mk {
  date : string;
  firstPrize : option string;
  threeTop : option string;
  threeDown : option string;
  twoDown : option string;
  threeTod1 : option string;
  threeTod2 : option string;
  threeTod3 : option string;
  threeTod4 : option string
}.
End LotteryResult.

Module RiskyNumber.
Record t : Type := mk {
  combo : string;
  category : Category;
  soldAmount : Z;
  threshold : Z
}.
End RiskyNumber.

(* ------------------------------------------------------------------ *)
(** * A [Map] with string keys, in insertion order *)

Module JsMap.
Section Ops.
Variable V : Type.

Definition t : Type := list (string * V).

Fixpoint get (k : string) (m : t) : option V :=
  match m with
  | [] => None
  | (k', v) :: m' => if String.eqb k k' then Some v else get k m'
  end.

(** [m.set(k, v)]: a key already present keeps its place. *)
Fixpoint set (k : string) (v : V) (m : t) : t :=
  match m with
  | [] => [(k, v)]
  | (k', v') :: m' =>
      if String.eqb k k' then (k', v) :: m' else (k', v') :: set k v m'
  end.

Definition keys (m : t) : list string := map fst m.
Definition values (m : t) : list V := map snd m.
End Ops.
End JsMap.

(* ------------------------------------------------------------------ *)
(** * Entry totals and exposure aggregation
      ([frontend/src/lib/compute.ts]) *)

Module Compute.

Definition findBlockedNumber (combo : string) (category : Category)
           (blockedNumbers : list BlockedNumber.t) : option BlockedNumber.t :=
  find (fun b =>
          String.eqb (BlockedNumber.number b) combo
          && Category_eqb (BlockedNumber.category b) category
          && BlockedNumber.enabled b)
       blockedNumbers.

Definition computeEntryTotals (entry : Entry.t) (settings : Settings.t)
           (blockedNumbers : list BlockedNumber.t)
  : Result Expand.Error Entry.t :=
  do expanded <- Expand.expandNumber (Entry.raw entry) (Entry.category entry);
  let isTodCategory :=
    Category_eqb (Entry.category entry) C3tod
    || Category_eqb (Entry.category entry) C2tod in
  let perComboTotals :=
    map (fun combo =>
           let blocked :=
             findBlockedNumber combo (Entry.category entry) blockedNumbers in
           let payoutRate :=
             match blocked with
             | Some b => BlockedNumber.payoutOverride b
             | None => Settings.payouts settings (Entry.category entry)
             end in
           let soldAmount :=
             (Entry.unitPrice entry * Entry.quantity entry)%Z in
           PerComboTotal.mk combo (Entry.unitPrice entry)
                            (Entry.quantity entry) soldAmount payoutRate)
        expanded in
  let total :=
    if isTodCategory
    then (Entry.unitPrice entry * Entry.quantity entry)%Z
    else fold_left (fun sum combo => (sum + PerComboTotal.soldAmount combo)%Z)
                   perComboTotals 0%Z in
  Ok (Entry.mk (Entry.id entry) (Entry.category entry) (Entry.raw entry)
               (Some expanded) (Entry.unitPrice entry) (Entry.quantity entry)
               (Some perComboTotals) (Some total)).

(** The value type of the map of [aggregateComboSales]. *)
Module ComboSale.
Record t : Type := mk {
  combo : string;
  category : Category;
  soldAmount : Z
}.
End ComboSale.

Definition comboKey (category : Category) (combo : string) : string :=
  (categoryName category ++ ":" ++ combo)%string.

Definition aggregateComboSales (tickets : list Ticket.t)
  : JsMap.t ComboSale.t :=
  fold_left
    (fun comboMap ticket =>
       if Ticket.deleted ticket then comboMap
       else
         fold_left
           (fun comboMap entry =>
              match Entry.perComboTotals entry with
              | None => comboMap
              | Some perComboTotals =>
                  fold_left
                    (fun comboMap comboTotal =>
                       let key :=
                         comboKey (Entry.category entry)
                                  (PerComboTotal.combo comboTotal) in
                       match JsMap.get key comboMap with
                       | Some existing =>
                           JsMap.set key
                             (ComboSale.mk
                                (ComboSale.combo existing)
                                (ComboSale.category existing)
                                (ComboSale.soldAmount existing
                                 + PerComboTotal.soldAmount comboTotal)%Z)
                             comboMap
                       | None =>
                           JsMap.set key
                             (ComboSale.mk
                                (PerComboTotal.combo comboTotal)
                                (Entry.category entry)
                                (PerComboTotal.soldAmount comboTotal))
                             comboMap
                       end)
                    perComboTotals comboMap
              end)
           (Ticket.entries ticket) comboMap)
    tickets [].

Definition findRiskyNumbers (tickets : list Ticket.t) (threshold : Z)
  : list RiskyNumber.t :=
  let comboSales := aggregateComboSales tickets in
  let riskyNumbers :=
    fold_left
      (fun riskyNumbers kv =>
         let data := snd kv in
         if (ComboSale.soldAmount data >? threshold)%Z
         then riskyNumbers
                ++ [RiskyNumber.mk (ComboSale.combo data)
                                   (ComboSale.category data)
                                   (ComboSale.soldAmount data) threshold]
         else riskyNumbers)
      comboSales [] in
  Js.sort_by
    (fun a b => (RiskyNumber.soldAmount b - RiskyNumber.soldAmount a)%Z)
    riskyNumbers.

Module NumberTotal.
Record t : Type := mk {
  number : string;
  category : Category;
  totalAmount : Z;
  exceedsCeiling : bool
}.
End NumberTotal.

Definition numberKey (category : Category) (num : string) : string :=
  (categoryName category ++ "-" ++ num)%string.

(** [entry.perComboTotals?.find(p => p.combo === num)?.soldAmount
     ?? entry.unitPrice]. *)
Definition perComboAmount (entry : Entry.t) (num : string) : Z :=
  match
    match Entry.perComboTotals entry with
    | Some perComboTotals =>
        find (fun p => String.eqb (PerComboTotal.combo p) num) perComboTotals
    | None => None
    end
  with
  | Some p => PerComboTotal.soldAmount p
  | None => Entry.unitPrice entry
  end.

(** The body of the innermost loop of [getNumberTotals]. *)
Definition addNumber (perNumberMax : Z) (entry : Entry.t)
           (numberMap : JsMap.t NumberTotal.t) (num : string)
  : JsMap.t NumberTotal.t :=
  let key := numberKey (Entry.category entry) num in
  let perComboAmount := perComboAmount entry num in
  match JsMap.get key numberMap with
  | Some existing =>
      let totalAmount :=
        (NumberTotal.totalAmount existing + perComboAmount)%Z in
      JsMap.set key
        (NumberTotal.mk (NumberTotal.number existing)
                        (NumberTotal.category existing)
                        totalAmount
                        (totalAmount >=? perNumberMax)%Z)
        numberMap
  | None =>
      let total := perComboAmount in
      JsMap.set key
        (NumberTotal.mk num (Entry.category entry) total
                        (total >=? perNumberMax)%Z)
        numberMap
  end.

Definition getNumberTotals (tickets : list Ticket.t) (date : string)
           (perNumberMax : Z) : JsMap.t NumberTotal.t :=
  let filteredTickets :=
    filter (fun t => negb (Ticket.deleted t) && String.eqb (Ticket.date t) date)
           tickets in
  fold_left
    (fun numberMap ticket =>
       fold_left
         (fun numberMap entry =>
            let expanded :=
              match Entry.expanded entry with
              | Some expanded => expanded
              | None => [Entry.raw entry]
              end in
            fold_left (addNumber perNumberMax entry) expanded numberMap)
         (Ticket.entries ticket) numberMap)
    filteredTickets [].

End Compute.

(* ------------------------------------------------------------------ *)
(** * Actual payout reconciliation ([frontend/src/lib/payout.ts]) *)

Module Payout.

(** [x === combo] for an optional field [x]. *)
Definition field_is (x : option string) (combo : string) : bool :=
  match x with
  | Some s => String.eqb s combo
  | None => false
  end.

(** [threeTop ? threeTop.slice(-2) : ""]: an absent or empty [threeTop]
    is falsy. *)
Definition twoTop (result : LotteryResult.t) : string :=
  match LotteryResult.threeTop result with
  | Some threeTop =>
      match threeTop with
      | EmptyString => ""
      | _ => Js.slice_last2 threeTop
      end
  | None => ""
  end.

Definition isWin (result : LotteryResult.t) (combo : string)
           (category : Category) : bool :=
  match category with
  | C3top | C3tod => field_is (LotteryResult.threeTop result) combo
  | C2top => String.eqb (twoTop result) combo
  | C2down => field_is (LotteryResult.twoDown result) combo
  | C3down =>
      field_is (LotteryResult.threeTod3 result) combo
      || field_is (LotteryResult.threeTod4 result) combo
  | _ => false
  end.

(** [result] is [None] for a result that is [null] or [undefined]. *)
Definition computeActualPayout (tickets : list Ticket.t)
           (result : option LotteryResult.t) : Z :=
  match result with
  | None => 0%Z
  | Some result =>
      fold_left
        (fun totalPayout ticket =>
           if Ticket.deleted ticket then totalPayout
           else
             fold_left
               (fun totalPayout entry =>
                  match Entry.perComboTotals entry with
                  | None => totalPayout
                  | Some perComboTotals =>
                      fold_left
                        (fun totalPayout item =>
                           if isWin result (PerComboTotal.combo item)
                                    (Entry.category entry)
                           then (totalPayout
                                 + PerComboTotal.payoutRate item
                                   * PerComboTotal.unitPrice item
                                   * PerComboTotal.quantity item)%Z
                           else totalPayout)
                        perComboTotals totalPayout
                  end)
               (Ticket.entries ticket) totalPayout)
        tickets 0%Z
  end.

End Payout.

(* ------------------------------------------------------------------ *)
(** * Draw periods ([frontend/src/lib/drawPeriod.ts]) *)

Module DrawPeriod.

(** What the getters of a valid [Date] return: [getMonth] counts from 0. *)
Record JsDate : Type := mkDate {
  getFullYear : Z;
  getMonth : Z;
  getDate : Z
}.

Definition digitValue (c : ascii) : option Z :=
  if Js.isDigit c then Some (Z.of_nat (nat_of_ascii c) - 48)%Z else None.

Definition isLeapYear (y : Z) : bool :=
  ((y mod 4 =? 0) && (negb (y mod 100 =? 0) || (y mod 400 =? 0)))%Z.

Definition daysInMonth (y m : Z) : Z :=
  (if m =? 2 then (if isLeapYear y then 29 else 28)
   else if (m =? 4) || (m =? 6) || (m =? 9) || (m =? 11) then 30
   else 31)%Z.

(** The calendar day of an instant.  A date-only string is midnight UTC of
    the day [utcDate] computes: the engine the application runs on (V8)
    takes a day of 1 to 31 in every month and carries the days a shorter
    month lacks into the next one, so that [2025-02-30] is 2 March. *)
Definition utcDate (year month day : Z) : JsDate :=
  (if day <=? daysInMonth year month
   then mkDate year (month - 1) day
   else mkDate year month (day - daysInMonth year month))%Z.

(** The day before, which is the local day at midnight UTC in a zone west
    of UTC. *)
Definition prevDay (d : JsDate) : JsDate :=
  (if 1 <? getDate d
   then mkDate (getFullYear d) (getMonth d) (getDate d - 1)
   else if 0 <? getMonth d
   then mkDate (getFullYear d) (getMonth d - 1)
               (daysInMonth (getFullYear d) (getMonth d))
   else mkDate (getFullYear d - 1) 11 31)%Z.

(** The getters [getFullYear], [getMonth] and [getDate] are local.  [tz] is
    the offset of the zone of the process in minutes east of UTC (420 in
    Bangkok, -300 in New York), between -720 and 840: at midnight UTC the
    local day is the same day at or east of UTC and the day before west of
    it. *)
Definition toLocal (tz : Z) (d : JsDate) : JsDate :=
  if (tz <? 0)%Z then prevDay d else d.

(** [new Date(s)] read through its getters, for the date-only form
    [YYYY-MM-DD] that the application stores.  Any other string is an
    invalid date here, [None], whose getters are [NaN]. *)
Definition parseDate (tz : Z) (s : string) : option JsDate :=
  match list_ascii_of_string s with
  | [y1; y2; y3; y4; sep1; m1; m2; sep2; d1; d2] =>
      match digitValue y1, digitValue y2, digitValue y3, digitValue y4,
            digitValue m1, digitValue m2, digitValue d1, digitValue d2 with
      | Some a, Some b, Some c, Some d, Some e, Some f, Some g, Some h =>
          let year := (a * 1000 + b * 100 + c * 10 + d)%Z in
          let month := (e * 10 + f)%Z in
          let day := (g * 10 + h)%Z in
          if Ascii.eqb sep1 "-" && Ascii.eqb sep2 "-"
             && (1 <=? month)%Z && (month <=? 12)%Z
             && (1 <=? day)%Z && (day <=? 31)%Z
          then Some (toLocal tz (utcDate year month day))
          else None
      | _, _, _, _, _, _, _, _ => None
      end
  | _ => None
  end.

(** A comparison with [NaN] is false, so an invalid date on either side
    makes every test of the function fail. *)
Definition isDateInDrawPeriod (tz : Z) (ticketDate drawPeriodId : string)
  : bool :=
  match parseDate tz ticketDate, parseDate tz drawPeriodId with
  | Some tDate, Some dpDate =>
      let tDay := getDate tDate in
      let tMonth := getMonth tDate in
      let tYear := getFullYear tDate in
      let dpDay := getDate dpDate in
      let dpMonth := getMonth dpDate in
      let dpYear := getFullYear dpDate in
      (if dpDay =? 1 then
         let prevMonth := if dpMonth =? 0 then 11 else dpMonth - 1 in
         let prevYear := if dpMonth =? 0 then dpYear - 1 else dpYear in
         if (tYear =? prevYear) && (tMonth =? prevMonth) && (tDay >=? 18)
         then true
         else if (tYear =? dpYear) && (tMonth =? dpMonth) && (tDay =? 1)
         then true
         else false
       else if dpDay =? 16 then
         if (tYear =? dpYear) && (tMonth =? dpMonth)
            && (tDay >=? 2) && (tDay <=? 17)
         then true
         else false
       else false)%Z
  | _, _ => false
  end.

End DrawPeriod.


(* ------------------------------------------------------------------ *)
(** * The vocabulary of the specification

    What the specification says in words, written independently of the
    code above; the theorems below relate the two. *)

Module Spec.

(** The ten digit characters. *)
Definition digits : list ascii :=
  ["0"; "1"; "2"; "3"; "4"; "5"; "6"; "7"; "8"; "9"]%char.

Definition IsDigitChar (c : ascii) : Prop := In c digits.

(** A raw string "containing a non-digit character". *)
Definition HasNonDigit (raw : string) : Prop :=
  exists c, In c (list_ascii_of_string raw) /\ ~ IsDigitChar c.

(** A "purely numeric" raw string: it matches [^\d+$], one digit or more. *)
Definition PurelyNumeric (raw : string) : Prop :=
  raw <> EmptyString
  /\ forall c, In c (list_ascii_of_string raw) -> IsDigitChar c.

(** A valid pair: a numeric string of the category's digit length. *)
Definition ValidRaw (raw : string) (category : Category) : Prop :=
  PurelyNumeric raw /\ String.length raw = CATEGORY_DIGIT_LENGTH category.

(** Every arrangement of a list of characters, with repeats. *)
Fixpoint insertions (c : ascii) (l : list ascii) : list (list ascii) :=
  match l with
  | [] => [[c]]
  | x :: l' => (c :: l) :: map (cons x) (insertions c l')
  end.

Fixpoint arrangements (l : list ascii) : list (list ascii) :=
  match l with
  | [] => [[]]
  | c :: l' => flat_map (insertions c) (arrangements l')
  end.

(** A set of strings as its ascending list without repeats. *)
Fixpoint insertUnique (s : string) (l : list string) : list string :=
  match l with
  | [] => [s]
  | x :: l' =>
      match String.compare s x with
      | Lt => s :: l
      | Eq => l
      | Gt => x :: insertUnique s l'
      end
  end.

Definition ascendingSet (l : list string) : list string :=
  fold_right insertUnique [] l.

(** The expansion of a permutation bet: the set of the unique permutations
    of the digits of [raw], sorted ascending.  For two digits this is
    [raw] and its reverse. *)
Definition permutationSet (raw : string) : list string :=
  ascendingSet
    (map string_of_list_ascii (arrangements (list_ascii_of_string raw))).

(** The single-charge categories. *)
Definition IsTod (category : Category) : Prop :=
  category = C3tod \/ category = C2tod.

(** The sum of [soldAmount] over per-combo totals. *)
Fixpoint sumSold (l : list PerComboTotal.t) : Z :=
  match l with
  | [] => 0
  | p :: l' => PerComboTotal.soldAmount p + sumSold l'
  end%Z.

(** An override that applies to a combo of a category. *)
Definition Matches (combo : string) (category : Category)
           (b : BlockedNumber.t) : Prop :=
  BlockedNumber.enabled b = true
  /\ BlockedNumber.number b = combo
  /\ BlockedNumber.category b = category.

(** [b] is the first override of the list that applies. *)
Definition FirstMatch (combo : string) (category : Category)
           (blockedNumbers : list BlockedNumber.t) (b : BlockedNumber.t)
  : Prop :=
  exists before after,
    blockedNumbers = before ++ b :: after
    /\ Matches combo category b
    /\ forall x, In x before -> ~ Matches combo category x.

Definition NoMatch (combo : string) (category : Category)
           (blockedNumbers : list BlockedNumber.t) : Prop :=
  forall x, In x blockedNumbers -> ~ Matches combo category x.

(** Every per-combo total of every entry of every ticket that is not
    soft-deleted, with the category of its entry, in order. *)
Definition entryCombos (e : Entry.t) : list (Category * PerComboTotal.t) :=
  match Entry.perComboTotals e with
  | Some l => map (fun p => (Entry.category e, p)) l
  | None => []
  end.

Definition liveCombos (tickets : list Ticket.t)
  : list (Category * PerComboTotal.t) :=
  flat_map (fun t => flat_map entryCombos (Ticket.entries t))
           (filter (fun t => negb (Ticket.deleted t)) tickets).

Fixpoint sumZ (l : list Z) : Z :=
  match l with
  | [] => 0
  | x :: l' => x + sumZ l'
  end%Z.







(** The summed [soldAmount] of a (category, combo) pair over a list of
    per-combo totals. *)
Definition isPair (category : Category) (combo : string)
           (x : Category * PerComboTotal.t) : bool :=
  Category_eqb (fst x) category
  && String.eqb (PerComboTotal.combo (snd x)) combo.

Definition soldTotal (tickets : list Ticket.t) (category : Category)
           (combo : string) : Z :=
  sumZ (map (fun x => PerComboTotal.soldAmount (snd x))
            (filter (isPair category combo) (liveCombos tickets))).

(** The pair has a per-combo total in some ticket that is not deleted. *)
Definition Sold (tickets : list Ticket.t) (category : Category)
           (combo : string) : Prop :=
  exists p, In (category, p) (liveCombos tickets)
            /\ PerComboTotal.combo p = combo.

(** The tickets [getNumberTotals] looks at. *)
Definition OnDate (date : string) (t : Ticket.t) : Prop :=
  Ticket.deleted t = false /\ Ticket.date t = date.

Definition onDateb (date : string) (t : Ticket.t) : bool :=
  negb (Ticket.deleted t) && String.eqb (Ticket.date t) date.

(** The numbers of an entry: its expansion, or its raw number when the
    entry carries no expansion. *)
Definition numbersOf (e : Entry.t) : list string :=
  match Entry.expanded e with
  | Some l => l
  | None => [Entry.raw e]
  end.

(** The numbers of an entry, each with the amount it adds. *)
Definition entryNumbers (e : Entry.t) : list (Category * string * Z) :=
  map (fun num => (Entry.category e, num, Compute.perComboAmount e num))
      (numbersOf e).




Definition dateNumbers (tickets : list Ticket.t) (date : string)
  : list (Category * string * Z) :=
  flat_map (fun t => flat_map entryNumbers (Ticket.entries t))
           (filter (onDateb date) tickets).

Definition isNumber (category : Category) (num : string)
           (x : Category * string * Z) : bool :=
  Category_eqb (fst (fst x)) category && String.eqb (snd (fst x)) num.

Definition numberTotal (tickets : list Ticket.t) (date : string)
           (category : Category) (num : string) : Z :=
  sumZ (map snd (filter (isNumber category num) (dateNumbers tickets date))).

(** Months counted from year 0, so that the month before January is the
    December of the year before. *)
Definition monthIndex (d : DrawPeriod.JsDate) : Z :=
  (DrawPeriod.getFullYear d * 12 + DrawPeriod.getMonth d)%Z.

(** The containment rule of the draw periods. *)
Definition InPeriod (t p : DrawPeriod.JsDate) : Prop :=
  (DrawPeriod.getDate p = 1
   /\ ((monthIndex t = monthIndex p - 1 /\ 18 <= DrawPeriod.getDate t)
       \/ (monthIndex t = monthIndex p /\ DrawPeriod.getDate t = 1)))%Z
  \/ (DrawPeriod.getDate p = 16
      /\ monthIndex t = monthIndex p
      /\ 2 <= DrawPeriod.getDate t <= 17)%Z.

(** The calendar day that a string [YYYY-MM-DD] writes, when it is a day
    of the calendar: months count from 0, as the getters of [Date] do. *)
Definition writtenDate (s : string) : option DrawPeriod.JsDate :=
  match list_ascii_of_string s with
  | [y1; y2; y3; y4; sep1; m1; m2; sep2; d1; d2] =>
      match DrawPeriod.digitValue y1, DrawPeriod.digitValue y2,
            DrawPeriod.digitValue y3, DrawPeriod.digitValue y4,
            DrawPeriod.digitValue m1, DrawPeriod.digitValue m2,
            DrawPeriod.digitValue d1, DrawPeriod.digitValue d2 with
      | Some a, Some b, Some c, Some d, Some e, Some f, Some g, Some h =>
          let year := (a * 1000 + b * 100 + c * 10 + d)%Z in
          let month := (e * 10 + f)%Z in
          let day := (g * 10 + h)%Z in
          if Ascii.eqb sep1 "-" && Ascii.eqb sep2 "-"
             && (1 <=? month)%Z && (month <=? 12)%Z
             && (1 <=? day)%Z
             && (day <=? DrawPeriod.daysInMonth year month)%Z
          then Some (DrawPeriod.mkDate year (month - 1) day)
          else None
      | _, _, _, _, _, _, _, _ => None
      end
  | _ => None
  end.

(** The entry with another quantity. *)
Definition withQuantity (e : Entry.t) (q : Z) : Entry.t :=
  Entry.mk (Entry.id e) (Entry.category e) (Entry.raw e) (Entry.expanded e)
           (Entry.unitPrice e) q (Entry.perComboTotals e) (Entry.total e).

End Spec.

(* ------------------------------------------------------------------ *)
(** * Aggregation into a map, in general

    The loops of [aggregateComboSales] and [getNumberTotals] have one shape:
    each item either starts the value of its key or is merged into it. *)

Module Aggregate.

Section Upsert.
Variables A V : Type.
Variable key : A -> string.
Variable init : A -> V.
Variable merge : V -> A -> V.

Definition upsert (m : JsMap.t V) (a : A) : JsMap.t V :=
  match JsMap.get (key a) m with
  | Some existing => JsMap.set (key a) (merge existing a) m
  | None => JsMap.set (key a) (init a) m
  end.

(** The value that a list of items of one key adds up to. *)
Definition summary (l : list A) : option V :=
  match l with
  | [] => None
  | a :: l' => Some (fold_left merge l' (init a))
  end.
End Upsert.

(** The items of [aggregateComboSales]. *)
Definition comboItemKey (x : Category * PerComboTotal.t) : string :=
  Compute.comboKey (fst x) (PerComboTotal.combo (snd x)).

Definition comboInit (x : Category * PerComboTotal.t) : Compute.ComboSale.t :=
  Compute.ComboSale.mk (PerComboTotal.combo (snd x)) (fst x)
                       (PerComboTotal.soldAmount (snd x)).

Definition comboMerge (existing : Compute.ComboSale.t)
           (x : Category * PerComboTotal.t) : Compute.ComboSale.t :=
  Compute.ComboSale.mk
    (Compute.ComboSale.combo existing)
    (Compute.ComboSale.category existing)
    (Compute.ComboSale.soldAmount existing
     + PerComboTotal.soldAmount (snd x))%Z.

Definition toRisky (threshold : Z) (data : Compute.ComboSale.t)
  : RiskyNumber.t :=
  RiskyNumber.mk (Compute.ComboSale.combo data)
                 (Compute.ComboSale.category data)
                 (Compute.ComboSale.soldAmount data) threshold.

(** The pair that a risky number reports. *)
Definition riskyPair (r : RiskyNumber.t) : Category * string :=
  (RiskyNumber.category r, RiskyNumber.combo r).

(** The items of [getNumberTotals]. *)
Definition numberItemKey (x : Category * string * Z) : string :=
  Compute.numberKey (fst (fst x)) (snd (fst x)).

Definition numberInit (perNumberMax : Z) (x : Category * string * Z)
  : Compute.NumberTotal.t :=
  Compute.NumberTotal.mk (snd (fst x)) (fst (fst x)) (snd x)
                         (snd x >=? perNumberMax)%Z.

Definition numberMerge (perNumberMax : Z) (existing : Compute.NumberTotal.t)
           (x : Category * string * Z) : Compute.NumberTotal.t :=
  Compute.NumberTotal.mk
    (Compute.NumberTotal.number existing)
    (Compute.NumberTotal.category existing)
    (Compute.NumberTotal.totalAmount existing + snd x)%Z
    (Compute.NumberTotal.totalAmount existing + snd x >=? perNumberMax)%Z.

End Aggregate.

(* ------------------------------------------------------------------ *)
(** * Exhaustive checks over the digit strings *)

Module Exhaustive.

Definition str2 (a b : ascii) : string := String a (String b EmptyString).

Definition str3 (a b c : ascii) : string :=
  String a (String b (String c EmptyString)).

(** [getExpansionCount] agrees with the length of the expansion. *)
Definition count_agrees (raw : string) (category : Category) : bool :=
  match Expand.expandNumber raw category with
  | Ok combos =>
      (Expand.getExpansionCount raw category =? List.length combos)%nat
  | Throw _ => false
  end.

Fixpoint strings_eqb (l1 l2 : list string) : bool :=
  match l1, l2 with
  | [], [] => true
  | x :: l1', y :: l2' => String.eqb x y && strings_eqb l1' l2'
  | _, _ => false
  end.

(** The expansion is the permutation set of the raw string. *)
Definition expands_to_permutations (raw : string) (category : Category)
  : bool :=
  match Expand.expandNumber raw category with
  | Ok combos => strings_eqb combos (Spec.permutationSet raw)
  | Throw _ => false
  end.

Definition all_pairs (P : ascii -> ascii -> bool) : bool :=
  forallb (fun a => forallb (P a) Spec.digits) Spec.digits.

Definition all_triples (P : ascii -> ascii -> ascii -> bool) : bool :=
  forallb (fun a => all_pairs (P a)) Spec.digits.

End Exhaustive.

(* ------------------------------------------------------------------ *)
(** * Sample data, for the examples *)

Module Sample.

(** A new entry, before [computeEntryTotals] fills the derived fields. *)
Definition entry (category : Category) (raw : string) (unitPrice quantity : Z)
  : Entry.t :=
  Entry.mk "e" category raw None unitPrice quantity None None.

Definition blocked123 : BlockedNumber.t :=
  BlockedNumber.mk "b1" "123" C3tod 100 true.

Definition blocked123_later : BlockedNumber.t :=
  BlockedNumber.mk "b2" "123" C3tod 90 true.

Definition blocked321_disabled : BlockedNumber.t :=
  BlockedNumber.mk "b3" "321" C3tod 50 false.

Definition blockedNumbers : list BlockedNumber.t :=
  [blocked321_disabled; blocked123; blocked123_later].

(** The entry as [computeEntryTotals] returns it (the default when the
    entry is not valid). *)
Definition computed (e : Entry.t) (blocked : list BlockedNumber.t) : Entry.t :=
  match Compute.computeEntryTotals e DEFAULT_SETTINGS blocked with
  | Ok e' => e'
  | Throw _ => e
  end.

Definition ticket (id date : string) (deleted : bool) (entries : list Entry.t)
  : Ticket.t :=
  Ticket.mk id "agent" "evening" date entries
            (fold_left (fun sum e =>
                          (sum + match Entry.total e with
                                 | Some t => t
                                 | None => 0
                                 end)%Z) entries 0%Z)
            deleted.

Definition result123 : LotteryResult.t :=
  LotteryResult.mk "2025-01-16" (Some "000123") (Some "123") None (Some "45")
                   None None (Some "678") (Some "901").

End Sample.

(* ------------------------------------------------------------------ *)
(** * Sample tickets *)

Module SampleTickets.

Definition t1 : Ticket.t :=
  Sample.ticket "t1" "2025-01-10" false
    [Sample.computed (Sample.entry C2top "12" 100 1) [];
     Sample.computed (Sample.entry C2tod "12" 50 2) []].

Definition t2 : Ticket.t :=
  Sample.ticket "t2" "2025-01-10" false
    [Sample.computed (Sample.entry C2top "12" 20 1) [];
     Sample.computed (Sample.entry C3top "123" 100 1) []].

Definition t3_deleted : Ticket.t :=
  Sample.ticket "t3" "2025-01-10" true
    [Sample.computed (Sample.entry C2top "12" 1000 1) []].

Definition t4_other_day : Ticket.t :=
  Sample.ticket "t4" "2025-01-11" false
    [Sample.computed (Sample.entry C2top "12" 500 1) []].

Definition tickets : list Ticket.t := [t1; t2; t3_deleted; t4_other_day].

End SampleTickets.

(* ------------------------------------------------------------------ *)
(** * The rest of [frontend/src/lib/expand.ts] *)

Module Describe.

(** [['3tod', '2tod'].includes(category)]. *)
Definition isExpandableCategory (category : Category) : bool :=
  existsb (String.eqb (categoryName category)) ["3tod"; "2tod"].

(** [expanded.join(', ')] is only reached when the count is not 1; the
    count itself is taken without validation. *)
Definition getExpansionDescription (raw : string) (category : Category)
  : Result Expand.Error string :=
  let count := Expand.getExpansionCount raw category in
  if (count =? 1)%nat then Ok raw
  else
    do expanded <- Expand.expandNumber raw category;
    Ok (String.concat ", " expanded).

End Describe.

(* ------------------------------------------------------------------ *)
(** * Bills ([frontend/src/lib/compute.ts]) *)

Module Bill.

(** [entry.total ?? 0]. *)
Definition totalOr0 (entry : Entry.t) : Z :=
  match Entry.total entry with
  | Some total => total
  | None => 0%Z
  end.

Definition computeTicketTotal (ticket : Ticket.t) : Z :=
  fold_left (fun sum entry => (sum + totalOr0 entry)%Z)
            (Ticket.entries ticket) 0%Z.

(** [entries.map(f)] for an [f] that may throw: the first entry that
    throws ends the map. *)
Fixpoint mapEntries (f : Entry.t -> Result Expand.Error Entry.t)
         (entries : list Entry.t) : Result Expand.Error (list Entry.t) :=
  match entries with
  | [] => Ok []
  | entry :: rest =>
      do entry' <- f entry;
      do rest' <- mapEntries f rest;
      Ok (entry' :: rest')
  end.

Definition recomputeTicket (ticket : Ticket.t) (settings : Settings.t)
           (blockedNumbers : list BlockedNumber.t)
  : Result Expand.Error Ticket.t :=
  do updatedEntries <-
     mapEntries (fun entry =>
                   Compute.computeEntryTotals entry settings blockedNumbers)
                (Ticket.entries ticket);
  let billTotal :=
    fold_left (fun sum entry => (sum + totalOr0 entry)%Z) updatedEntries 0%Z in
  Ok (Ticket.mk (Ticket.id ticket) (Ticket.agentId ticket)
                (Ticket.round ticket) (Ticket.date ticket)
                updatedEntries billTotal (Ticket.deleted ticket)).

Definition computeEntryExpectedPayout (entry : Entry.t) : Z :=
  match Entry.perComboTotals entry with
  | None => 0%Z
  | Some perComboTotals =>
      fold_left
        (fun sum combo =>
           (sum + PerComboTotal.payoutRate combo
                  * PerComboTotal.unitPrice combo
                  * PerComboTotal.quantity combo)%Z)
        perComboTotals 0%Z
  end.

Definition computeTicketExpectedPayout (ticket : Ticket.t) : Z :=
  fold_left (fun sum entry => (sum + computeEntryExpectedPayout entry)%Z)
            (Ticket.entries ticket) 0%Z.

Definition entryKey (entry : Entry.t) : string :=
  (categoryName (Entry.category entry) ++ ":" ++ Entry.raw entry)%string.

(** [{...existing, quantity: ..., total: ...}]. *)
Definition mergeInto (existing entry : Entry.t) : Entry.t :=
  Entry.mk (Entry.id existing) (Entry.category existing) (Entry.raw existing)
           (Entry.expanded existing) (Entry.unitPrice existing)
           (Entry.quantity existing + Entry.quantity entry)%Z
           (Entry.perComboTotals existing)
           (Some (totalOr0 existing + totalOr0 entry)%Z).

Definition mergeDuplicateEntries (entries : list Entry.t) : list Entry.t :=
  let merged :=
    fold_left
      (fun merged entry =>
         let key := entryKey entry in
         match JsMap.get key merged with
         | Some existing => JsMap.set key (mergeInto existing entry) merged
         | None => JsMap.set key entry merged
         end)
      entries [] in
  JsMap.values merged.

End Bill.

(* ------------------------------------------------------------------ *)
(** * Ceilings ([frontend/src/lib/compute.ts]) *)

Module Ceiling.

Record Violation : Type := mkViolation {
  violated : bool;
  combo : string;
  currentAmount : Z;
  maxAmount : Z
}.

(** The loop of [checkCeilingViolation], which returns at the first combo
    over the ceiling. *)
Fixpoint checkCombos (comboSales : JsMap.t Compute.ComboSale.t)
         (category : Category) (perComboMax : Z)
         (perComboTotals : list PerComboTotal.t) : option Violation :=
  match perComboTotals with
  | [] => None
  | comboTotal :: rest =>
      let key := Compute.comboKey category (PerComboTotal.combo comboTotal) in
      let existing := JsMap.get key comboSales in
      let currentAmount :=
        (match existing with
         | Some e => Compute.ComboSale.soldAmount e
         | None => 0
         end + PerComboTotal.soldAmount comboTotal)%Z in
      if (currentAmount >? perComboMax)%Z
      then Some (mkViolation true (PerComboTotal.combo comboTotal)
                             currentAmount perComboMax)
      else checkCombos comboSales category perComboMax rest
  end.

Definition checkCeilingViolation (tickets : list Ticket.t)
           (newEntry : Entry.t) (settings : Settings.t) : option Violation :=
  let comboSales := Compute.aggregateComboSales tickets in
  match Entry.perComboTotals newEntry with
  | None => None
  | Some perComboTotals =>
      checkCombos comboSales (Entry.category newEntry)
                  (Settings.perComboMax settings) perComboTotals
  end.

Record NumberCeiling : Type := mkNumberCeiling {
  exceeds : bool;
  current : Z;
  max : Z
}.

Definition checkNumberCeiling (number : string) (category : Category)
           (tickets : list Ticket.t) (date : string) (perNumberMax : Z)
  : NumberCeiling :=
  let totals := Compute.getNumberTotals tickets date perNumberMax in
  let key := Compute.numberKey category number in
  let total := JsMap.get key totals in
  mkNumberCeiling
    (match total with
     | Some t => Compute.NumberTotal.exceedsCeiling t
     | None => false
     end)
    (match total with
     | Some t => Compute.NumberTotal.totalAmount t
     | None => 0%Z
     end)
    perNumberMax.

End Ceiling.

(* ------------------------------------------------------------------ *)
(** * Summaries ([frontend/src/lib/compute.ts]) *)

Module Agent.
Record t : Type := mk {
  id : string;
  name : string
}.
End Agent.

Module AgentSummary.
Record t : Type := mk {
  agentId : string;
  agentName : string;
  gross : Z;
  expectedPayout : Z;
  profit : Z;
  ticketCount : Z
}.
End AgentSummary.

Module Summary.

Record t : Type := mk {
  date : string;
  round : option string;
  gross : Z;
  expectedPayout : Z;
  profit : Z;
  ticketCount : Z;
  perAgent : list AgentSummary.t;
  riskyNumbers : list RiskyNumber.t
}.

(** The value type of the map [agentTotals]. *)
Module AgentTotals.
Record t : Type := mk {
  gross : Z;
  expectedPayout : Z;
  ticketCount : Z
}.
End AgentTotals.

(** The state of the loop over the filtered tickets. *)
Record Acc : Type := mkAcc {
  acc_gross : Z;
  acc_expectedPayout : Z;
  acc_agentTotals : JsMap.t AgentTotals.t
}.

(** The filter of [computeSummary]; an absent or empty [round] is falsy
    and filters nothing.  [tz] is the time zone that [isDateInDrawPeriod]
    reads the dates in. *)
Definition keepTicket (tz : Z) (date : string) (round : option string)
           (t : Ticket.t) : bool :=
  if Ticket.deleted t then false
  else if negb (DrawPeriod.isDateInDrawPeriod tz (Ticket.date t) date)
          && negb (String.eqb (Ticket.date t) date)
  then false
  else if match round with
          | Some r => negb (String.eqb r "")
                      && negb (String.eqb (Ticket.round t) r)
          | None => false
          end
  then false
  else true.

Definition addTicket (acc : Acc) (ticket : Ticket.t) : Acc :=
  let ticketGross := Ticket.billTotal ticket in
  let ticketExpectedPayout := Bill.computeTicketExpectedPayout ticket in
  let gross := (acc_gross acc + ticketGross)%Z in
  let expectedPayout := (acc_expectedPayout acc + ticketExpectedPayout)%Z in
  let agentTotals :=
    match JsMap.get (Ticket.agentId ticket) (acc_agentTotals acc) with
    | Some existing =>
        JsMap.set (Ticket.agentId ticket)
          (AgentTotals.mk
             (AgentTotals.gross existing + ticketGross)%Z
             (AgentTotals.expectedPayout existing + ticketExpectedPayout)%Z
             (AgentTotals.ticketCount existing + 1)%Z)
          (acc_agentTotals acc)
    | None =>
        JsMap.set (Ticket.agentId ticket)
          (AgentTotals.mk ticketGross ticketExpectedPayout 1%Z)
          (acc_agentTotals acc)
    end in
  mkAcc gross expectedPayout agentTotals.

Definition agentRow (agents : list Agent.t) (kv : string * AgentTotals.t)
  : AgentSummary.t :=
  let agentId := fst kv in
  let totals := snd kv in
  let agent := find (fun a => String.eqb (Agent.id a) agentId) agents in
  AgentSummary.mk agentId
    (match agent with
     | Some a => Agent.name a
     | None => "Unknown"
     end)
    (AgentTotals.gross totals)
    (AgentTotals.expectedPayout totals)
    (AgentTotals.gross totals - AgentTotals.expectedPayout totals)%Z
    (AgentTotals.ticketCount totals).

Definition computeSummary (tz : Z) (tickets : list Ticket.t)
           (settings : Settings.t) (agents : list Agent.t) (date : string)
           (round : option string) : t :=
  let filteredTickets := filter (keepTicket tz date round) tickets in
  let acc := fold_left addTicket filteredTickets (mkAcc 0 0 []) in
  let gross := acc_gross acc in
  let expectedPayout := acc_expectedPayout acc in
  let perAgent :=
    fold_left (fun perAgent kv => perAgent ++ [agentRow agents kv])
              (acc_agentTotals acc) [] in
  let perAgent :=
    Js.sort_by (fun a b => (AgentSummary.gross b - AgentSummary.gross a)%Z)
               perAgent in
  let riskyNumbers :=
    Compute.findRiskyNumbers filteredTickets
                             (Settings.riskyThreshold settings) in
  mk date round gross expectedPayout (gross - expectedPayout)%Z
     (Z.of_nat (List.length filteredTickets)) perAgent riskyNumbers.

End Summary.

(* ------------------------------------------------------------------ *)
(** * The current draw period ([frontend/src/lib/drawPeriod.ts]) *)

Module Period.

(** [String(n)] and [`${n}`] for an integer. *)
Definition toString (n : Z) : string := NilZero.string_of_int (Z.to_int n).

(** [s.padStart(2, '0')]. *)
Definition padStart2 (s : string) : string :=
  match String.length s with
  | 0 => "00"
  | 1 => String "0" s
  | _ => s
  end.

Inductive Kind : Type := Period1 | Period16.

Record DrawPeriod : Type := mkDrawPeriod {
  id : string;
  label : string;
  period : Kind;
  month : Z;
  year : Z
}.

(** [months[month] || '']. *)
Definition getThaiMonthShort (month : Z) : string :=
  if (0 <=? month)%Z && (month <? 12)%Z then
    nth (Z.to_nat month)
        ["ม.ค."; "ก.พ."; "มี.ค."; "เม.ย."; "พ.ค."; "มิ.ย.";
         "ก.ค."; "ส.ค."; "ก.ย."; "ต.ค."; "พ.ย."; "ธ.ค."]
        ""
  else "".

(** The period of one anchor day: [anchor] is ["01"] or ["16"] in the
    identifier and [shown] is ["1"] or ["16"] in the label. *)
Definition periodOf (kind : Kind) (year month0 : Z) : DrawPeriod :=
  let anchor := match kind with Period1 => "01" | Period16 => "16" end in
  let shown := match kind with Period1 => "1" | Period16 => "16" end in
  mkDrawPeriod
    (toString year ++ "-" ++ padStart2 (toString (month0 + 1)) ++ "-"
     ++ anchor)%string
    (shown ++ " " ++ getThaiMonthShort month0 ++ " "
     ++ toString (Z.rem (year + 543) 100))%string
    kind (month0 + 1)%Z year.

(** [now] is [new Date()], read through its local getters. *)
Definition getCurrentDrawPeriod (now : DrawPeriod.JsDate) : DrawPeriod :=
  let day := DrawPeriod.getDate now in
  let month := DrawPeriod.getMonth now in
  let year := DrawPeriod.getFullYear now in
  if (day >=? 18)%Z then
    let nextMonth := if (month =? 11)%Z then 0%Z else (month + 1)%Z in
    let nextYear := if (month =? 11)%Z then (year + 1)%Z else year in
    periodOf Period1 nextYear nextMonth
  else if (day <=? 1)%Z then periodOf Period1 year month
  else periodOf Period16 year month.

End Period.

(* ------------------------------------------------------------------ *)
(** * More exhaustive checks over the digit strings *)

Module Checks.

Fixpoint ascending (l : list string) : bool :=
  match l with
  | [] => true
  | x :: l' =>
      match l' with
      | [] => true
      | y :: _ =>
          match String.compare x y with
          | Lt => ascending l'
          | _ => false
          end
      end
  end.

(** A string of the digit length of the category, made of digits. *)
Definition validb (raw : string) (category : Category) : bool :=
  Js.all_digits raw
  && (String.length raw =? CATEGORY_DIGIT_LENGTH category)%nat.

(** The expansion holds [raw], holds valid strings only, and ascends. *)
Definition members_ok (raw : string) (category : Category) : bool :=
  match Expand.expandNumber raw category with
  | Ok combos =>
      existsb (String.eqb raw) combos
      && forallb (fun c => validb c category) combos
      && ascending combos
  | Throw _ => false
  end.

(** Every combo of the expansion has the same expansion. *)
Definition class_ok (raw : string) (category : Category) : bool :=
  match Expand.expandNumber raw category with
  | Ok combos =>
      forallb (fun c =>
                 match Expand.expandNumber c category with
                 | Ok combos' => Exhaustive.strings_eqb combos' combos
                 | Throw _ => false
                 end)
              combos
  | Throw _ => false
  end.

End Checks.

Module DescribeChecks.

(** The description is the expansion joined by [", "]. *)
Definition describe_ok (raw : string) (category : Category) : bool :=
  match Expand.expandNumber raw category,
        Describe.getExpansionDescription raw category with
  | Ok combos, Ok d => String.eqb d (String.concat ", " combos)
  | _, _ => false
  end.

End DescribeChecks.

Module Totals.

(** The sum of a measure over the values of a map. *)
Definition sumValues (V : Type) (w : V -> Z) (m : JsMap.t V) : Z :=
  Spec.sumZ (map (fun kv => w (snd kv)) m).

(** The (category, raw number) pair that [mergeDuplicateEntries] merges
    on. *)
Definition entryPair (e : Entry.t) : Category * string :=
  (Entry.category e, Entry.raw e).

Definition samePair (e x : Entry.t) : bool :=
  String.eqb (Bill.entryKey x) (Bill.entryKey e).

End Totals.

Module CeilingSpec.

(** What a combo of a new entry would bring the sold amount of its pair
    to. *)
Definition amountWith (tickets : list Ticket.t) (category : Category)
           (p : PerComboTotal.t) : Z :=
  (Spec.soldTotal tickets category (PerComboTotal.combo p)
   + PerComboTotal.soldAmount p)%Z.

(** The number is among the numbers of an entry of a ticket of the date
    that is not deleted. *)
Definition SoldOn (tickets : list Ticket.t) (date : string)
           (category : Category) (number : string) : Prop :=
  exists t e,
    In t tickets /\ Spec.OnDate date t /\ In e (Ticket.entries t)
    /\ Entry.category e = category /\ In number (Spec.numbersOf e).

End CeilingSpec.

Module SummarySpec.

(** The two cases of the agent aggregation of [computeSummary]. *)
Definition agentInit (t : Ticket.t) : Summary.AgentTotals.t :=
  Summary.AgentTotals.mk (Ticket.billTotal t)
                         (Bill.computeTicketExpectedPayout t) 1%Z.

Definition agentMerge (existing : Summary.AgentTotals.t) (t : Ticket.t)
  : Summary.AgentTotals.t :=
  Summary.AgentTotals.mk
    (Summary.AgentTotals.gross existing + Ticket.billTotal t)%Z
    (Summary.AgentTotals.expectedPayout existing
     + Bill.computeTicketExpectedPayout t)%Z
    (Summary.AgentTotals.ticketCount existing + 1)%Z.

(** A ticket that the summary of a date (or draw period) and an optional
    round counts, in the time zone [tz]. *)
Definition Counted (tz : Z) (date : string) (round : option string)
           (t : Ticket.t) : Prop :=
  Ticket.deleted t = false
  /\ (DrawPeriod.isDateInDrawPeriod tz (Ticket.date t) date = true
      \/ Ticket.date t = date)
  /\ forall r, round = Some r -> r <> EmptyString -> Ticket.round t = r.

(** The counted tickets, in order, and those of one agent. *)
Definition counted (tz : Z) (tickets : list Ticket.t) (date : string)
           (round : option string) : list Ticket.t :=
  filter (Summary.keepTicket tz date round) tickets.


End SummarySpec.

Module SampleSummary.

Definition withAgent (agentId : string) (t : Ticket.t) : Ticket.t :=
  Ticket.mk (Ticket.id t) agentId (Ticket.round t) (Ticket.date t)
            (Ticket.entries t) (Ticket.billTotal t) (Ticket.deleted t).

Definition tickets : list Ticket.t :=
  [withAgent "a1" SampleTickets.t1; withAgent "a2" SampleTickets.t2;
   withAgent "a1" SampleTickets.t3_deleted;
   withAgent "a3" SampleTickets.t4_other_day].

Definition agents : list Agent.t := [Agent.mk "a1" "Somchai"].

(** The summary of the period of 16 January 2025, computed in Bangkok. *)
Definition summary : Summary.t :=
  Summary.computeSummary 420 tickets DEFAULT_SETTINGS agents "2025-01-16"
                         None.

End SampleSummary.

Module PeriodChecks.

(** [String(y)] is four digit characters that read back as [y]. *)
Definition year_ok (y : Z) : bool :=
  match list_ascii_of_string (Period.toString y) with
  | [a; b; c; d] =>
      match DrawPeriod.digitValue a, DrawPeriod.digitValue b,
            DrawPeriod.digitValue c, DrawPeriod.digitValue d with
      | Some va, Some vb, Some vc, Some vd =>
          (va * 1000 + vb * 100 + vc * 10 + vd =? y)%Z
      | _, _, _, _ => false
      end
  | _ => false
  end.

Definition years : list Z :=
  map (fun n => (1000 + Z.of_nat n)%Z) (seq 0 (90 * 100)).

(** The day of the month that a period is anchored at. *)
Definition anchorDay (kind : Period.Kind) : Z :=
  match kind with
  | Period.Period1 => 1%Z
  | Period.Period16 => 16%Z
  end.

End PeriodChecks.

Module SampleMerge.

(** Two entries on the same number, as a session enters them. *)
Definition first : Entry.t :=
  Entry.mk "1" C3top "123" (Some []) 100 1 (Some []) (Some 100%Z).

Definition second : Entry.t :=
  Entry.mk "2" C3top "123" (Some []) 50 1 (Some []) (Some 50%Z).

Definition other : Entry.t :=
  Entry.mk "3" C3tod "123" (Some []) 50 1 (Some []) (Some 50%Z).

Definition entries : list Entry.t := [first; other; second].

End SampleMerge.

(* ------------------------------------------------------------------ *)
(** * Validation *)

Lemma isDigit_true_iff (c : ascii) :
  Js.isDigit c = true <-> Spec.IsDigitChar c.
Proof.
  unfold Spec.IsDigitChar, Spec.digits. split.
  - destruct c as [[] [] [] [] [] [] [] []]; intro H; vm_compute in H;
      try discriminate H; simpl; auto 12.
  - simpl. intros H.
    repeat (destruct H as [H | H]; [subst c; reflexivity | ]).
    contradiction.
Qed.

Lemma forallb_isDigit_iff (l : list ascii) :
  forallb Js.isDigit l = true <-> (forall c, In c l -> Spec.IsDigitChar c).
Proof.
  rewrite forallb_forall. split; intros H c Hc.
  - apply isDigit_true_iff, H, Hc.
  - apply isDigit_true_iff, H, Hc.
Qed.

Lemma all_digits_iff (raw : string) :
  Js.all_digits raw = true <-> Spec.PurelyNumeric raw.
Proof.
  unfold Spec.PurelyNumeric. destruct raw as [| a s].
  - simpl. split; [discriminate | intros [H _]; now elim H].
  - unfold Js.all_digits. rewrite forallb_isDigit_iff.
    split; [intros H; split; [discriminate | exact H] | intros [_ H]; exact H].
Qed.

Lemma all_digits_nondigit (raw : string) :
  Spec.HasNonDigit raw -> Js.all_digits raw = false.
Proof.
  intros (c & Hin & Hc).
  destruct (Js.all_digits raw) eqn:E; [ | reflexivity].
  apply all_digits_iff in E. destruct E as [_ E]. elim Hc. now apply E.
Qed.

Lemma validateNumber_format (raw : string) (category : Category) :
  Js.all_digits raw = false ->
  Expand.validateNumber raw category = Throw (Expand.NotDigits raw).
Proof. intros H. unfold Expand.validateNumber. now rewrite H. Qed.

Lemma validateNumber_length (raw : string) (category : Category) :
  Spec.PurelyNumeric raw ->
  String.length raw <> CATEGORY_DIGIT_LENGTH category ->
  Expand.validateNumber raw category
  = Throw (Expand.WrongLength raw (String.length raw) category
                              (CATEGORY_DIGIT_LENGTH category)).
Proof.
  intros Hnum Hlen. unfold Expand.validateNumber.
  apply all_digits_iff in Hnum. rewrite Hnum. simpl.
  apply Nat.eqb_neq in Hlen. now rewrite Hlen.
Qed.

Lemma validateNumber_valid (raw : string) (category : Category) :
  Spec.ValidRaw raw category -> Expand.validateNumber raw category = Ok tt.
Proof.
  intros [Hnum Hlen]. unfold Expand.validateNumber.
  apply all_digits_iff in Hnum. rewrite Hnum. simpl.
  rewrite Hlen, Nat.eqb_refl. reflexivity.
Qed.

Lemma validateNumber_Ok_valid (raw : string) (category : Category) (u : unit) :
  Expand.validateNumber raw category = Ok u -> Spec.ValidRaw raw category.
Proof.
  unfold Expand.validateNumber.
  destruct (Js.all_digits raw) eqn:E; simpl; [ | discriminate].
  destruct (String.length raw =? CATEGORY_DIGIT_LENGTH category)%nat eqn:L;
    simpl; [ | discriminate].
  intros _. split; [now apply all_digits_iff | now apply Nat.eqb_eq].
Qed.

(** Outside the two "tod" categories a valid number expands to itself. *)
Lemma expandNumber_plain (raw : string) (category : Category) :
  Spec.ValidRaw raw category ->
  category <> C3tod -> category <> C2tod ->
  Expand.expandNumber raw category = Ok [raw].
Proof.
  intros Hv H3 H2. unfold Expand.expandNumber.
  rewrite (validateNumber_valid Hv). simpl.
  destruct category; try reflexivity; congruence.
Qed.

Lemma expandNumber_Throw (raw : string) (category : Category) e :
  Expand.expandNumber raw category = Throw e ->
  Expand.validateNumber raw category = Throw e.
Proof.
  unfold Expand.expandNumber.
  destruct (Expand.validateNumber raw category) as [[] | e'] eqn:E; simpl.
  - destruct (Category_eqb category C3tod); [discriminate | ].
    destruct (Category_eqb category C2tod); [ | discriminate].
    destruct (String.eqb raw _); discriminate.
  - intros H. injection H as ->. reflexivity.
Qed.

(** The shape of a valid string: two or three digit characters. *)
Lemma valid_three (raw : string) (category : Category) :
  Spec.ValidRaw raw category -> CATEGORY_DIGIT_LENGTH category = 3 ->
  exists a b c,
    raw = String a (String b (String c EmptyString))
    /\ In a Spec.digits /\ In b Spec.digits /\ In c Spec.digits.
Proof.
  intros [[_ Hd] Hlen] H3. rewrite H3 in Hlen.
  destruct raw as [| a [| b [| c [| d s]]]]; try discriminate Hlen.
  exists a, b, c. split; [reflexivity | ].
  repeat split; apply Hd; simpl; auto.
Qed.

Lemma valid_two (raw : string) (category : Category) :
  Spec.ValidRaw raw category -> CATEGORY_DIGIT_LENGTH category = 2 ->
  exists a b,
    raw = String a (String b EmptyString)
    /\ In a Spec.digits /\ In b Spec.digits.
Proof.
  intros [[_ Hd] Hlen] H2. rewrite H2 in Hlen.
  destruct raw as [| a [| b [| c s]]]; try discriminate Hlen.
  exists a, b. split; [reflexivity | ].
  split; apply Hd; simpl; auto.
Qed.

(** The recursion of [permute] never runs out of fuel: any bound at least
    the length of the array gives the same result. *)
Lemma remove_at_length (A : Type) (i : nat) (a : list A) :
  (i < List.length a)%nat ->
  List.length (Js.remove_at i a) = pred (List.length a).
Proof.
  intros H. unfold Js.remove_at.
  rewrite length_app, firstn_length_le, length_skipn by lia. lia.
Qed.

Lemma fold_left_ext_in (A B : Type) (f g : A -> B -> A) (l : list B) :
  (forall a b, In b l -> f a b = g a b) ->
  forall a, fold_left f l a = fold_left g l a.
Proof.
  induction l as [| b l IH]; intros H a; simpl; [reflexivity | ].
  rewrite H by (left; reflexivity). apply IH.
  intros a' b' Hb. apply H. now right.
Qed.

Lemma permute_fuel (f1 f2 : nat) :
  forall arr current st,
    (List.length arr <= f1)%nat -> (List.length arr <= f2)%nat ->
    Expand.permute f1 arr current st = Expand.permute f2 arr current st.
Proof.
  revert f2. induction f1 as [| f1 IH]; intros f2 arr current st H1 H2.
  - destruct arr; [ | simpl in H1; lia]. destruct f2; reflexivity.
  - destruct arr as [| x arr]; [destruct f2; reflexivity | ].
    destruct f2 as [| f2]; [simpl in H2; lia | ].
    cbn [Expand.permute]. apply fold_left_ext_in.
    intros st' i Hi. apply in_seq in Hi.
    apply IH; rewrite remove_at_length by lia; simpl in *; lia.
Qed.

(* ------------------------------------------------------------------ *)
(** * Expansion *)

Lemma all_pairs_spec (P : ascii -> ascii -> bool) :
  Exhaustive.all_pairs P = true ->
  forall a b, In a Spec.digits -> In b Spec.digits -> P a b = true.
Proof.
  unfold Exhaustive.all_pairs. intros H a b Ha Hb.
  rewrite forallb_forall in H. specialize (H a Ha).
  rewrite forallb_forall in H. exact (H b Hb).
Qed.

Lemma all_triples_spec (P : ascii -> ascii -> ascii -> bool) :
  Exhaustive.all_triples P = true ->
  forall a b c,
    In a Spec.digits -> In b Spec.digits -> In c Spec.digits ->
    P a b c = true.
Proof.
  unfold Exhaustive.all_triples. intros H a b c Ha Hb Hc.
  rewrite forallb_forall in H.
  exact (@all_pairs_spec (P a) (H a Ha) b c Hb Hc).
Qed.

Lemma count_agrees_3tod :
  Exhaustive.all_triples
    (fun a b c => Exhaustive.count_agrees (Exhaustive.str3 a b c) C3tod)
  = true.
Proof. vm_compute. reflexivity. Qed.

Lemma count_agrees_2tod :
  Exhaustive.all_pairs
    (fun a b => Exhaustive.count_agrees (Exhaustive.str2 a b) C2tod)
  = true.
Proof. vm_compute. reflexivity. Qed.

Lemma count_agrees_elim (raw : string) (category : Category) :
  Exhaustive.count_agrees raw category = true ->
  exists combos,
    Expand.expandNumber raw category = Ok combos
    /\ Expand.getExpansionCount raw category = List.length combos.
Proof.
  unfold Exhaustive.count_agrees.
  destruct (Expand.expandNumber raw category) as [combos | e];
    [ | discriminate].
  intros H. exists combos. split; [reflexivity | now apply Nat.eqb_eq].
Qed.

Lemma strings_eqb_eq (l1 l2 : list string) :
  Exhaustive.strings_eqb l1 l2 = true -> l1 = l2.
Proof.
  revert l2. induction l1 as [| x l1 IH]; intros [| y l2]; simpl;
    try discriminate; [reflexivity | ].
  intros H. apply andb_true_iff in H. destruct H as [Hx Hl].
  apply String.eqb_eq in Hx. f_equal; [exact Hx | now apply IH].
Qed.

Lemma expands_to_permutations_elim (raw : string) (category : Category) :
  Exhaustive.expands_to_permutations raw category = true ->
  Expand.expandNumber raw category = Ok (Spec.permutationSet raw).
Proof.
  unfold Exhaustive.expands_to_permutations.
  destruct (Expand.expandNumber raw category) as [combos | e];
    [ | discriminate].
  intros H. f_equal. now apply strings_eqb_eq.
Qed.

Lemma permutations_3tod :
  Exhaustive.all_triples
    (fun a b c =>
       Exhaustive.expands_to_permutations (Exhaustive.str3 a b c) C3tod)
  = true.
Proof. vm_compute. reflexivity. Qed.

Lemma permutations_2tod :
  Exhaustive.all_pairs
    (fun a b => Exhaustive.expands_to_permutations (Exhaustive.str2 a b) C2tod)
  = true.
Proof. vm_compute. reflexivity. Qed.

(** The "tod" categories expand to the sorted set of the unique
    permutations of the digits. *)
Lemma expandNumber_tod (raw : string) (category : Category) :
  category = C3tod \/ category = C2tod ->
  Spec.ValidRaw raw category ->
  Expand.expandNumber raw category = Ok (Spec.permutationSet raw).
Proof.
  intros [-> | ->] Hvalid; apply expands_to_permutations_elim.
  - destruct (valid_three Hvalid eq_refl) as (a & b & c & -> & Ha & Hb & Hc).
    exact (@all_triples_spec _ permutations_3tod a b c Ha Hb Hc).
  - destruct (valid_two Hvalid eq_refl) as (a & b & -> & Ha & Hb).
    exact (@all_pairs_spec _ permutations_2tod a b Ha Hb).
Qed.

(** The permutation set holds exactly the strings it is built from. *)
Lemma insertUnique_In (s x : string) (l : list string) :
  In x (Spec.insertUnique s l) <-> x = s \/ In x l.
Proof.
  induction l as [| y l IH]; simpl; [intuition | ].
  destruct (String.compare s y) eqn:E; simpl.
  - apply String.compare_eq_iff in E. subst y. intuition.
  - intuition.
  - rewrite IH. intuition.
Qed.

Lemma ascendingSet_In (x : string) (l : list string) :
  In x (Spec.ascendingSet l) <-> In x l.
Proof.
  induction l as [| y l IH]; simpl; [reflexivity | ].
  rewrite insertUnique_In, IH. intuition.
Qed.

(** C1 (the code departs from it): [expandNumber] expands the "back"
    categories like the plain ones, not like the "tod" ones.  The "tod"
    categories return the sorted set of the unique permutations of the
    digits; a valid raw string under [3back] or [2back] expands to itself
    alone.  On ["123"] under [3back] the result is the single combo
    ["123"] and not the six permutations, on ["34"] under [2back] it is
    ["34"] and not ["34"; "43"]. *)
Theorem expandNumber_back_is_not_tod :
  (forall raw category,
      category = C3back \/ category = C2back ->
      Spec.ValidRaw raw category ->
      Expand.expandNumber raw category = Ok [raw])
  /\ (forall raw category,
        category = C3tod \/ category = C2tod ->
        Spec.ValidRaw raw category ->
        Expand.expandNumber raw category = Ok (Spec.permutationSet raw))
  /\ Expand.expandNumber "123" C3back = Ok ["123"]
  /\ Spec.permutationSet "123"
     = ["123"; "132"; "213"; "231"; "312"; "321"]
  /\ Expand.expandNumber "123" C3back <> Ok (Spec.permutationSet "123")
  /\ Expand.expandNumber "34" C2back = Ok ["34"]
  /\ Spec.permutationSet "34" = ["34"; "43"]
  /\ Expand.expandNumber "34" C2back <> Ok (Spec.permutationSet "34").
Proof.
  split; [ | split].
  - intros raw category Hback Hvalid.
    apply expandNumber_plain; [exact Hvalid | | ];
      destruct Hback as [-> | ->]; discriminate.
  - exact expandNumber_tod.
  - repeat split; vm_compute; try reflexivity; discriminate.
Qed.

(** C4: for every valid pair of a raw string and a category, among all
    eight categories, [expandNumber] returns an expansion and
    [getExpansionCount] is its length. *)
Theorem getExpansionCount_is_length (raw : string) (category : Category)
        (Hvalid : Spec.ValidRaw raw category) :
  exists combos,
    Expand.expandNumber raw category = Ok combos
    /\ Expand.getExpansionCount raw category = List.length combos.
Proof.
  destruct category;
    try (exists [raw]; split;
         [apply expandNumber_plain; [assumption | discriminate | discriminate]
         | reflexivity]).
  - destruct (valid_three Hvalid eq_refl) as (a & b & c & -> & Ha & Hb & Hc).
    apply count_agrees_elim.
    exact (@all_triples_spec _ count_agrees_3tod a b c Ha Hb Hc).
  - destruct (valid_two Hvalid eq_refl) as (a & b & -> & Ha & Hb).
    apply count_agrees_elim.
    exact (@all_pairs_spec _ count_agrees_2tod a b Ha Hb).
Qed.

Lemma valid_121_3tod : Spec.ValidRaw "121" C3tod.
Proof.
  split; [split; [discriminate | ] | reflexivity].
  intros c Hc. apply isDigit_true_iff.
  simpl in Hc. repeat (destruct Hc as [<- | Hc]; [reflexivity | ]).
  contradiction.
Qed.

Lemma getExpansionCount_is_length_witness :
  Spec.ValidRaw "121" C3tod
  /\ exists combos,
      Expand.expandNumber "121" C3tod = Ok combos
      /\ Expand.getExpansionCount "121" C3tod = List.length combos.
Proof.
  split; [exact valid_121_3tod | ].
  exact (getExpansionCount_is_length valid_121_3tod).
Defined.

(* ------------------------------------------------------------------ *)
(** * Entry computation *)

Lemma Category_eqb_eq (a b : Category) : Category_eqb a b = true <-> a = b.
Proof. destruct a, b; simpl; split; congruence. Qed.

Lemma Category_eqb_refl (a : Category) : Category_eqb a a = true.
Proof. now apply Category_eqb_eq. Qed.

Lemma Category_eqb_neq (a b : Category) : Category_eqb a b = false <-> a <> b.
Proof. destruct a, b; simpl; split; congruence. Qed.

Lemma isTod_iff (category : Category) :
  Category_eqb category C3tod || Category_eqb category C2tod = true
  <-> Spec.IsTod category.
Proof.
  unfold Spec.IsTod. rewrite orb_true_iff, !Category_eqb_eq. reflexivity.
Qed.

Lemma blocked_test_iff (combo : string) (category : Category)
      (b : BlockedNumber.t) :
  String.eqb (BlockedNumber.number b) combo
  && Category_eqb (BlockedNumber.category b) category
  && BlockedNumber.enabled b = true
  <-> Spec.Matches combo category b.
Proof.
  unfold Spec.Matches.
  rewrite !andb_true_iff, String.eqb_eq, Category_eqb_eq. tauto.
Qed.

Lemma findBlockedNumber_first (combo : string) (category : Category)
      (blockedNumbers : list BlockedNumber.t) (b : BlockedNumber.t) :
  Spec.FirstMatch combo category blockedNumbers b ->
  Compute.findBlockedNumber combo category blockedNumbers = Some b.
Proof.
  intros (before & after & -> & Hb & Hbefore).
  unfold Compute.findBlockedNumber.
  induction before as [| x before IH]; simpl.
  - apply blocked_test_iff in Hb. now rewrite Hb.
  - destruct (String.eqb (BlockedNumber.number x) combo
              && Category_eqb (BlockedNumber.category x) category
              && BlockedNumber.enabled x) eqn:E.
    + apply blocked_test_iff in E. elim (Hbefore x); [now left | exact E].
    + apply IH. intros y Hy. apply Hbefore. now right.
Qed.

Lemma findBlockedNumber_none (combo : string) (category : Category)
      (blockedNumbers : list BlockedNumber.t) :
  Spec.NoMatch combo category blockedNumbers ->
  Compute.findBlockedNumber combo category blockedNumbers = None.
Proof.
  unfold Spec.NoMatch, Compute.findBlockedNumber.
  induction blockedNumbers as [| x l IH]; intros H; simpl; [reflexivity | ].
  destruct (String.eqb (BlockedNumber.number x) combo
            && Category_eqb (BlockedNumber.category x) category
            && BlockedNumber.enabled x) eqn:E.
  - apply blocked_test_iff in E. elim (H x); [now left | exact E].
  - apply IH. intros y Hy. apply H. now right.
Qed.

(** Either some override is the first to apply, or none applies. *)
Lemma first_or_no_match (combo : string) (category : Category)
      (blockedNumbers : list BlockedNumber.t) :
  (exists b, Spec.FirstMatch combo category blockedNumbers b)
  \/ Spec.NoMatch combo category blockedNumbers.
Proof.
  induction blockedNumbers as [| x l IH].
  - right. intros y [].
  - destruct (String.eqb (BlockedNumber.number x) combo
              && Category_eqb (BlockedNumber.category x) category
              && BlockedNumber.enabled x) eqn:E.
    + left. exists x, [], l. split; [reflexivity | ].
      split; [now apply blocked_test_iff | intros y []].
    + assert (Hx : ~ Spec.Matches combo category x).
      { intros Hm. apply blocked_test_iff in Hm. congruence. }
      destruct IH as [(b & before & after & -> & Hb & Hbefore) | Hno].
      * left. exists b, (x :: before), after. split; [reflexivity | ].
        split; [exact Hb | ].
        intros y [<- | Hy]; [exact Hx | now apply Hbefore].
      * right. intros y [<- | Hy]; [exact Hx | now apply Hno].
Qed.

Lemma fold_left_sumSold (l : list PerComboTotal.t) (a : Z) :
  fold_left (fun sum combo => (sum + PerComboTotal.soldAmount combo)%Z) l a
  = (a + Spec.sumSold l)%Z.
Proof.
  revert a. induction l as [| p l IH]; intros a; simpl; [lia | ].
  rewrite IH. lia.
Qed.

(** The per-combo breakdown that [computeEntryTotals] builds for a combo. *)
Lemma computeEntryTotals_inv (entry : Entry.t) (settings : Settings.t)
      (blockedNumbers : list BlockedNumber.t) (e' : Entry.t) :
  Compute.computeEntryTotals entry settings blockedNumbers = Ok e' ->
  exists expanded pcs,
    Expand.expandNumber (Entry.raw entry) (Entry.category entry) = Ok expanded
    /\ Entry.expanded e' = Some expanded
    /\ Entry.perComboTotals e' = Some pcs
    /\ map PerComboTotal.combo pcs = expanded
    /\ (forall p, In p pcs ->
          PerComboTotal.unitPrice p = Entry.unitPrice entry
          /\ PerComboTotal.quantity p = Entry.quantity entry
          /\ PerComboTotal.soldAmount p
             = (Entry.unitPrice entry * Entry.quantity entry)%Z
          /\ PerComboTotal.payoutRate p
             = match Compute.findBlockedNumber (PerComboTotal.combo p)
                       (Entry.category entry) blockedNumbers with
               | Some b => BlockedNumber.payoutOverride b
               | None => Settings.payouts settings (Entry.category entry)
               end)
    /\ Entry.total e'
       = Some (if Category_eqb (Entry.category entry) C3tod
                  || Category_eqb (Entry.category entry) C2tod
               then (Entry.unitPrice entry * Entry.quantity entry)%Z
               else Spec.sumSold pcs)
    /\ Entry.category e' = Entry.category entry
    /\ Entry.unitPrice e' = Entry.unitPrice entry
    /\ Entry.quantity e' = Entry.quantity entry.
Proof.
  unfold Compute.computeEntryTotals.
  destruct (Expand.expandNumber (Entry.raw entry) (Entry.category entry))
    as [expanded | e]; simpl; [ | discriminate].
  intros H. injection H as <-. simpl.
  eexists; eexists. split; [reflexivity | ].
  split; [reflexivity | ]. split; [reflexivity | ].
  split; [ | split; [ | split; [ | auto]]].
  - rewrite map_map. simpl. apply map_id.
  - intros p Hp. apply in_map_iff in Hp. destruct Hp as (combo & <- & _).
    simpl. auto.
  - rewrite fold_left_sumSold. reflexivity.
Qed.

Lemma expandNumber_valid_Ok (raw : string) (category : Category) :
  Spec.ValidRaw raw category ->
  exists combos, Expand.expandNumber raw category = Ok combos.
Proof.
  intros Hv. unfold Expand.expandNumber.
  rewrite (validateNumber_valid Hv). simpl.
  destruct (Category_eqb category C3tod); [eexists; reflexivity | ].
  destruct (Category_eqb category C2tod); [ | eexists; reflexivity].
  destruct (String.eqb raw _); eexists; reflexivity.
Qed.

Lemma computeEntryTotals_total (entry : Entry.t) (settings : Settings.t)
      (blockedNumbers : list BlockedNumber.t) :
  Spec.ValidRaw (Entry.raw entry) (Entry.category entry) ->
  exists e', Compute.computeEntryTotals entry settings blockedNumbers = Ok e'.
Proof.
  intros Hv. destruct (expandNumber_valid_Ok Hv) as (combos & H).
  unfold Compute.computeEntryTotals. rewrite H. simpl. eexists. reflexivity.
Qed.

Lemma computeEntryTotals_Throw (entry : Entry.t) (settings : Settings.t)
      (blockedNumbers : list BlockedNumber.t) (e : Expand.Error) :
  Expand.expandNumber (Entry.raw entry) (Entry.category entry) = Throw e ->
  Compute.computeEntryTotals entry settings blockedNumbers = Throw e.
Proof.
  intros H. unfold Compute.computeEntryTotals. rewrite H. reflexivity.
Qed.

Lemma expandNumber_of_validate_Throw (raw : string) (category : Category) e :
  Expand.validateNumber raw category = Throw e ->
  Expand.expandNumber raw category = Throw e.
Proof. intros H. unfold Expand.expandNumber. rewrite H. reflexivity. Qed.

(** C9: [expandNumber] validates first.  A raw string with a non-digit
    character (and the empty string) raises the format error; a numeric raw
    string of another length than the category's raises the length error,
    which is a different error; [computeEntryTotals] then raises the same
    error and returns no entry; and for a valid pair neither function
    raises. *)
Theorem expandNumber_validates_first (raw : string) (category : Category) :
  (Spec.HasNonDigit raw \/ raw = EmptyString ->
   Expand.expandNumber raw category = Throw (Expand.NotDigits raw))
  /\ (Spec.PurelyNumeric raw ->
      String.length raw <> CATEGORY_DIGIT_LENGTH category ->
      Expand.expandNumber raw category
      = Throw (Expand.WrongLength raw (String.length raw) category
                                  (CATEGORY_DIGIT_LENGTH category)))
  /\ (forall r n c k, Expand.NotDigits raw <> Expand.WrongLength r n c k)
  /\ (forall entry settings blockedNumbers e,
        Entry.raw entry = raw -> Entry.category entry = category ->
        Expand.expandNumber raw category = Throw e ->
        Compute.computeEntryTotals entry settings blockedNumbers = Throw e)
  /\ (Spec.ValidRaw raw category ->
      (exists combos, Expand.expandNumber raw category = Ok combos)
      /\ forall entry settings blockedNumbers,
          Entry.raw entry = raw -> Entry.category entry = category ->
          exists e',
            Compute.computeEntryTotals entry settings blockedNumbers = Ok e')
  /\ (forall e, Expand.expandNumber raw category = Throw e ->
                ~ Spec.ValidRaw raw category).
Proof.
  split; [ | split; [ | split; [ | split; [ | split]]]].
  - intros H. apply expandNumber_of_validate_Throw, validateNumber_format.
    destruct H as [H | ->]; [now apply all_digits_nondigit | reflexivity].
  - intros Hnum Hlen.
    now apply expandNumber_of_validate_Throw, validateNumber_length.
  - discriminate.
  - intros entry settings blockedNumbers e <- <-.
    apply computeEntryTotals_Throw.
  - intros Hv. split; [now apply expandNumber_valid_Ok | ].
    intros entry settings blockedNumbers <- <-.
    now apply computeEntryTotals_total.
  - intros e He Hv. destruct (expandNumber_valid_Ok Hv) as (combos & H).
    congruence.
Qed.

Lemma expandNumber_validates_first_witness :
  Expand.expandNumber "12a" C3top = Throw (Expand.NotDigits "12a")
  /\ Expand.expandNumber "12" C3top
     = Throw (Expand.WrongLength "12" 2 C3top 3).
Proof.
  destruct (expandNumber_validates_first "12a" C3top) as (Hfmt & _).
  destruct (expandNumber_validates_first "12" C3top) as (_ & Hlen & _).
  split.
  - apply Hfmt. left. exists "a"%char. split; [simpl; auto | ].
    intros H. apply isDigit_true_iff in H. discriminate H.
  - apply Hlen; [ | discriminate].
    split; [discriminate | ]. intros c Hc. apply isDigit_true_iff.
    simpl in Hc. repeat (destruct Hc as [<- | Hc]; [reflexivity | ]).
    contradiction.
Defined.

(** C2: for an entry with a valid raw string, [computeEntryTotals] returns
    an entry whose per-combo totals follow the expansion of the raw string
    combo by combo, each sold at [unitPrice * quantity].  Its total is
    [unitPrice * quantity] when the category is [3tod] or [2tod], whatever
    the number of combos; for every other category it is the sum of
    [soldAmount] over the per-combo totals, which is [unitPrice * quantity]
    again since the raw string is then the only combo. *)
Theorem computeEntryTotals_total_rule (entry : Entry.t) (settings : Settings.t)
        (blockedNumbers : list BlockedNumber.t)
        (Hvalid : Spec.ValidRaw (Entry.raw entry) (Entry.category entry)) :
  exists e' combos pcs,
    Compute.computeEntryTotals entry settings blockedNumbers = Ok e'
    /\ Expand.expandNumber (Entry.raw entry) (Entry.category entry) = Ok combos
    /\ Entry.perComboTotals e' = Some pcs
    /\ map PerComboTotal.combo pcs = combos
    /\ (forall p, In p pcs ->
          PerComboTotal.unitPrice p = Entry.unitPrice entry
          /\ PerComboTotal.quantity p = Entry.quantity entry
          /\ PerComboTotal.soldAmount p
             = (Entry.unitPrice entry * Entry.quantity entry)%Z)
    /\ (Spec.IsTod (Entry.category entry) ->
        Entry.total e'
        = Some (Entry.unitPrice entry * Entry.quantity entry)%Z)
    /\ (~ Spec.IsTod (Entry.category entry) ->
        combos = [Entry.raw entry]
        /\ Entry.total e' = Some (Spec.sumSold pcs)
        /\ Spec.sumSold pcs
           = (Entry.unitPrice entry * Entry.quantity entry)%Z).
Proof.
  destruct (computeEntryTotals_total entry settings blockedNumbers Hvalid)
    as (e' & He').
  destruct (computeEntryTotals_inv _ _ _ He')
    as (expanded & pcs & Hexp & _ & Hpcs & Hmap & Hall & Htotal & _).
  exists e', expanded, pcs.
  split; [exact He' | ]. split; [exact Hexp | ]. split; [exact Hpcs | ].
  split; [exact Hmap | ]. split.
  { intros p Hp. destruct (Hall p Hp) as (Hu & Hq & Hs & _). auto. }
  rewrite Htotal. split; intros Htod.
  - apply isTod_iff in Htod. now rewrite Htod.
  - assert (Hplain : expanded = [Entry.raw entry]).
    { assert (H : Expand.expandNumber (Entry.raw entry) (Entry.category entry)
                  = Ok [Entry.raw entry]).
      { apply expandNumber_plain; [exact Hvalid | | ];
          intros E; apply Htod; [left | right]; exact E. }
      congruence. }
    split; [exact Hplain | ]. split.
    + destruct (Category_eqb (Entry.category entry) C3tod
                || Category_eqb (Entry.category entry) C2tod) eqn:E;
        [ | reflexivity].
      apply isTod_iff in E. contradiction.
    + rewrite Hplain in Hmap.
      destruct pcs as [ | p [ | p' pcs]]; try discriminate Hmap.
      destruct (Hall p (or_introl eq_refl)) as (_ & _ & Hs & _).
      simpl. rewrite Hs. lia.
Qed.

Ltac valid_raw :=
  split;
  [ split;
    [ discriminate
    | let c := fresh "c" in
      let Hc := fresh "Hc" in
      intros c Hc; apply isDigit_true_iff; simpl in Hc;
      repeat (destruct Hc as [<- | Hc]; [reflexivity | ]); contradiction ]
  | reflexivity ].

(** The rule at a plain bet of 100 taken 3 times, and at a [3tod] bet of 10
    taken twice, whose six combos are charged once. *)
Lemma computeEntryTotals_total_rule_witness :
  (Spec.ValidRaw "123" C3top
   /\ Spec.ValidRaw "123" C3tod)
  /\ (exists e' pcs,
        Compute.computeEntryTotals (Sample.entry C3top "123" 100 3)
                                   DEFAULT_SETTINGS []
        = Ok e'
        /\ Entry.perComboTotals e' = Some pcs
        /\ map PerComboTotal.combo pcs = ["123"]
        /\ Entry.total e' = Some 300%Z)
  /\ (exists e' pcs,
        Compute.computeEntryTotals (Sample.entry C3tod "123" 10 2)
                                   DEFAULT_SETTINGS []
        = Ok e'
        /\ Entry.perComboTotals e' = Some pcs
        /\ map PerComboTotal.combo pcs
           = ["123"; "132"; "213"; "231"; "312"; "321"]
        /\ Entry.total e' = Some 20%Z).
Proof.
  assert (Hv : Spec.ValidRaw "123" C3top) by valid_raw.
  assert (Hv' : Spec.ValidRaw "123" C3tod) by valid_raw.
  split; [split; assumption | ]. split.
  - destruct (computeEntryTotals_total_rule
                (Sample.entry C3top "123" 100 3) DEFAULT_SETTINGS [] Hv)
      as (e' & combos & pcs & He' & Hexp & Hpcs & Hmap & _ & _ & Hplain).
    exists e', pcs. split; [exact He' | ]. split; [exact Hpcs | ].
    destruct Hplain as (Hc & Ht & Hs).
    { intros [H | H]; discriminate H. }
    split; [rewrite Hmap; exact Hc | ].
    rewrite Ht, Hs. reflexivity.
  - destruct (computeEntryTotals_total_rule
                (Sample.entry C3tod "123" 10 2) DEFAULT_SETTINGS [] Hv')
      as (e' & combos & pcs & He' & Hexp & Hpcs & Hmap & _ & Htod & _).
    exists e', pcs. split; [exact He' | ]. split; [exact Hpcs | ].
    split.
    + rewrite Hmap. vm_compute in Hexp. now injection Hexp as <-.
    + rewrite (Htod (or_introl eq_refl)). reflexivity.
Defined.

(** C8: in the entry that [computeEntryTotals] returns, the per-combo
    totals follow the expansion combo by combo; the payout rate of a combo
    is the override of the first blocked number of the list that is
    enabled and has the combo as number and the entry's category, and the
    default rate of the category when no blocked number applies (one that is
    disabled, or of another category or number, does not apply); the
    combo's [soldAmount] is [unitPrice * quantity] in both cases. *)
Theorem computeEntryTotals_payoutRate (entry : Entry.t) (settings : Settings.t)
        (blockedNumbers : list BlockedNumber.t) (e' : Entry.t)
        (Hres : Compute.computeEntryTotals entry settings blockedNumbers
                = Ok e') :
  exists expanded pcs,
    Expand.expandNumber (Entry.raw entry) (Entry.category entry) = Ok expanded
    /\ Entry.perComboTotals e' = Some pcs
    /\ map PerComboTotal.combo pcs = expanded
    /\ forall p, In p pcs ->
        PerComboTotal.soldAmount p
        = (Entry.unitPrice entry * Entry.quantity entry)%Z
        /\ (forall b,
              Spec.FirstMatch (PerComboTotal.combo p) (Entry.category entry)
                              blockedNumbers b ->
              PerComboTotal.payoutRate p = BlockedNumber.payoutOverride b)
        /\ (Spec.NoMatch (PerComboTotal.combo p) (Entry.category entry)
                         blockedNumbers ->
            PerComboTotal.payoutRate p
            = Settings.payouts settings (Entry.category entry))
        /\ ((exists b,
               Spec.FirstMatch (PerComboTotal.combo p) (Entry.category entry)
                               blockedNumbers b)
            \/ Spec.NoMatch (PerComboTotal.combo p) (Entry.category entry)
                            blockedNumbers).
Proof.
  destruct (computeEntryTotals_inv _ _ _ Hres)
    as (expanded & pcs & Hexp & _ & Hpcs & Hmap & Hall & _).
  exists expanded, pcs. repeat (split; [assumption | ]).
  intros p Hp. destruct (Hall p Hp) as (_ & _ & Hsold & Hrate).
  split; [exact Hsold | ]. split; [ | split].
  - intros b Hb. rewrite Hrate, (findBlockedNumber_first Hb). reflexivity.
  - intros Hno. rewrite Hrate, (findBlockedNumber_none Hno). reflexivity.
  - apply first_or_no_match.
Qed.

Lemma computeEntryTotals_payoutRate_witness :
  Compute.computeEntryTotals (Sample.entry C3tod "123" 10 2) DEFAULT_SETTINGS
                             Sample.blockedNumbers
  = Ok (Sample.computed (Sample.entry C3tod "123" 10 2) Sample.blockedNumbers)
  /\ exists expanded pcs,
      Expand.expandNumber "123" C3tod = Ok expanded
      /\ Entry.perComboTotals
           (Sample.computed (Sample.entry C3tod "123" 10 2)
                            Sample.blockedNumbers)
         = Some pcs
      /\ map PerComboTotal.combo pcs = expanded
      /\ forall p, In p pcs ->
          PerComboTotal.soldAmount p = (10 * 2)%Z
          /\ (forall b,
                Spec.FirstMatch (PerComboTotal.combo p) C3tod
                                Sample.blockedNumbers b ->
                PerComboTotal.payoutRate p = BlockedNumber.payoutOverride b)
          /\ (Spec.NoMatch (PerComboTotal.combo p) C3tod
                           Sample.blockedNumbers ->
              PerComboTotal.payoutRate p = DEFAULT_PAYOUTS C3tod)
          /\ ((exists b,
                 Spec.FirstMatch (PerComboTotal.combo p) C3tod
                                 Sample.blockedNumbers b)
              \/ Spec.NoMatch (PerComboTotal.combo p) C3tod
                              Sample.blockedNumbers).
Proof.
  assert (H : Compute.computeEntryTotals (Sample.entry C3tod "123" 10 2)
                DEFAULT_SETTINGS Sample.blockedNumbers
              = Ok (Sample.computed (Sample.entry C3tod "123" 10 2)
                                    Sample.blockedNumbers))
    by (vm_compute; reflexivity).
  split; [exact H | ].
  exact (computeEntryTotals_payoutRate _ _ _ H).
Defined.

Example blocked_override_scenario :
  option_map (map (fun p => (PerComboTotal.combo p, PerComboTotal.payoutRate p)))
    (Entry.perComboTotals
       (Sample.computed (Sample.entry C3tod "123" 10 2) Sample.blockedNumbers))
  = Some [("123", 100); ("132", 130); ("213", 130); ("231", 130);
          ("312", 130); ("321", 130)]%Z
  /\ option_map (map PerComboTotal.payoutRate)
       (Entry.perComboTotals
          (Sample.computed (Sample.entry C3top "123" 10 2)
                           Sample.blockedNumbers))
     = Some [800%Z].
Proof. split; vm_compute; reflexivity. Qed.

(* ------------------------------------------------------------------ *)
(** * Maps in insertion order *)

Section JsMapFacts.
Variable V : Type.
Implicit Types (m : JsMap.t V) (k : string) (v : V).

Lemma get_set_same m k v : JsMap.get k (JsMap.set k v m) = Some v.
Proof.
  induction m as [| [k' v'] m IH]; simpl.
  - now rewrite String.eqb_refl.
  - destruct (String.eqb k k') eqn:E; simpl; rewrite E; [reflexivity | exact IH].
Qed.

Lemma get_set_other m k k' v :
  k <> k' -> JsMap.get k' (JsMap.set k v m) = JsMap.get k' m.
Proof.
  intros Hne. induction m as [| [k0 v0] m IH]; simpl.
  - destruct (String.eqb k' k) eqn:E; [ | reflexivity].
    apply String.eqb_eq in E. congruence.
  - destruct (String.eqb k k0) eqn:E; simpl.
    + apply String.eqb_eq in E. subst k0.
      destruct (String.eqb k' k) eqn:E'; [ | reflexivity].
      apply String.eqb_eq in E'. congruence.
    + now rewrite IH.
Qed.

Lemma get_None_iff m k : JsMap.get k m = None <-> ~ In k (JsMap.keys m).
Proof.
  induction m as [| [k' v'] m IH]; simpl; [tauto | ].
  destruct (String.eqb k k') eqn:E.
  - apply String.eqb_eq in E. subst.
    split; [discriminate | intros H; elim H; now left].
  - apply String.eqb_neq in E. rewrite IH. split; [ | tauto].
    intros H [H' | H']; [congruence | tauto].
Qed.

Lemma get_Some_In m k v : JsMap.get k m = Some v -> In (k, v) m.
Proof.
  induction m as [| [k' v'] m IH]; simpl; [discriminate | ].
  destruct (String.eqb k k') eqn:E.
  - apply String.eqb_eq in E. subst. intros H. injection H as ->. now left.
  - intros H. right. now apply IH.
Qed.

Lemma In_get_Some m k v :
  NoDup (JsMap.keys m) -> In (k, v) m -> JsMap.get k m = Some v.
Proof.
  induction m as [| [k' v'] m IH]; simpl; [tauto | ].
  intros Hnd [H | H].
  - injection H as -> ->. now rewrite String.eqb_refl.
  - inversion Hnd as [| ? ? Hnotin Hnd']; subst.
    destruct (String.eqb k k') eqn:E; [ | now apply IH].
    apply String.eqb_eq in E. subst k'. elim Hnotin.
    change k with (fst (k, v)). now apply in_map.
Qed.

Lemma keys_set_present m k v :
  In k (JsMap.keys m) -> JsMap.keys (JsMap.set k v m) = JsMap.keys m.
Proof.
  induction m as [| [k' v'] m IH]; simpl; [tauto | ].
  intros H. destruct (String.eqb k k') eqn:E; simpl; [reflexivity | ].
  f_equal. apply IH. destruct H as [H | H]; [ | exact H].
  apply String.eqb_neq in E. congruence.
Qed.

Lemma keys_set_absent m k v :
  ~ In k (JsMap.keys m) -> JsMap.keys (JsMap.set k v m) = JsMap.keys m ++ [k].
Proof.
  induction m as [| [k' v'] m IH]; simpl; [reflexivity | ].
  intros H. destruct (String.eqb k k') eqn:E; simpl.
  - apply String.eqb_eq in E. elim H. left. now symmetry.
  - f_equal. apply IH. tauto.
Qed.

Lemma NoDup_keys_set m k v :
  NoDup (JsMap.keys m) -> NoDup (JsMap.keys (JsMap.set k v m)).
Proof.
  intros Hnd. destruct (in_dec string_dec k (JsMap.keys m)) as [Hin | Hout].
  - now rewrite keys_set_present.
  - rewrite keys_set_absent by assumption.
    apply NoDup_app; [exact Hnd | repeat constructor; intros [] | ].
    intros x Hx [<- | []]. contradiction.
Qed.

End JsMapFacts.

(* ------------------------------------------------------------------ *)
(** * Folds *)

Lemma fold_left_flat_map (A B C : Type) (f : A -> C -> A) (g : B -> list C)
      (l : list B) (a : A) :
  fold_left f (flat_map g l) a
  = fold_left (fun a x => fold_left f (g x) a) l a.
Proof.
  revert a. induction l as [| x l IH]; intros a; simpl; [reflexivity | ].
  now rewrite fold_left_app, IH.
Qed.

Lemma fold_left_filter (A B : Type) (f : A -> B -> A) (p : B -> bool)
      (l : list B) (a : A) :
  fold_left f (filter p l) a
  = fold_left (fun a x => if p x then f a x else a) l a.
Proof.
  revert a. induction l as [| x l IH]; intros a; simpl; [reflexivity | ].
  destruct (p x); simpl; apply IH.
Qed.

Lemma fold_left_ext (A B : Type) (f g : A -> B -> A) (l : list B) (a : A) :
  (forall a b, f a b = g a b) -> fold_left f l a = fold_left g l a.
Proof. intros H. apply fold_left_ext_in. intros; apply H. Qed.

Lemma fold_left_push (A B : Type) (p : A -> bool) (g : A -> B) (l : list A)
      (acc : list B) :
  fold_left (fun acc x => if p x then acc ++ [g x] else acc) l acc
  = acc ++ map g (filter p l).
Proof.
  revert acc. induction l as [| x l IH]; intros acc; simpl.
  - now rewrite app_nil_r.
  - rewrite IH. destruct (p x); simpl; [ | reflexivity].
    now rewrite <- app_assoc.
Qed.

Lemma sumZ_app (l1 l2 : list Z) :
  Spec.sumZ (l1 ++ l2) = (Spec.sumZ l1 + Spec.sumZ l2)%Z.
Proof. induction l1 as [| x l1 IH]; simpl; [reflexivity | rewrite IH; lia]. Qed.

(* ------------------------------------------------------------------ *)
(** * Aggregation by key *)

Section UpsertFacts.
Variables A V : Type.
Variable key : A -> string.
Variable init : A -> V.
Variable merge : V -> A -> V.

Let upsert := Aggregate.upsert key init merge.
Let summary := Aggregate.summary init merge.

Lemma get_upsert (m : JsMap.t V) (a : A) (k : string) :
  JsMap.get k (upsert m a)
  = if String.eqb (key a) k
    then Some match JsMap.get k m with
              | Some v => merge v a
              | None => init a
              end
    else JsMap.get k m.
Proof.
  unfold upsert, Aggregate.upsert.
  destruct (String.eqb (key a) k) eqn:E.
  - apply String.eqb_eq in E. subst k.
    destruct (JsMap.get (key a) m); now rewrite get_set_same.
  - apply String.eqb_neq in E.
    destruct (JsMap.get (key a) m); now rewrite get_set_other.
Qed.

Lemma summary_snoc (l : list A) (a : A) :
  summary (l ++ [a])
  = Some match summary l with
         | Some v => merge v a
         | None => init a
         end.
Proof.
  destruct l as [| b l]; simpl; [reflexivity | ].
  now rewrite fold_left_app.
Qed.

(** The value of a key is the summary of the items of that key. *)
Lemma get_fold_upsert (l : list A) (k : string) :
  JsMap.get k (fold_left upsert l [])
  = summary (filter (fun a => String.eqb (key a) k) l).
Proof.
  induction l as [| a l IH] using rev_ind; [reflexivity | ].
  rewrite fold_left_app, filter_app. simpl. rewrite get_upsert.
  destruct (String.eqb (key a) k).
  - rewrite summary_snoc, IH. reflexivity.
  - now rewrite app_nil_r.
Qed.

Lemma NoDup_keys_fold_upsert (l : list A) :
  NoDup (JsMap.keys (fold_left upsert l [])).
Proof.
  induction l as [| a l IH] using rev_ind; [constructor | ].
  rewrite fold_left_app. simpl. unfold upsert at 1, Aggregate.upsert.
  destruct (JsMap.get (key a) _); now apply NoDup_keys_set.
Qed.

End UpsertFacts.

(* ------------------------------------------------------------------ *)
(** * Sorting *)

Section SortFacts.
Variable A : Type.
Variable cmp : A -> A -> Z.

Lemma insert_perm (x : A) (l : list A) :
  Permutation (Js.insert cmp x l) (x :: l).
Proof.
  induction l as [| y l IH]; simpl; [reflexivity | ].
  destruct (cmp x y <=? 0)%Z; [reflexivity | ].
  rewrite IH. apply perm_swap.
Qed.

Lemma sort_by_perm (l : list A) : Permutation (Js.sort_by cmp l) l.
Proof.
  induction l as [| x l IH]; simpl; [reflexivity | ].
  rewrite insert_perm. now apply perm_skip.
Qed.

Lemma sort_by_In (l : list A) (x : A) : In x (Js.sort_by cmp l) <-> In x l.
Proof.
  split; apply Permutation_in;
    [apply sort_by_perm | apply Permutation_sym, sort_by_perm].
Qed.
End SortFacts.

(** The comparator [(a, b) => g(b) - g(a)] sorts descending by [g]. *)
Section SortDescending.
Variable A : Type.
Variable g : A -> Z.

Let cmp (a b : A) : Z := (g b - g a)%Z.
Let ge (a b : A) : Prop := (g a >= g b)%Z.

Lemma insert_descending (x : A) (l : list A) :
  StronglySorted ge l -> StronglySorted ge (Js.insert cmp x l).
Proof.
  induction l as [| y l IH]; intros Hs; simpl.
  - repeat constructor.
  - inversion Hs as [| ? ? Hs' Hall]; subst.
    unfold cmp at 1. destruct (g y - g x <=? 0)%Z eqn:E.
    + apply Z.leb_le in E. constructor; [exact Hs | ].
      constructor; [unfold ge; lia | ].
      eapply Forall_impl; [ | exact Hall]. unfold ge. intros; lia.
    + apply Z.leb_gt in E. constructor; [now apply IH | ].
      apply (Permutation_Forall (Permutation_sym (insert_perm cmp x l))).
      constructor; [unfold ge; lia | exact Hall].
Qed.

Lemma sort_by_descending (l : list A) :
  StronglySorted ge (Js.sort_by cmp l).
Proof.
  induction l as [| x l IH]; simpl; [constructor | ].
  now apply insert_descending.
Qed.
End SortDescending.

(* ------------------------------------------------------------------ *)
(** * Exposure per (category, combo) *)

Lemma comboKey_inj (c1 c2 : Category) (s1 s2 : string) :
  Compute.comboKey c1 s1 = Compute.comboKey c2 s2 -> c1 = c2 /\ s1 = s2.
Proof.
  unfold Compute.comboKey.
  destruct c1, c2; simpl; intros H; try discriminate H;
    injection H as ->; split; reflexivity.
Qed.

Lemma comboItemKey_eqb (category : Category) (combo : string)
      (x : Category * PerComboTotal.t) :
  String.eqb (Aggregate.comboItemKey x) (Compute.comboKey category combo)
  = Spec.isPair category combo x.
Proof.
  unfold Aggregate.comboItemKey, Spec.isPair.
  destruct (String.eqb _ _) eqn:E.
  - apply String.eqb_eq, comboKey_inj in E. destruct E as [-> ->].
    now rewrite Category_eqb_refl, String.eqb_refl.
  - symmetry. apply andb_false_iff.
    destruct (Category_eqb (fst x) category) eqn:Ec; [right | now left].
    destruct (String.eqb (PerComboTotal.combo (snd x)) combo) eqn:Es;
      [ | reflexivity].
    apply Category_eqb_eq in Ec. apply String.eqb_eq in Es.
    apply String.eqb_neq in E. elim E. now rewrite Ec, Es.
Qed.

(** The three nested loops of [aggregateComboSales] visit the per-combo
    totals of the tickets that are not deleted, in order. *)
Lemma aggregateComboSales_flat (tickets : list Ticket.t) :
  Compute.aggregateComboSales tickets
  = fold_left (Aggregate.upsert Aggregate.comboItemKey Aggregate.comboInit
                                Aggregate.comboMerge)
              (Spec.liveCombos tickets) [].
Proof.
  unfold Compute.aggregateComboSales, Spec.liveCombos.
  rewrite fold_left_flat_map, fold_left_filter.
  apply fold_left_ext. intros m t.
  destruct (Ticket.deleted t); simpl; [reflexivity | ].
  rewrite fold_left_flat_map. apply fold_left_ext. intros m' e.
  unfold Spec.entryCombos.
  destruct (Entry.perComboTotals e) as [pcs | ]; [ | reflexivity].
  revert m'. induction pcs as [| p pcs IH]; intros m'; simpl;
    [reflexivity | ].
  rewrite <- IH. reflexivity.
Qed.

Lemma fold_comboMerge (l : list (Category * PerComboTotal.t))
      (v : Compute.ComboSale.t) :
  fold_left Aggregate.comboMerge l v
  = Compute.ComboSale.mk
      (Compute.ComboSale.combo v) (Compute.ComboSale.category v)
      (Compute.ComboSale.soldAmount v
       + Spec.sumZ (map (fun x => PerComboTotal.soldAmount (snd x)) l))%Z.
Proof.
  revert v. induction l as [| x l IH]; intros v; simpl.
  - destruct v; simpl. f_equal. lia.
  - rewrite IH. simpl. f_equal. lia.
Qed.

(** What the aggregate holds for a pair: nothing when the pair was not
    sold, and otherwise its summed [soldAmount]. *)
Lemma get_aggregateComboSales (tickets : list Ticket.t)
      (category : Category) (combo : string) :
  JsMap.get (Compute.comboKey category combo)
            (Compute.aggregateComboSales tickets)
  = match filter (Spec.isPair category combo) (Spec.liveCombos tickets) with
    | [] => None
    | _ :: _ =>
        Some (Compute.ComboSale.mk combo category
                (Spec.soldTotal tickets category combo))
    end.
Proof.
  rewrite aggregateComboSales_flat, get_fold_upsert.
  unfold Spec.soldTotal.
  rewrite (filter_ext _ _ (comboItemKey_eqb category combo)).
  destruct (filter (Spec.isPair category combo) (Spec.liveCombos tickets))
    as [| x l] eqn:E; [reflexivity | ].
  simpl. rewrite fold_comboMerge. simpl.
  assert (Hx : Spec.isPair category combo x = true).
  { assert (Hin : In x (filter (Spec.isPair category combo)
                               (Spec.liveCombos tickets)))
      by (rewrite E; now left).
    now apply filter_In in Hin. }
  unfold Spec.isPair in Hx. apply andb_true_iff in Hx.
  destruct Hx as [Hc Hs]. apply Category_eqb_eq in Hc.
  apply String.eqb_eq in Hs. now rewrite Hc, Hs.
Qed.

Lemma sold_iff_filter (tickets : list Ticket.t) (category : Category)
      (combo : string) :
  Spec.Sold tickets category combo
  <-> filter (Spec.isPair category combo) (Spec.liveCombos tickets) <> [].
Proof.
  unfold Spec.Sold. split.
  - intros (p & Hin & Hp) Hnil.
    assert (H : In (category, p)
                   (filter (Spec.isPair category combo)
                           (Spec.liveCombos tickets))).
    { apply filter_In. split; [exact Hin | ].
      unfold Spec.isPair. simpl.
      now rewrite Category_eqb_refl, Hp, String.eqb_refl. }
    rewrite Hnil in H. exact H.
  - destruct (filter _ _) as [| [c p] l] eqn:E; [congruence | intros _].
    assert (H : In (c, p) (filter (Spec.isPair category combo)
                                  (Spec.liveCombos tickets)))
      by (rewrite E; now left).
    apply filter_In in H. destruct H as [Hin Hp].
    unfold Spec.isPair in Hp. simpl in Hp. apply andb_true_iff in Hp.
    destruct Hp as [Hc Hs]. apply Category_eqb_eq in Hc.
    apply String.eqb_eq in Hs. subst c. now exists p.
Qed.

(** Every binding of the aggregate is the binding of a sold pair. *)
Lemma aggregateComboSales_In (tickets : list Ticket.t) (k : string)
      (v : Compute.ComboSale.t) :
  In (k, v) (Compute.aggregateComboSales tickets) <->
  exists category combo,
    Spec.Sold tickets category combo
    /\ k = Compute.comboKey category combo
    /\ v = Compute.ComboSale.mk combo category
             (Spec.soldTotal tickets category combo).
Proof.
  assert (Hnd : NoDup (JsMap.keys (Compute.aggregateComboSales tickets))).
  { rewrite aggregateComboSales_flat. apply NoDup_keys_fold_upsert. }
  split.
  - intros Hin. pose proof (In_get_Some _ _ _ Hnd Hin) as Hget.
    assert (Hkey : exists x, In x (Spec.liveCombos tickets)
                             /\ Aggregate.comboItemKey x = k).
    { rewrite aggregateComboSales_flat, get_fold_upsert in Hget.
      destruct (filter _ (Spec.liveCombos tickets)) as [| x l] eqn:E;
        [discriminate Hget | ].
      assert (H : In x (filter (fun a => String.eqb (Aggregate.comboItemKey a) k)
                               (Spec.liveCombos tickets)))
        by (rewrite E; now left).
      apply filter_In in H. destruct H as [H1 H2].
      apply String.eqb_eq in H2. now exists x. }
    destruct Hkey as ([c p] & Hx & <-).
    exists c, (PerComboTotal.combo p).
    assert (Hsold : Spec.Sold tickets c (PerComboTotal.combo p))
      by (now exists p).
    split; [exact Hsold | ]. split; [reflexivity | ].
    unfold Aggregate.comboItemKey in Hget. simpl in Hget.
    rewrite get_aggregateComboSales in Hget.
    apply sold_iff_filter in Hsold.
    destruct (filter _ _); [congruence | ]. now injection Hget.
  - intros (category & combo & Hsold & -> & ->).
    apply get_Some_In. rewrite get_aggregateComboSales.
    apply sold_iff_filter in Hsold.
    destruct (filter _ _); [congruence | reflexivity].
Qed.

(** [findRiskyNumbers] before the sort: the values above the threshold,
    in the order of the map. *)
Lemma findRiskyNumbers_unfold (tickets : list Ticket.t) (threshold : Z) :
  Compute.findRiskyNumbers tickets threshold
  = Js.sort_by
      (fun a b => (RiskyNumber.soldAmount b - RiskyNumber.soldAmount a)%Z)
      (map (fun kv => Aggregate.toRisky threshold (snd kv))
           (filter (fun kv => (Compute.ComboSale.soldAmount (snd kv)
                               >? threshold)%Z)
                   (Compute.aggregateComboSales tickets))).
Proof.
  unfold Compute.findRiskyNumbers. f_equal.
  exact (fold_left_push
           (fun kv => (Compute.ComboSale.soldAmount (snd kv) >? threshold)%Z)
           (fun kv => Aggregate.toRisky threshold (snd kv))
           (Compute.aggregateComboSales tickets) []).
Qed.

Lemma findRiskyNumbers_In (tickets : list Ticket.t) (threshold : Z)
      (r : RiskyNumber.t) :
  In r (Compute.findRiskyNumbers tickets threshold) <->
  exists category combo,
    Spec.Sold tickets category combo
    /\ (Spec.soldTotal tickets category combo > threshold)%Z
    /\ r = RiskyNumber.mk combo category
             (Spec.soldTotal tickets category combo) threshold.
Proof.
  rewrite findRiskyNumbers_unfold, sort_by_In, in_map_iff. split.
  - intros ([k v] & <- & Hin). apply filter_In in Hin.
    destruct Hin as [Hin Hgt]. simpl in Hgt.
    apply aggregateComboSales_In in Hin.
    destruct Hin as (category & combo & Hsold & -> & ->).
    exists category, combo. simpl in Hgt.
    split; [exact Hsold | ]. split; [lia | reflexivity].
  - intros (category & combo & Hsold & Hgt & ->).
    exists (Compute.comboKey category combo,
            Compute.ComboSale.mk combo category
              (Spec.soldTotal tickets category combo)).
    split; [reflexivity | ]. apply filter_In. split.
    + apply aggregateComboSales_In. now exists category, combo.
    + simpl. lia.
Qed.

Lemma NoDup_map_filter (A B : Type) (h : A -> B) (p : A -> bool)
      (l : list A) :
  NoDup (map h l) -> NoDup (map h (filter p l)).
Proof.
  induction l as [| x l IH]; simpl; intros Hnd; [constructor | ].
  inversion Hnd as [| ? ? Hnotin Hnd']; subst.
  destruct (p x); simpl; [ | now apply IH].
  constructor; [ | now apply IH].
  intros Hin. apply Hnotin. apply in_map_iff in Hin.
  destruct Hin as (y & Hy & Hin). apply filter_In in Hin.
  apply in_map_iff. exists y. tauto.
Qed.

Lemma findRiskyNumbers_NoDup (tickets : list Ticket.t) (threshold : Z) :
  NoDup (map Aggregate.riskyPair (Compute.findRiskyNumbers tickets threshold)).
Proof.
  rewrite findRiskyNumbers_unfold.
  eapply Permutation_NoDup;
    [apply Permutation_map, Permutation_sym, sort_by_perm | ].
  rewrite map_map. apply NoDup_map_filter.
  assert (Hnd : NoDup (JsMap.keys (Compute.aggregateComboSales tickets))).
  { rewrite aggregateComboSales_flat. apply NoDup_keys_fold_upsert. }
  unfold JsMap.keys in Hnd.
  rewrite (map_ext_in fst
             (fun kv => Compute.comboKey
                          (fst (Aggregate.riskyPair (Aggregate.toRisky threshold (snd kv))))
                          (snd (Aggregate.riskyPair (Aggregate.toRisky threshold (snd kv))))))
    in Hnd.
  - rewrite <- (map_map
                  (fun kv => Aggregate.riskyPair (Aggregate.toRisky threshold (snd kv)))
                  (fun pr => Compute.comboKey (fst pr) (snd pr))) in Hnd.
    exact (NoDup_map_inv _ _ Hnd).
  - intros [k v] Hin. apply aggregateComboSales_In in Hin.
    destruct Hin as (category & combo & _ & -> & ->). reflexivity.
Qed.

(** C5: [findRiskyNumbers] returns exactly the (category, combo) pairs sold
    in the tickets that are not deleted whose summed [soldAmount] is
    strictly greater than the threshold, each once and with that sum; a pair
    whose sum equals the threshold is not returned; and the result is sorted
    descending by [soldAmount]. *)
Theorem findRiskyNumbers_strict_and_sorted (tickets : list Ticket.t)
        (threshold : Z) :
  (forall category combo,
      (exists r, In r (Compute.findRiskyNumbers tickets threshold)
                 /\ RiskyNumber.category r = category
                 /\ RiskyNumber.combo r = combo)
      <-> Spec.Sold tickets category combo
          /\ (Spec.soldTotal tickets category combo > threshold)%Z)
  /\ (forall r, In r (Compute.findRiskyNumbers tickets threshold) ->
        RiskyNumber.soldAmount r
        = Spec.soldTotal tickets (RiskyNumber.category r) (RiskyNumber.combo r)
        /\ RiskyNumber.threshold r = threshold)
  /\ (forall category combo,
        Spec.soldTotal tickets category combo = threshold ->
        ~ exists r, In r (Compute.findRiskyNumbers tickets threshold)
                    /\ RiskyNumber.category r = category
                    /\ RiskyNumber.combo r = combo)
  /\ NoDup (map Aggregate.riskyPair (Compute.findRiskyNumbers tickets threshold))
  /\ StronglySorted
       (fun a b => (RiskyNumber.soldAmount a >= RiskyNumber.soldAmount b)%Z)
       (Compute.findRiskyNumbers tickets threshold).
Proof.
  assert (Hiff : forall category combo,
             (exists r, In r (Compute.findRiskyNumbers tickets threshold)
                        /\ RiskyNumber.category r = category
                        /\ RiskyNumber.combo r = combo)
             <-> Spec.Sold tickets category combo
                 /\ (Spec.soldTotal tickets category combo > threshold)%Z).
  { intros category combo. split.
    - intros (r & Hin & <- & <-). apply findRiskyNumbers_In in Hin.
      destruct Hin as (c & s & Hsold & Hgt & ->). simpl. tauto.
    - intros [Hsold Hgt]. eexists. split; [ | split].
      + apply findRiskyNumbers_In. exists category, combo. eauto.
      + reflexivity.
      + reflexivity. }
  split; [exact Hiff | ]. split; [ | split; [ | split]].
  - intros r Hin. apply findRiskyNumbers_In in Hin.
    destruct Hin as (c & s & _ & _ & ->). simpl. tauto.
  - intros category combo Heq Hex. apply Hiff in Hex. lia.
  - apply findRiskyNumbers_NoDup.
  - rewrite findRiskyNumbers_unfold.
    apply (sort_by_descending RiskyNumber.soldAmount).
Qed.

Lemma findRiskyNumbers_strict_and_sorted_witness :
  Spec.soldTotal SampleTickets.tickets C2top "12" = 620%Z
  /\ (~ exists r, In r (Compute.findRiskyNumbers SampleTickets.tickets 620)
                  /\ RiskyNumber.category r = C2top
                  /\ RiskyNumber.combo r = "12")
  /\ StronglySorted
       (fun a b => (RiskyNumber.soldAmount a >= RiskyNumber.soldAmount b)%Z)
       (Compute.findRiskyNumbers SampleTickets.tickets 99).
Proof.
  assert (Hsum : Spec.soldTotal SampleTickets.tickets C2top "12" = 620%Z)
    by (vm_compute; reflexivity).
  split; [exact Hsum | ]. split.
  - exact (proj1 (proj2 (proj2 (findRiskyNumbers_strict_and_sorted
                                  SampleTickets.tickets 620)))
                 C2top "12" Hsum).
  - exact (proj2 (proj2 (proj2 (proj2 (findRiskyNumbers_strict_and_sorted
                                         SampleTickets.tickets 99))))).
Defined.

(** The boundary on the sample tickets: ["12"] under [2top] sums to 120
    over the two live tickets (the deleted ticket does not count). *)
Example findRiskyNumbers_boundary :
  Compute.findRiskyNumbers [SampleTickets.t1; SampleTickets.t2;
                            SampleTickets.t3_deleted] 120
  = []
  /\ Compute.findRiskyNumbers [SampleTickets.t1; SampleTickets.t2;
                               SampleTickets.t3_deleted] 119
     = [RiskyNumber.mk "12" C2top 120 119]
  /\ Compute.findRiskyNumbers [SampleTickets.t1; SampleTickets.t2;
                               SampleTickets.t3_deleted] 99
     = [RiskyNumber.mk "12" C2top 120 99; RiskyNumber.mk "12" C2tod 100 99;
        RiskyNumber.mk "21" C2tod 100 99; RiskyNumber.mk "123" C3top 100 99].
Proof. repeat split; vm_compute; reflexivity. Qed.

(* ------------------------------------------------------------------ *)
(** * Totals per (category, number) on a date *)

Lemma numberKey_inj (c1 c2 : Category) (s1 s2 : string) :
  Compute.numberKey c1 s1 = Compute.numberKey c2 s2 -> c1 = c2 /\ s1 = s2.
Proof.
  unfold Compute.numberKey.
  destruct c1, c2; simpl; intros H; try discriminate H;
    injection H as ->; split; reflexivity.
Qed.

Lemma numberItemKey_eqb (category : Category) (num : string)
      (x : Category * string * Z) :
  String.eqb (Aggregate.numberItemKey x) (Compute.numberKey category num)
  = Spec.isNumber category num x.
Proof.
  unfold Aggregate.numberItemKey, Spec.isNumber.
  destruct (String.eqb _ _) eqn:E.
  - apply String.eqb_eq, numberKey_inj in E. destruct E as [-> ->].
    now rewrite Category_eqb_refl, String.eqb_refl.
  - symmetry. apply andb_false_iff.
    destruct (Category_eqb (fst (fst x)) category) eqn:Ec; [right | now left].
    destruct (String.eqb (snd (fst x)) num) eqn:Es; [ | reflexivity].
    apply Category_eqb_eq in Ec. apply String.eqb_eq in Es.
    apply String.eqb_neq in E. elim E. now rewrite Ec, Es.
Qed.

Lemma onDateb_iff (date : string) (t : Ticket.t) :
  Spec.onDateb date t = true <-> Spec.OnDate date t.
Proof.
  unfold Spec.onDateb, Spec.OnDate.
  rewrite andb_true_iff, negb_true_iff, String.eqb_eq. reflexivity.
Qed.

(** The body of the innermost loop adds one item to the map. *)
Lemma addNumber_upsert (perNumberMax : Z) (entry : Entry.t)
      (m : JsMap.t Compute.NumberTotal.t) (num : string) :
  Compute.addNumber perNumberMax entry m num
  = Aggregate.upsert Aggregate.numberItemKey
      (Aggregate.numberInit perNumberMax) (Aggregate.numberMerge perNumberMax)
      m (Entry.category entry, num, Compute.perComboAmount entry num).
Proof. reflexivity. Qed.

Lemma getNumberTotals_flat (tickets : list Ticket.t) (date : string)
      (perNumberMax : Z) :
  Compute.getNumberTotals tickets date perNumberMax
  = fold_left (Aggregate.upsert Aggregate.numberItemKey
                 (Aggregate.numberInit perNumberMax)
                 (Aggregate.numberMerge perNumberMax))
              (Spec.dateNumbers tickets date) [].
Proof.
  unfold Compute.getNumberTotals, Spec.dateNumbers.
  rewrite fold_left_flat_map. apply fold_left_ext. intros m t.
  rewrite fold_left_flat_map. apply fold_left_ext. intros m' e.
  unfold Spec.entryNumbers, Spec.numbersOf.
  generalize (match Entry.expanded e with
              | Some l => l
              | None => [Entry.raw e]
              end).
  intros l. revert m'. induction l as [| num l IH]; intros m'; simpl;
    [reflexivity | ].
  rewrite IH. reflexivity.
Qed.

Lemma fold_numberMerge (perNumberMax : Z) (l : list (Category * string * Z))
      (v : Compute.NumberTotal.t) :
  Compute.NumberTotal.exceedsCeiling v
  = (Compute.NumberTotal.totalAmount v >=? perNumberMax)%Z ->
  fold_left (Aggregate.numberMerge perNumberMax) l v
  = Compute.NumberTotal.mk
      (Compute.NumberTotal.number v) (Compute.NumberTotal.category v)
      (Compute.NumberTotal.totalAmount v + Spec.sumZ (map snd l))%Z
      (Compute.NumberTotal.totalAmount v + Spec.sumZ (map snd l)
       >=? perNumberMax)%Z.
Proof.
  revert v. induction l as [| x l IH]; intros v Hv; simpl.
  - destruct v; simpl in *. rewrite Z.add_0_r. now f_equal.
  - rewrite IH by reflexivity. simpl. rewrite Z.add_assoc. reflexivity.
Qed.

Lemma get_getNumberTotals (tickets : list Ticket.t) (date : string)
      (perNumberMax : Z) (category : Category) (num : string) :
  JsMap.get (Compute.numberKey category num)
            (Compute.getNumberTotals tickets date perNumberMax)
  = match filter (Spec.isNumber category num) (Spec.dateNumbers tickets date)
    with
    | [] => None
    | _ :: _ =>
        Some (Compute.NumberTotal.mk num category
                (Spec.numberTotal tickets date category num)
                (Spec.numberTotal tickets date category num >=? perNumberMax)%Z)
    end.
Proof.
  rewrite getNumberTotals_flat, get_fold_upsert.
  unfold Spec.numberTotal.
  rewrite (filter_ext _ _ (numberItemKey_eqb category num)).
  destruct (filter (Spec.isNumber category num) (Spec.dateNumbers tickets date))
    as [| x l] eqn:E; [reflexivity | ].
  simpl. rewrite fold_numberMerge by reflexivity. simpl.
  assert (Hx : Spec.isNumber category num x = true).
  { assert (Hin : In x (filter (Spec.isNumber category num)
                               (Spec.dateNumbers tickets date)))
      by (rewrite E; now left).
    now apply filter_In in Hin. }
  unfold Spec.isNumber in Hx. apply andb_true_iff in Hx.
  destruct Hx as [Hc Hs]. apply Category_eqb_eq in Hc.
  apply String.eqb_eq in Hs. now rewrite Hc, Hs.
Qed.

(** The items come from the entries of the tickets of the date that are
    not deleted, and from no other ticket. *)
Lemma dateNumbers_In (tickets : list Ticket.t) (date : string)
      (category : Category) (num : string) :
  filter (Spec.isNumber category num) (Spec.dateNumbers tickets date) <> []
  <-> exists t e,
      In t tickets /\ Spec.OnDate date t /\ In e (Ticket.entries t)
      /\ Entry.category e = category /\ In num (Spec.numbersOf e).
Proof.
  split.
  - destruct (filter _ _) as [| x l] eqn:E; [congruence | intros _].
    assert (H : In x (filter (Spec.isNumber category num)
                             (Spec.dateNumbers tickets date)))
      by (rewrite E; now left).
    apply filter_In in H. destruct H as [Hin Hx].
    unfold Spec.dateNumbers in Hin. apply in_flat_map in Hin.
    destruct Hin as (t & Ht & Hin). apply filter_In in Ht.
    apply in_flat_map in Hin. destruct Hin as (e & He & Hin).
    unfold Spec.entryNumbers in Hin. apply in_map_iff in Hin.
    destruct Hin as (n & <- & Hn).
    unfold Spec.isNumber in Hx. simpl in Hx. apply andb_true_iff in Hx.
    destruct Hx as [Hc Hs]. apply Category_eqb_eq in Hc.
    apply String.eqb_eq in Hs. subst n.
    exists t, e. rewrite <- onDateb_iff. tauto.
  - intros (t & e & Ht & Hd & He & Hc & Hn) Hnil.
    assert (H : In (category, num, Compute.perComboAmount e num)
                   (filter (Spec.isNumber category num)
                           (Spec.dateNumbers tickets date))).
    { apply filter_In. split.
      - unfold Spec.dateNumbers. apply in_flat_map. exists t.
        split; [apply filter_In; split; [exact Ht | now apply onDateb_iff] | ].
        apply in_flat_map. exists e. split; [exact He | ].
        unfold Spec.entryNumbers. apply in_map_iff. exists num.
        now rewrite Hc.
      - unfold Spec.isNumber. simpl.
        now rewrite Category_eqb_refl, String.eqb_refl. }
    rewrite Hnil in H. exact H.
Qed.

Lemma getNumberTotals_In (tickets : list Ticket.t) (date : string)
      (perNumberMax : Z) (k : string) (nt : Compute.NumberTotal.t) :
  In (k, nt) (Compute.getNumberTotals tickets date perNumberMax) ->
  k = Compute.numberKey (Compute.NumberTotal.category nt)
                        (Compute.NumberTotal.number nt)
  /\ Compute.NumberTotal.totalAmount nt
     = Spec.numberTotal tickets date (Compute.NumberTotal.category nt)
                        (Compute.NumberTotal.number nt)
  /\ Compute.NumberTotal.exceedsCeiling nt
     = (Compute.NumberTotal.totalAmount nt >=? perNumberMax)%Z.
Proof.
  intros Hin.
  assert (Hnd : NoDup (JsMap.keys
                         (Compute.getNumberTotals tickets date perNumberMax))).
  { rewrite getNumberTotals_flat. apply NoDup_keys_fold_upsert. }
  pose proof (In_get_Some _ _ _ Hnd Hin) as Hget.
  assert (Hkey : exists x, Aggregate.numberItemKey x = k).
  { rewrite getNumberTotals_flat, get_fold_upsert in Hget.
    destruct (filter _ (Spec.dateNumbers tickets date)) as [| x l] eqn:E;
      [discriminate Hget | ].
    assert (H : In x (filter (fun a => String.eqb (Aggregate.numberItemKey a) k)
                             (Spec.dateNumbers tickets date)))
      by (rewrite E; now left).
    apply filter_In in H. destruct H as [_ H2].
    apply String.eqb_eq in H2. now exists x. }
  destruct Hkey as ([[c n] a] & <-).
  unfold Aggregate.numberItemKey in Hget. simpl in Hget.
  rewrite get_getNumberTotals in Hget.
  destruct (filter _ _); [discriminate Hget | ].
  injection Hget as <-. simpl. auto.
Qed.

Lemma dateNumbers_skip (before after : list Ticket.t) (t : Ticket.t)
      (date : string) :
  ~ Spec.OnDate date t ->
  Spec.dateNumbers (before ++ t :: after) date
  = Spec.dateNumbers (before ++ after) date.
Proof.
  intros Hno. unfold Spec.dateNumbers. rewrite !filter_app. simpl.
  destruct (Spec.onDateb date t) eqn:E; [ | reflexivity].
  apply onDateb_iff in E. contradiction.
Qed.

(** C6: [getNumberTotals] aggregates the tickets whose date is exactly the
    given one and that are not soft-deleted, and no other ticket; it is
    keyed by (category, expanded number), each key holding the summed
    amount of that number; and every [NumberTotal] of the result has
    [exceedsCeiling] true exactly when its [totalAmount] is greater than or
    equal to [perNumberMax]. *)
Theorem getNumberTotals_on_date_inclusive (tickets : list Ticket.t)
        (date : string) (perNumberMax : Z) :
  (forall category num,
      In (Compute.numberKey category num)
         (JsMap.keys (Compute.getNumberTotals tickets date perNumberMax))
      <-> exists t e,
          In t tickets /\ Spec.OnDate date t /\ In e (Ticket.entries t)
          /\ Entry.category e = category /\ In num (Spec.numbersOf e))
  /\ (forall before t after,
        tickets = before ++ t :: after -> ~ Spec.OnDate date t ->
        Compute.getNumberTotals tickets date perNumberMax
        = Compute.getNumberTotals (before ++ after) date perNumberMax)
  /\ NoDup (JsMap.keys (Compute.getNumberTotals tickets date perNumberMax))
  /\ (forall k nt,
        In (k, nt) (Compute.getNumberTotals tickets date perNumberMax) ->
        k = Compute.numberKey (Compute.NumberTotal.category nt)
                              (Compute.NumberTotal.number nt)
        /\ Compute.NumberTotal.totalAmount nt
           = Spec.numberTotal tickets date (Compute.NumberTotal.category nt)
                              (Compute.NumberTotal.number nt)
        /\ (Compute.NumberTotal.exceedsCeiling nt = true
            <-> (Compute.NumberTotal.totalAmount nt >= perNumberMax)%Z)).
Proof.
  split; [ | split; [ | split]].
  - intros category num. rewrite <- dateNumbers_In.
    pose proof (get_getNumberTotals tickets date perNumberMax category num)
      as Hget.
    pose proof (get_None_iff
                  (Compute.getNumberTotals tickets date perNumberMax)
                  (Compute.numberKey category num)) as Hnone.
    destruct (filter _ _) as [| x l].
    + split; [ | congruence]. intros Hin. now apply Hnone in Hget.
    + split; [discriminate | ]. intros _.
      destruct (in_dec string_dec (Compute.numberKey category num)
                       (JsMap.keys (Compute.getNumberTotals tickets date
                                                            perNumberMax)))
        as [Hin | Hout]; [exact Hin | ].
      apply Hnone in Hout. congruence.
  - intros before t after -> Hno.
    rewrite !getNumberTotals_flat. now rewrite dateNumbers_skip.
  - rewrite getNumberTotals_flat. apply NoDup_keys_fold_upsert.
  - intros k nt Hin.
    destruct (getNumberTotals_In _ _ _ _ _ Hin) as (Hk & Htot & Hex).
    split; [exact Hk | ]. split; [exact Htot | ].
    rewrite Hex, Z.geb_le. lia.
Qed.

Lemma getNumberTotals_on_date_inclusive_witness :
  In ("2top-12", Compute.NumberTotal.mk "12" C2top 120 true)
     (Compute.getNumberTotals SampleTickets.tickets "2025-01-10" 120)
  /\ "2top-12" = Compute.numberKey C2top "12"
  /\ 120%Z = Spec.numberTotal SampleTickets.tickets "2025-01-10" C2top "12"
  /\ (true = true <-> (120 >= 120)%Z).
Proof.
  assert (Hin : In ("2top-12", Compute.NumberTotal.mk "12" C2top 120 true)
                   (Compute.getNumberTotals SampleTickets.tickets
                                            "2025-01-10" 120))
    by (vm_compute; left; reflexivity).
  split; [exact Hin | ].
  exact (proj2 (proj2 (proj2 (getNumberTotals_on_date_inclusive
                                SampleTickets.tickets "2025-01-10" 120)))
               _ _ Hin).
Defined.

(** The two boundaries on the sample tickets: ["12"] under [2top] totals
    120 on 2025-01-10 (the deleted ticket and the ticket of the next day do
    not count); the ceiling 120 is reached, the ceiling 121 is not. *)
Example getNumberTotals_boundary :
  JsMap.get (Compute.numberKey C2top "12")
            (Compute.getNumberTotals SampleTickets.tickets "2025-01-10" 120)
  = Some (Compute.NumberTotal.mk "12" C2top 120 true)
  /\ JsMap.get (Compute.numberKey C2top "12")
               (Compute.getNumberTotals SampleTickets.tickets "2025-01-10" 121)
     = Some (Compute.NumberTotal.mk "12" C2top 120 false)
  /\ Compute.findRiskyNumbers [SampleTickets.t1; SampleTickets.t2] 120 = [].
Proof. repeat split; vm_compute; reflexivity. Qed.

(* ------------------------------------------------------------------ *)
(** * The amount a number adds *)



Lemma perComboAmount_withQuantity (entry : Entry.t) (num : string) (q : Z) :
  Compute.perComboAmount (Spec.withQuantity entry q) num
  = Compute.perComboAmount entry num.
Proof. reflexivity. Qed.




(* ------------------------------------------------------------------ *)
(** * Actual payout *)












(** The reconciliation scenario: with [threeTop] = ["123"], a [3top] entry
    on ["123"] at 100 pays 800 times 100, an entry on ["124"] pays nothing,
    and a deleted ticket pays nothing. *)
Example computeActualPayout_scenario :
  Payout.computeActualPayout
    [Sample.ticket "a" "2025-01-10" false
       [Sample.computed (Sample.entry C3top "123" 100 1) []]]
    (Some Sample.result123)
  = 80000%Z
  /\ Payout.computeActualPayout
       [Sample.ticket "b" "2025-01-10" false
          [Sample.computed (Sample.entry C3top "124" 100 1) []]]
       (Some Sample.result123)
     = 0%Z
  /\ Payout.computeActualPayout
       [Sample.ticket "c" "2025-01-10" true
          [Sample.computed (Sample.entry C3top "123" 100 1) []]]
       (Some Sample.result123)
     = 0%Z
  /\ Payout.computeActualPayout
       [Sample.ticket "d" "2025-01-10" false
          [Sample.computed (Sample.entry C2top "23" 10 2) [];
           Sample.computed (Sample.entry C3tod "321" 10 1) [];
           Sample.computed (Sample.entry C3down "901" 5 1) []]]
       (Some Sample.result123)
     = (70 * 10 * 2 + 130 * 10 * 1 + 400 * 5 * 1)%Z.
Proof. repeat split; vm_compute; reflexivity. Qed.
(* ------------------------------------------------------------------ *)
(** * Draw periods *)

Lemma digitValue_range (c : ascii) (v : Z) :
  DrawPeriod.digitValue c = Some v -> (0 <= v <= 9)%Z.
Proof.
  unfold DrawPeriod.digitValue, Js.isDigit.
  destruct (_ && _) eqn:E; [ | discriminate].
  intros H. injection H as <-. apply andb_true_iff in E.
  destruct E as [E1 E2]. apply Nat.leb_le in E1, E2. lia.
Qed.

Lemma daysInMonth_bounds (y m : Z) :
  (28 <= DrawPeriod.daysInMonth y m <= 31)%Z.
Proof.
  unfold DrawPeriod.daysInMonth.
  destruct (m =? 2)%Z; [destruct (DrawPeriod.isLeapYear y); lia | ].
  destruct (_ || _); lia.
Qed.

Lemma daysInMonth_december (y : Z) : DrawPeriod.daysInMonth y 12 = 31%Z.
Proof. reflexivity. Qed.

(** The shape of a string that [new Date] reads as a date: the fields it
    writes, with a month of the year and a day of 1 to 31. *)
Lemma parseDate_fields (tz : Z) (s : string) (d : DrawPeriod.JsDate) :
  DrawPeriod.parseDate tz s = Some d ->
  exists year month day,
    (1 <= month <= 12 /\ 1 <= day <= 31)%Z
    /\ d = DrawPeriod.toLocal tz (DrawPeriod.utcDate year month day).
Proof.
  unfold DrawPeriod.parseDate.
  destruct (list_ascii_of_string s) as [| y1 l]; [discriminate | ].
  do 9 (destruct l as [| ? l]; [discriminate | ]).
  destruct l; [ | discriminate].
  repeat match goal with
         | |- context [match DrawPeriod.digitValue ?c with _ => _ end] =>
             destruct (DrawPeriod.digitValue c); [ | discriminate]
         end.
  match goal with
  | |- (if ?b then _ else _) = _ -> _ => destruct b eqn:E; [ | discriminate]
  end.
  intros Hd. injection Hd as <-.
  repeat (apply andb_true_iff in E; destruct E as [E ?]).
  repeat match goal with
         | H0 : (_ <=? _)%Z = true |- _ => apply Z.leb_le in H0
         end.
  eexists; eexists; eexists. split; [ | reflexivity]. lia.
Qed.

Lemma utcDate_range (year month day : Z) :
  (1 <= month <= 12)%Z -> (1 <= day <= 31)%Z ->
  (0 <= DrawPeriod.getMonth (DrawPeriod.utcDate year month day) <= 11
   /\ 1 <= DrawPeriod.getDate (DrawPeriod.utcDate year month day) <= 31)%Z.
Proof.
  intros Hm Hd. unfold DrawPeriod.utcDate.
  pose proof (daysInMonth_bounds year month) as Hb.
  destruct (Z.leb_spec day (DrawPeriod.daysInMonth year month)) as [Hle | Hgt];
    simpl; [lia | ].
  assert (Hne : month <> 12%Z).
  { intros ->. rewrite daysInMonth_december in Hgt. lia. }
  lia.
Qed.

Lemma prevDay_range (d : DrawPeriod.JsDate) :
  (0 <= DrawPeriod.getMonth d <= 11 /\ 1 <= DrawPeriod.getDate d <= 31)%Z ->
  (0 <= DrawPeriod.getMonth (DrawPeriod.prevDay d) <= 11
   /\ 1 <= DrawPeriod.getDate (DrawPeriod.prevDay d) <= 31)%Z.
Proof.
  intros [Hm Hd]. unfold DrawPeriod.prevDay.
  destruct (Z.ltb_spec 1 (DrawPeriod.getDate d)); simpl; [lia | ].
  destruct (Z.ltb_spec 0 (DrawPeriod.getMonth d)); simpl; [ | lia].
  pose proof (daysInMonth_bounds (DrawPeriod.getFullYear d)
                                 (DrawPeriod.getMonth d)).
  lia.
Qed.

(** A parsed date has a month of the year and a day of the month, in every
    time zone. *)
Lemma parseDate_range (tz : Z) (s : string) (d : DrawPeriod.JsDate) :
  DrawPeriod.parseDate tz s = Some d ->
  (0 <= DrawPeriod.getMonth d <= 11 /\ 1 <= DrawPeriod.getDate d <= 31)%Z.
Proof.
  intros H. destruct (parseDate_fields _ _ H) as (y & m & dd & [Hm Hd] & ->).
  unfold DrawPeriod.toLocal. destruct (tz <? 0)%Z.
  - apply prevDay_range. now apply utcDate_range.
  - now apply utcDate_range.
Qed.

(** A string that writes a calendar day is read as that day at midnight
    UTC, seen from the local zone. *)
Lemma parseDate_written (tz : Z) (s : string) (d : DrawPeriod.JsDate) :
  Spec.writtenDate s = Some d ->
  DrawPeriod.parseDate tz s = Some (DrawPeriod.toLocal tz d).
Proof.
  unfold Spec.writtenDate, DrawPeriod.parseDate.
  destruct (list_ascii_of_string s) as [| y1 l]; [discriminate | ].
  do 9 (destruct l as [| ? l]; [discriminate | ]).
  destruct l; [ | discriminate].
  repeat match goal with
         | |- context [match DrawPeriod.digitValue ?c with _ => _ end] =>
             destruct (DrawPeriod.digitValue c); [ | discriminate]
         end.
  match goal with
  | |- (if ?b then _ else _) = _ -> _ => destruct b eqn:E; [ | discriminate]
  end.
  intros Hd. injection Hd as <-.
  repeat (apply andb_true_iff in E; destruct E as [E ?]).
  match goal with
  | H0 : (?day <=? DrawPeriod.daysInMonth ?y ?m)%Z = true |- _ =>
      pose proof (daysInMonth_bounds y m) as Hb;
      assert (H31 : (day <=? 31)%Z = true)
        by (apply Z.leb_le; apply Z.leb_le in H0; lia);
      unfold DrawPeriod.utcDate; rewrite H0
  end.
  repeat match goal with
         | H0 : _ = true |- _ => rewrite H0; clear H0
         end.
  reflexivity.
Qed.

Lemma writtenDate_range (s : string) (d : DrawPeriod.JsDate) :
  Spec.writtenDate s = Some d ->
  (0 <= DrawPeriod.getMonth d <= 11 /\ 1 <= DrawPeriod.getDate d <= 31)%Z.
Proof.
  intros H. apply (parseDate_written 0) in H.
  exact (parseDate_range _ _ H).
Qed.

Lemma parseDate_east (tz : Z) (s : string) (d : DrawPeriod.JsDate) :
  (0 <= tz)%Z -> Spec.writtenDate s = Some d ->
  DrawPeriod.parseDate tz s = Some d.
Proof.
  intros Hz H. rewrite (parseDate_written tz _ H). unfold DrawPeriod.toLocal.
  destruct (Z.ltb_spec tz 0); [lia | reflexivity].
Qed.

Lemma parseDate_west (tz : Z) (s : string) (d : DrawPeriod.JsDate) :
  (tz < 0)%Z -> Spec.writtenDate s = Some d ->
  DrawPeriod.parseDate tz s = Some (DrawPeriod.prevDay d).
Proof.
  intros Hz H. rewrite (parseDate_written tz _ H). unfold DrawPeriod.toLocal.
  destruct (Z.ltb_spec tz 0); [reflexivity | lia].
Qed.

(** On the days that the local getters return, the function is the
    containment rule. *)
Lemma isDateInDrawPeriod_local (tz : Z) (ticketDate drawPeriodId : string)
      (t p : DrawPeriod.JsDate) :
  DrawPeriod.parseDate tz ticketDate = Some t ->
  DrawPeriod.parseDate tz drawPeriodId = Some p ->
  DrawPeriod.isDateInDrawPeriod tz ticketDate drawPeriodId = true
  <-> Spec.InPeriod t p.
Proof.
  intros Ht Hp.
  pose proof (parseDate_range _ _ Ht) as [Htm Htd].
  pose proof (parseDate_range _ _ Hp) as [Hpm Hpd].
  unfold DrawPeriod.isDateInDrawPeriod, Spec.InPeriod, Spec.monthIndex.
  rewrite Ht, Hp.
  destruct t as [ty tm td], p as [py pm pd]. simpl in *.
  destruct (Z.eqb_spec pd 1) as [-> | Hd1].
  - destruct (Z.eqb_spec pm 0) as [-> | Hm0].
    + destruct (Z.eqb_spec ty (py - 1)), (Z.eqb_spec tm 11),
        (Z.geb_spec td 18), (Z.eqb_spec ty py), (Z.eqb_spec tm 0),
        (Z.eqb_spec td 1); simpl; split; intros Hgoal;
        try reflexivity; try discriminate Hgoal; try lia.
    + destruct (Z.eqb_spec ty py), (Z.eqb_spec tm (pm - 1)),
        (Z.geb_spec td 18), (Z.eqb_spec tm pm),
        (Z.eqb_spec td 1); simpl; split; intros Hgoal;
        try reflexivity; try discriminate Hgoal; try lia.
  - destruct (Z.eqb_spec pd 16) as [-> | Hd16].
    + destruct (Z.eqb_spec ty py), (Z.eqb_spec tm pm),
        (Z.geb_spec td 2), (Z.leb_spec td 17); simpl; split; intros Hgoal;
        try reflexivity; try discriminate Hgoal; try lia.
    + split; [discriminate | lia].
Qed.

(** A string that [new Date] does not read as a date is in no period, and
    no date is in the period of such a string. *)
Lemma isDateInDrawPeriod_invalid (tz : Z) (ticketDate drawPeriodId : string) :
  DrawPeriod.parseDate tz ticketDate = None
  \/ DrawPeriod.parseDate tz drawPeriodId = None ->
  DrawPeriod.isDateInDrawPeriod tz ticketDate drawPeriodId = false.
Proof.
  unfold DrawPeriod.isDateInDrawPeriod. intros [-> | ->];
    [reflexivity | ].
  destruct (DrawPeriod.parseDate tz ticketDate); reflexivity.
Qed.

(** West of UTC the anchor of a period is read as the day before, which is
    neither a 1st nor a 16th: the function accepts no ticket. *)
Lemma isDateInDrawPeriod_west (tz : Z) (ticketDate drawPeriodId : string)
      (p : DrawPeriod.JsDate) :
  (tz < 0)%Z ->
  Spec.writtenDate drawPeriodId = Some p ->
  DrawPeriod.getDate p = 1%Z \/ DrawPeriod.getDate p = 16%Z ->
  DrawPeriod.isDateInDrawPeriod tz ticketDate drawPeriodId = false.
Proof.
  intros Hz Hp Hday.
  pose proof (writtenDate_range _ Hp) as [Hpm Hpd].
  unfold DrawPeriod.isDateInDrawPeriod.
  rewrite (parseDate_west _ Hz Hp).
  destruct (DrawPeriod.parseDate tz ticketDate) as [t | ]; [ | reflexivity].
  assert (Hprev : DrawPeriod.getDate (DrawPeriod.prevDay p) <> 1%Z
                  /\ DrawPeriod.getDate (DrawPeriod.prevDay p) <> 16%Z).
  { unfold DrawPeriod.prevDay.
    destruct (Z.ltb_spec 1 (DrawPeriod.getDate p)); simpl; [lia | ].
    destruct (Z.ltb_spec 0 (DrawPeriod.getMonth p)); simpl; [ | lia].
    pose proof (daysInMonth_bounds (DrawPeriod.getFullYear p)
                                   (DrawPeriod.getMonth p)).
    lia. }
  destruct Hprev as [H1 H16].
  apply Z.eqb_neq in H1, H16. rewrite H1, H16. reflexivity.
Qed.

(** C7: [isDateInDrawPeriod] reads both strings as midnight UTC and takes
    the day, month and year of the local zone.  In a zone west of UTC the
    local day is the day before the written one.  There a ticket dated
    10 January 2025 is not in the period of 16 January 2025, though day 10
    is among the days 2 to 17 of the month of the anchor, and a ticket dated
    the 18th is in the period that the identifier [2025-01-17] names,
    though that day is neither a 1st nor a 16th; and no ticket at all is in
    a period whose identifier writes a 1st or a 16th.  In Bangkok the same
    ticket of the 10th is in the period of the 16th. *)
Theorem isDateInDrawPeriod_west_of_UTC :
  Spec.writtenDate "2025-01-10" = Some (DrawPeriod.mkDate 2025 0 10)
  /\ Spec.writtenDate "2025-01-16" = Some (DrawPeriod.mkDate 2025 0 16)
  /\ Spec.InPeriod (DrawPeriod.mkDate 2025 0 10) (DrawPeriod.mkDate 2025 0 16)
  /\ DrawPeriod.isDateInDrawPeriod (-300) "2025-01-10" "2025-01-16" = false
  /\ DrawPeriod.isDateInDrawPeriod 420 "2025-01-10" "2025-01-16" = true
  /\ Spec.writtenDate "2025-01-18" = Some (DrawPeriod.mkDate 2025 0 18)
  /\ Spec.writtenDate "2025-01-17" = Some (DrawPeriod.mkDate 2025 0 17)
  /\ ~ Spec.InPeriod (DrawPeriod.mkDate 2025 0 18)
                     (DrawPeriod.mkDate 2025 0 17)
  /\ DrawPeriod.isDateInDrawPeriod (-300) "2025-01-18" "2025-01-17" = true
  /\ forall (tz : Z) (ticketDate drawPeriodId : string)
            (p : DrawPeriod.JsDate),
      (tz < 0)%Z ->
      Spec.writtenDate drawPeriodId = Some p ->
      DrawPeriod.getDate p = 1%Z \/ DrawPeriod.getDate p = 16%Z ->
      DrawPeriod.isDateInDrawPeriod tz ticketDate drawPeriodId = false.
Proof.
  split; [reflexivity | ]. split; [reflexivity | ].
  split.
  { right. unfold Spec.monthIndex. simpl. lia. }
  split; [vm_compute; reflexivity | ].
  split; [vm_compute; reflexivity | ].
  split; [reflexivity | ]. split; [reflexivity | ].
  split.
  { unfold Spec.InPeriod. simpl. lia. }
  split; [vm_compute; reflexivity | ].
  intros tz ticketDate drawPeriodId p. apply isDateInDrawPeriod_west.
Qed.

(** X20: in a time zone at or east of UTC, for a ticket date and a period
    identifier that write calendar days, [isDateInDrawPeriod] holds exactly
    when the period is anchored at day 1 of a month and the ticket is dated
    day 18 or later of the month before (the December of the year before,
    for January) or day 1 of that month, or the period is anchored at day 16
    of a month and the ticket is dated day 2 to day 17 of that month. *)
Theorem isDateInDrawPeriod_iff (tz : Z) (ticketDate drawPeriodId : string)
        (t p : DrawPeriod.JsDate)
        (Hz : (0 <= tz)%Z)
        (Ht : Spec.writtenDate ticketDate = Some t)
        (Hp : Spec.writtenDate drawPeriodId = Some p) :
  DrawPeriod.isDateInDrawPeriod tz ticketDate drawPeriodId = true
  <-> Spec.InPeriod t p.
Proof.
  apply isDateInDrawPeriod_local; now apply parseDate_east.
Qed.

Lemma isDateInDrawPeriod_iff_witness :
  (0 <= 420)%Z
  /\ Spec.writtenDate "2024-12-18" = Some (DrawPeriod.mkDate 2024 11 18)
  /\ Spec.writtenDate "2025-01-01" = Some (DrawPeriod.mkDate 2025 0 1)
  /\ (DrawPeriod.isDateInDrawPeriod 420 "2024-12-18" "2025-01-01" = true
      <-> Spec.InPeriod (DrawPeriod.mkDate 2024 11 18)
                        (DrawPeriod.mkDate 2025 0 1)).
Proof.
  split; [lia | ]. split; [reflexivity | ]. split; [reflexivity | ].
  refine (@isDateInDrawPeriod_iff 420 "2024-12-18" "2025-01-01"
            (DrawPeriod.mkDate 2024 11 18) (DrawPeriod.mkDate 2025 0 1)
            _ eq_refl eq_refl).
  lia.
Defined.

(** The containment scenario, in Bangkok: the 18th belongs to the period of
    the 1st of the next month, the 17th to the period of the 16th, the 1st
    to the period of the 1st; the 2nd does not belong to the period of the
    1st.  A day that the month lacks is carried into the next month. *)
Example draw_period_scenario :
  DrawPeriod.isDateInDrawPeriod 420 "2025-03-18" "2025-04-01" = true
  /\ DrawPeriod.isDateInDrawPeriod 420 "2025-03-17" "2025-03-16" = true
  /\ DrawPeriod.isDateInDrawPeriod 420 "2025-03-01" "2025-03-01" = true
  /\ DrawPeriod.isDateInDrawPeriod 420 "2025-03-02" "2025-03-01" = false
  /\ DrawPeriod.isDateInDrawPeriod 420 "2025-03-18" "2025-03-16" = false
  /\ DrawPeriod.isDateInDrawPeriod 420 "2024-12-31" "2025-01-01" = true
  /\ DrawPeriod.parseDate 420 "2025-02-30"
     = Some (DrawPeriod.mkDate 2025 2 2)
  /\ DrawPeriod.isDateInDrawPeriod 420 "2025-02-30" "2025-03-16" = true
  /\ DrawPeriod.parseDate (-300) "2025-01-01"
     = Some (DrawPeriod.mkDate 2024 11 31).
Proof. repeat split; vm_compute; reflexivity. Qed.

(* ------------------------------------------------------------------ *)
(** * More on expansion *)

Lemma validb_iff (raw : string) (category : Category) :
  Checks.validb raw category = true <-> Spec.ValidRaw raw category.
Proof.
  unfold Checks.validb, Spec.ValidRaw.
  rewrite andb_true_iff, all_digits_iff, Nat.eqb_eq. reflexivity.
Qed.

Lemma ascending_Sorted (l : list string) :
  Checks.ascending l = true ->
  Sorted (fun a b => String.compare a b = Lt) l.
Proof.
  induction l as [| x l IH]; [constructor | ].
  simpl. destruct l as [| y l]; [repeat constructor | ].
  destruct (String.compare x y) eqn:E; try discriminate.
  intros H. constructor; [now apply IH | now constructor].
Qed.

Lemma members_ok_elim (raw : string) (category : Category) :
  Checks.members_ok raw category = true ->
  exists combos,
    Expand.expandNumber raw category = Ok combos
    /\ In raw combos
    /\ (forall c, In c combos -> Spec.ValidRaw c category)
    /\ Sorted (fun a b => String.compare a b = Lt) combos.
Proof.
  unfold Checks.members_ok.
  destruct (Expand.expandNumber raw category) as [combos | e];
    [ | discriminate].
  intros H. apply andb_true_iff in H. destruct H as [H Hasc].
  apply andb_true_iff in H. destruct H as [Hmem Hval].
  exists combos. split; [reflexivity | ]. split; [ | split].
  - apply existsb_exists in Hmem. destruct Hmem as (x & Hx & Heq).
    apply String.eqb_eq in Heq. now subst x.
  - intros c Hc. rewrite forallb_forall in Hval. now apply validb_iff, Hval.
  - now apply ascending_Sorted.
Qed.

Lemma members_3tod :
  Exhaustive.all_triples
    (fun a b c => Checks.members_ok (Exhaustive.str3 a b c) C3tod)
  = true.
Proof. vm_compute. reflexivity. Qed.

Lemma members_2tod :
  Exhaustive.all_pairs
    (fun a b => Checks.members_ok (Exhaustive.str2 a b) C2tod)
  = true.
Proof. vm_compute. reflexivity. Qed.

Lemma class_3tod :
  Exhaustive.all_triples
    (fun a b c => Checks.class_ok (Exhaustive.str3 a b c) C3tod)
  = true.
Proof. vm_compute. reflexivity. Qed.

Lemma class_2tod :
  Exhaustive.all_pairs
    (fun a b => Checks.class_ok (Exhaustive.str2 a b) C2tod)
  = true.
Proof. vm_compute. reflexivity. Qed.

(** X1: the expansion of a valid raw string holds the raw string itself,
    holds only valid strings of the same category, and is strictly
    ascending, so that no combo is listed twice. *)
Theorem expandNumber_members (raw : string) (category : Category)
        (Hvalid : Spec.ValidRaw raw category) :
  exists combos,
    Expand.expandNumber raw category = Ok combos
    /\ In raw combos
    /\ (forall c, In c combos -> Spec.ValidRaw c category)
    /\ Sorted (fun a b => String.compare a b = Lt) combos.
Proof.
  destruct category;
    try (exists [raw]; split;
         [apply expandNumber_plain; [assumption | discriminate | discriminate]
         | split; [now left | split;
                              [intros c [<- | []]; assumption
                              | repeat constructor]]]).
  - destruct (valid_three Hvalid eq_refl) as (a & b & c & -> & Ha & Hb & Hc).
    apply members_ok_elim.
    exact (@all_triples_spec _ members_3tod a b c Ha Hb Hc).
  - destruct (valid_two Hvalid eq_refl) as (a & b & -> & Ha & Hb).
    apply members_ok_elim.
    exact (@all_pairs_spec _ members_2tod a b Ha Hb).
Qed.

Lemma expandNumber_members_witness :
  Spec.ValidRaw "121" C3tod
  /\ exists combos,
      Expand.expandNumber "121" C3tod = Ok combos
      /\ In "121" combos
      /\ (forall c, In c combos -> Spec.ValidRaw c C3tod)
      /\ Sorted (fun a b => String.compare a b = Lt) combos.
Proof.
  split; [exact valid_121_3tod | ].
  exact (expandNumber_members valid_121_3tod).
Defined.

Lemma class_ok_elim (raw : string) (category : Category)
      (combos : list string) (c : string) :
  Checks.class_ok raw category = true ->
  Expand.expandNumber raw category = Ok combos ->
  In c combos ->
  Expand.expandNumber c category = Ok combos.
Proof.
  unfold Checks.class_ok. intros H Hexp Hc. rewrite Hexp in H.
  rewrite forallb_forall in H. specialize (H c Hc).
  destruct (Expand.expandNumber c category) as [combos' | e];
    [ | discriminate].
  f_equal. now apply strings_eqb_eq.
Qed.

(** X2: every combo of an expansion expands to that same expansion: a bet
    on any combo of a permutation bet is the same bet. *)
Theorem expandNumber_same_class (raw : string) (category : Category)
        (combos : list string) (c : string)
        (Hvalid : Spec.ValidRaw raw category)
        (Hexp : Expand.expandNumber raw category = Ok combos)
        (Hc : In c combos) :
  Expand.expandNumber c category = Ok combos.
Proof.
  destruct category;
    try (rewrite expandNumber_plain in Hexp
           by (try assumption; discriminate);
         injection Hexp as <-; destruct Hc as [<- | []];
         apply expandNumber_plain; try assumption; discriminate).
  - destruct (valid_three Hvalid eq_refl) as (a & b & d & -> & Ha & Hb & Hd).
    apply (@class_ok_elim (Exhaustive.str3 a b d) C3tod combos c);
      try assumption.
    exact (@all_triples_spec _ class_3tod a b d Ha Hb Hd).
  - destruct (valid_two Hvalid eq_refl) as (a & b & -> & Ha & Hb).
    apply (@class_ok_elim (Exhaustive.str2 a b) C2tod combos c);
      try assumption.
    exact (@all_pairs_spec _ class_2tod a b Ha Hb).
Qed.

Lemma expandNumber_same_class_witness :
  Spec.ValidRaw "121" C3tod
  /\ Expand.expandNumber "121" C3tod = Ok ["112"; "121"; "211"]
  /\ In "211" ["112"; "121"; "211"]
  /\ Expand.expandNumber "211" C3tod = Ok ["112"; "121"; "211"].
Proof.
  assert (He : Expand.expandNumber "121" C3tod = Ok ["112"; "121"; "211"])
    by (vm_compute; reflexivity).
  assert (Hin : In "211" ["112"; "121"; "211"]) by (simpl; auto).
  split; [exact valid_121_3tod | ]. split; [exact He | ].
  split; [exact Hin | ].
  exact (@expandNumber_same_class "121" C3tod ["112"; "121"; "211"] "211"
           valid_121_3tod He Hin).
Defined.

(* ------------------------------------------------------------------ *)
(** * [getUniquePermutations] on arrays of any length *)

Lemma nth_middle_split (A : Type) (d : A) (a : list A) (i : nat) :
  (i < List.length a)%nat ->
  a = firstn i a ++ nth i a d :: skipn (S i) a.
Proof.
  revert i. induction a as [| x a IH]; intros i Hi; simpl in Hi; [lia | ].
  destruct i as [| i]; simpl; [reflexivity | ].
  f_equal. apply IH. lia.
Qed.

Lemma remove_at_perm (A : Type) (d : A) (a : list A) (i : nat) :
  (i < List.length a)%nat ->
  Permutation (nth i a d :: Js.remove_at i a) a.
Proof.
  intros Hi. rewrite (nth_middle_split d a Hi) at 3.
  unfold Js.remove_at. apply Permutation_middle.
Qed.

Lemma set_has_iff (k : string) (s : list string) :
  Js.set_has k s = true <-> In k s.
Proof.
  unfold Js.set_has. rewrite existsb_exists. split.
  - intros (x & Hx & Heq). apply String.eqb_eq in Heq. now subst.
  - intros H. exists k. split; [exact H | apply String.eqb_refl].
Qed.

Lemma fold_left_invariant (A B : Type) (P : A -> Prop) (f : A -> B -> A)
      (l : list B) (a : A) :
  P a -> (forall a b, In b l -> P a -> P (f a b)) -> P (fold_left f l a).
Proof.
  revert a. induction l as [| b l IH]; intros a Ha Hf; simpl; [exact Ha | ].
  apply IH; [apply Hf; [now left | exact Ha] | ].
  intros a' b' Hb'. apply Hf. now right.
Qed.

Section PermuteFacts.
Variable chars : list string.

(** What [permute] keeps true of its state: [seen] holds the keys of
    [results], no key twice, and every result rearranges [chars]. *)
Let Inv (st : Expand.PermState) : Prop :=
  Expand.seen st = map Js.join (Expand.results st)
  /\ NoDup (Expand.seen st)
  /\ Forall (fun r => Permutation r chars) (Expand.results st).

Lemma permute_invariant (fuel : nat) :
  forall arr current st,
    Permutation (current ++ arr) chars -> Inv st ->
    Inv (Expand.permute fuel arr current st).
Proof.
  induction fuel as [| fuel IH]; intros arr current st Hperm Hinv;
    destruct arr as [| x arr].
  1, 3: (cbn [Expand.permute];
         destruct (Js.set_has (Js.join current) (Expand.seen st)) eqn:E;
         [exact Hinv | ];
         destruct Hinv as (Hseen & Hnd & Hall); unfold Inv; simpl;
         rewrite app_nil_r in Hperm;
         split; [rewrite map_app, Hseen; reflexivity | ];
         split;
         [ apply NoDup_app; [exact Hnd | repeat constructor; intros [] | ];
           intros k Hk [<- | []]; apply set_has_iff in Hk; congruence
         | apply Forall_app; split; [exact Hall | now repeat constructor] ]).
  - exact Hinv.
  - cbn [Expand.permute]. apply fold_left_invariant; [exact Hinv | ].
    intros st' i Hi Hst'. apply in_seq in Hi. apply IH; [ | exact Hst'].
    rewrite <- app_assoc. simpl. rewrite <- Hperm.
    apply Permutation_app_head.
    exact (@remove_at_perm string "" (x :: arr) i (proj2 Hi)).
Qed.

Lemma permute_seen_mono (fuel : nat) :
  forall arr current st k,
    In k (Expand.seen st) ->
    In k (Expand.seen (Expand.permute fuel arr current st)).
Proof.
  induction fuel as [| fuel IH]; intros arr current st k Hk;
    destruct arr as [| x arr].
  1, 3: (cbn [Expand.permute];
         destruct (Js.set_has (Js.join current) (Expand.seen st));
         [exact Hk | simpl; apply in_or_app; now left]).
  - exact Hk.
  - cbn [Expand.permute].
    apply (fold_left_invariant (fun st => In k (Expand.seen st)));
      [exact Hk | ].
    intros st' i _ Hst'. now apply IH.
Qed.

(** Every arrangement of [arr] is visited: its key is in [seen] at the
    end. *)
Lemma permute_complete (fuel : nat) :
  forall arr current st q,
    (List.length arr <= fuel)%nat -> Permutation q arr ->
    In (Js.join (current ++ q))
       (Expand.seen (Expand.permute fuel arr current st)).
Proof.
  induction fuel as [| fuel IH]; intros arr current st q Hfuel Hq;
    destruct arr as [| x arr]; try (simpl in Hfuel; lia).
  1, 2: (apply Permutation_sym, Permutation_nil in Hq; subst q;
         rewrite app_nil_r; cbn [Expand.permute];
         destruct (Js.set_has (Js.join current) (Expand.seen st)) eqn:E;
         [now apply set_has_iff | simpl; apply in_or_app; right; now left]).
  destruct q as [| y q];
    [apply Permutation_nil in Hq; discriminate Hq | ].
  assert (Hy : In y (x :: arr))
    by (apply (Permutation_in _ Hq); now left).
  destruct (In_nth _ _ "" Hy) as (i & Hi & Hnth).
  assert (Hq' : Permutation q (Js.remove_at i (x :: arr))).
  { apply (Permutation_cons_inv (a := y)). rewrite Hq, <- Hnth.
    apply Permutation_sym, remove_at_perm. exact Hi. }
  cbn [Expand.permute].
  assert (Hsplit : seq 0 (List.length (x :: arr))
                   = seq 0 i ++ i :: seq (S i) (List.length (x :: arr) - S i)).
  { replace (List.length (x :: arr))
      with (i + S (List.length (x :: arr) - S i))%nat at 1 by lia.
    rewrite seq_app. simpl. reflexivity. }
  rewrite Hsplit, fold_left_app. cbn [fold_left].
  apply (fold_left_invariant (fun st => In (Js.join (current ++ y :: q))
                                           (Expand.seen st))).
  - cbv beta. rewrite Hnth.
    replace (current ++ y :: q) with ((current ++ [y]) ++ q)
      by (rewrite <- app_assoc; reflexivity).
    apply IH; [ | exact Hq'].
    rewrite remove_at_length by exact Hi. simpl in *. lia.
  - intros st' j _ Hst'. now apply permute_seen_mono.
Qed.

End PermuteFacts.

Lemma single_char (s : string) :
  String.length s = 1%nat -> exists c, s = String c EmptyString.
Proof.
  destruct s as [| c [| d s]]; try discriminate. intros _. now exists c.
Qed.

Lemma join_cons_single (c : ascii) (l : list string) :
  Js.join (String c EmptyString :: l) = String c (Js.join l).
Proof. unfold Js.join. destruct l; reflexivity. Qed.

Lemma join_single_inj (a b : list string) :
  (forall s, In s a -> String.length s = 1%nat) ->
  (forall s, In s b -> String.length s = 1%nat) ->
  Js.join a = Js.join b -> a = b.
Proof.
  revert b. induction a as [| x a IH]; intros b Ha Hb Heq.
  - destruct b as [| y b]; [reflexivity | ].
    destruct (single_char y (Hb y (or_introl eq_refl))) as (c & ->).
    rewrite join_cons_single in Heq. discriminate Heq.
  - destruct (single_char x (Ha x (or_introl eq_refl))) as (c & ->).
    rewrite join_cons_single in Heq.
    destruct b as [| y b]; [discriminate Heq | ].
    destruct (single_char y (Hb y (or_introl eq_refl))) as (d & ->).
    rewrite join_cons_single in Heq. injection Heq as -> Heq.
    f_equal. apply IH; [ | | exact Heq].
    + intros s Hs. apply Ha. now right.
    + intros s Hs. apply Hb. now right.
Qed.

(** X3: for an array of any length, [getUniquePermutations] returns
    rearrangements of the array only, no two with the same joined string,
    and the joined string of every rearrangement is among them.  When the
    items are single characters, as [split('')] makes them, the result is
    exactly the set of the distinct rearrangements, each once. *)
Theorem getUniquePermutations_exact (chars : list string) :
  (forall r, In r (Expand.getUniquePermutations chars) ->
             Permutation r chars)
  /\ NoDup (map Js.join (Expand.getUniquePermutations chars))
  /\ (forall q, Permutation q chars ->
                In (Js.join q)
                   (map Js.join (Expand.getUniquePermutations chars)))
  /\ ((forall s, In s chars -> String.length s = 1%nat) ->
      NoDup (Expand.getUniquePermutations chars)
      /\ forall q, In q (Expand.getUniquePermutations chars)
                   <-> Permutation q chars).
Proof.
  unfold Expand.getUniquePermutations.
  pose proof (@permute_invariant chars (List.length chars) chars []
                (Expand.mkPermState [] []) (Permutation_refl _)) as Hinv.
  destruct Hinv as (Hseen & Hnd & Hall).
  { split; [reflexivity | ]. split; constructor. }
  rewrite Forall_forall in Hall. rewrite Hseen in Hnd.
  assert (Hcomplete :
            forall q, Permutation q chars ->
                      In (Js.join q)
                         (map Js.join
                              (Expand.results
                                 (Expand.permute (List.length chars) chars []
                                                 (Expand.mkPermState [] []))))).
  { intros q Hq. rewrite <- Hseen.
    exact (@permute_complete (List.length chars) chars []
             (Expand.mkPermState [] []) q (le_n _) Hq). }
  split; [exact Hall | ]. split; [exact Hnd | ]. split; [exact Hcomplete | ].
  intros Hsingle. split; [exact (NoDup_map_inv _ _ Hnd) | ].
  intros q. split; [apply Hall | ].
  intros Hq. pose proof (Hcomplete q Hq) as Hin.
  apply in_map_iff in Hin. destruct Hin as (r & Hjoin & Hr).
  assert (Heq : r = q).
  { apply join_single_inj; [ | | exact Hjoin].
    - intros s Hs. apply Hsingle.
      exact (Permutation_in _ (Hall r Hr) Hs).
    - intros s Hs. apply Hsingle. exact (Permutation_in _ Hq Hs). }
  now subst r.
Qed.

Lemma getUniquePermutations_exact_witness :
  (forall s, In s (Js.split_chars "112") -> String.length s = 1%nat)
  /\ NoDup (Expand.getUniquePermutations (Js.split_chars "112"))
  /\ Expand.getUniquePermutations (Js.split_chars "112")
     = [["1"; "1"; "2"]; ["1"; "2"; "1"]; ["2"; "1"; "1"]].
Proof.
  assert (Hs : forall s, In s (Js.split_chars "112")
                         -> String.length s = 1%nat).
  { intros s Hs. simpl in Hs.
    repeat (destruct Hs as [<- | Hs]; [reflexivity | ]). contradiction. }
  split; [exact Hs | ]. split; [ | vm_compute; reflexivity].
  exact (proj1 (proj2 (proj2 (proj2
           (getUniquePermutations_exact (Js.split_chars "112"))))
           Hs)).
Defined.

(* ------------------------------------------------------------------ *)
(** * Descriptions of expansions *)

Lemma isExpandableCategory_iff (category : Category) :
  Describe.isExpandableCategory category = true <-> Spec.IsTod category.
Proof.
  unfold Spec.IsTod. destruct category; simpl; split;
    try discriminate; try (intros [H | H]; discriminate H); auto.
Qed.

Lemma describe_3tod :
  Exhaustive.all_triples
    (fun a b c => DescribeChecks.describe_ok (Exhaustive.str3 a b c) C3tod)
  = true.
Proof. vm_compute. reflexivity. Qed.

Lemma describe_2tod :
  Exhaustive.all_pairs
    (fun a b => DescribeChecks.describe_ok (Exhaustive.str2 a b) C2tod)
  = true.
Proof. vm_compute. reflexivity. Qed.

Lemma describe_ok_elim (raw : string) (category : Category)
      (combos : list string) :
  DescribeChecks.describe_ok raw category = true ->
  Expand.expandNumber raw category = Ok combos ->
  Describe.getExpansionDescription raw category
  = Ok (String.concat ", " combos).
Proof.
  unfold DescribeChecks.describe_ok. intros H Hexp. rewrite Hexp in H.
  destruct (Describe.getExpansionDescription raw category) as [d | e];
    [ | discriminate].
  apply String.eqb_eq in H. now subst d.
Qed.

Lemma description_plain (raw : string) (category : Category) :
  Describe.isExpandableCategory category = false ->
  Describe.getExpansionDescription raw category = Ok raw.
Proof. destruct category; try discriminate; reflexivity. Qed.

(** X4: for a valid raw string [getExpansionDescription] is the expansion
    joined by [", "].  For a category that does not expand it returns the
    raw string as it is, whatever the string, without validating it: a
    string that [expandNumber] rejects is still described.  When it does
    raise, the error is the one [expandNumber] raises. *)
Theorem getExpansionDescription_joins (raw : string) (category : Category) :
  (forall combos,
      Spec.ValidRaw raw category ->
      Expand.expandNumber raw category = Ok combos ->
      Describe.getExpansionDescription raw category
      = Ok (String.concat ", " combos))
  /\ (Describe.isExpandableCategory category = false ->
      Describe.getExpansionDescription raw category = Ok raw)
  /\ (forall e,
        Describe.getExpansionDescription raw category = Throw e ->
        Expand.expandNumber raw category = Throw e).
Proof.
  split; [ | split].
  - intros combos Hvalid Hexp.
    destruct (Describe.isExpandableCategory category) eqn:E.
    + apply isExpandableCategory_iff in E. destruct E as [-> | ->].
      * destruct (valid_three Hvalid eq_refl)
          as (a & b & c & -> & Ha & Hb & Hc).
        apply describe_ok_elim; [ | exact Hexp].
        exact (@all_triples_spec _ describe_3tod a b c Ha Hb Hc).
      * destruct (valid_two Hvalid eq_refl) as (a & b & -> & Ha & Hb).
        apply describe_ok_elim; [ | exact Hexp].
        exact (@all_pairs_spec _ describe_2tod a b Ha Hb).
    + rewrite (description_plain raw category E).
      rewrite expandNumber_plain in Hexp;
        [now injection Hexp as <- | exact Hvalid | | ];
        intros ->; discriminate E.
  - apply description_plain.
  - intros e. unfold Describe.getExpansionDescription.
    destruct (Expand.getExpansionCount raw category =? 1)%nat;
      [discriminate | ].
    destruct (Expand.expandNumber raw category) as [combos | e'];
      simpl; [discriminate | ].
    intros H. injection H as ->. reflexivity.
Qed.

Lemma getExpansionDescription_joins_witness :
  Describe.getExpansionDescription "121" C3tod = Ok "112, 121, 211"
  /\ Describe.getExpansionDescription "12x" C3top = Ok "12x"
  /\ Expand.expandNumber "12x" C3top = Throw (Expand.NotDigits "12x").
Proof.
  split; [ | split; [ | vm_compute; reflexivity]].
  - exact (proj1 (getExpansionDescription_joins "121" C3tod)
                 ["112"; "121"; "211"] valid_121_3tod eq_refl).
  - exact (proj1 (proj2 (getExpansionDescription_joins "12x" C3top)) eq_refl).
Defined.

(** X5: [isExpandableCategory] holds exactly for the categories in which
    some valid raw string expands to more than one combo: [3tod] and
    [2tod], and neither [3back] nor [2back]. *)
Theorem isExpandableCategory_exact (category : Category) :
  Describe.isExpandableCategory category = true
  <-> exists raw combos,
      Spec.ValidRaw raw category
      /\ Expand.expandNumber raw category = Ok combos
      /\ (2 <= List.length combos)%nat.
Proof.
  split.
  - intros H. apply isExpandableCategory_iff in H. destruct H as [-> | ->].
    + exists "123", ["123"; "132"; "213"; "231"; "312"; "321"].
      split; [valid_raw | ]. split; [vm_compute; reflexivity | simpl; lia].
    + exists "12", ["12"; "21"].
      split; [valid_raw | ]. split; [vm_compute; reflexivity | simpl; lia].
  - intros (raw & combos & Hvalid & Hexp & Hlen).
    destruct (Describe.isExpandableCategory category) eqn:E;
      [reflexivity | ].
    rewrite expandNumber_plain in Hexp;
      [injection Hexp as <-; simpl in Hlen; lia | exact Hvalid | | ];
      intros ->; discriminate E.
Qed.

(* ------------------------------------------------------------------ *)
(** * Bills *)

Lemma expandNumber_Ok_valid (raw : string) (category : Category)
      (combos : list string) :
  Expand.expandNumber raw category = Ok combos -> Spec.ValidRaw raw category.
Proof.
  unfold Expand.expandNumber.
  destruct (Expand.validateNumber raw category) as [u | e] eqn:E;
    [ | discriminate].
  intros _. exact (validateNumber_Ok_valid _ _ E).
Qed.

Lemma sumSold_constant (pcs : list PerComboTotal.t) (a : Z) :
  (forall p, In p pcs -> PerComboTotal.soldAmount p = a) ->
  Spec.sumSold pcs = (Z.of_nat (List.length pcs) * a)%Z.
Proof.
  induction pcs as [| p pcs IH]; intros H; [reflexivity | ].
  cbn [Spec.sumSold List.length]. rewrite (H p (or_introl eq_refl)), IH.
  - lia.
  - intros x Hx. apply H. now right.
Qed.

(** X6: [computeEntryTotals] charges [unitPrice * quantity] for an entry of
    any of the eight categories, whatever the number of combos, while the
    [soldAmount]s of its per-combo totals add up to that amount once per
    combo. *)
Theorem computeEntryTotals_charges_once (entry : Entry.t)
        (settings : Settings.t) (blockedNumbers : list BlockedNumber.t)
        (e' : Entry.t)
        (Hres : Compute.computeEntryTotals entry settings blockedNumbers
                = Ok e') :
  exists combos pcs,
    Expand.expandNumber (Entry.raw entry) (Entry.category entry) = Ok combos
    /\ Entry.perComboTotals e' = Some pcs
    /\ List.length pcs = List.length combos
    /\ Entry.total e' = Some (Entry.unitPrice entry * Entry.quantity entry)%Z
    /\ Spec.sumSold pcs
       = (Z.of_nat (List.length combos)
          * (Entry.unitPrice entry * Entry.quantity entry))%Z.
Proof.
  destruct (computeEntryTotals_inv _ _ _ Hres)
    as (combos & pcs & Hexp & _ & Hpcs & Hmap & Hall & Htotal & _).
  assert (Hlen : List.length pcs = List.length combos)
    by (rewrite <- Hmap; now rewrite length_map).
  assert (Hsum : Spec.sumSold pcs
                 = (Z.of_nat (List.length combos)
                    * (Entry.unitPrice entry * Entry.quantity entry))%Z).
  { rewrite <- Hlen. apply sumSold_constant. intros p Hp.
    now destruct (Hall p Hp) as (_ & _ & Hsold & _). }
  exists combos, pcs. repeat (split; [assumption | ]).
  split; [ | exact Hsum]. rewrite Htotal.
  destruct (Category_eqb (Entry.category entry) C3tod
            || Category_eqb (Entry.category entry) C2tod) eqn:E;
    [reflexivity | ].
  rewrite Hsum. apply orb_false_iff in E. destruct E as [E3 E2].
  apply Category_eqb_neq in E3, E2.
  rewrite (expandNumber_plain (expandNumber_Ok_valid _ _ Hexp) E3 E2) in Hexp.
  injection Hexp as <-.
  change (List.length [Entry.raw entry]) with 1%nat. f_equal. lia.
Qed.

Lemma computeEntryTotals_charges_once_witness :
  Compute.computeEntryTotals (Sample.entry C3tod "123" 10 2) DEFAULT_SETTINGS []
  = Ok (Sample.computed (Sample.entry C3tod "123" 10 2) [])
  /\ Entry.total (Sample.computed (Sample.entry C3tod "123" 10 2) [])
     = Some 20%Z
  /\ exists combos pcs,
      Expand.expandNumber "123" C3tod = Ok combos
      /\ Entry.perComboTotals (Sample.computed (Sample.entry C3tod "123" 10 2) [])
         = Some pcs
      /\ List.length pcs = List.length combos
      /\ Entry.total (Sample.computed (Sample.entry C3tod "123" 10 2) [])
         = Some (10 * 2)%Z
      /\ Spec.sumSold pcs = (Z.of_nat (List.length combos) * (10 * 2))%Z.
Proof.
  assert (H : Compute.computeEntryTotals (Sample.entry C3tod "123" 10 2)
                DEFAULT_SETTINGS []
              = Ok (Sample.computed (Sample.entry C3tod "123" 10 2) []))
    by (vm_compute; reflexivity).
  split; [exact H | ]. split; [vm_compute; reflexivity | ].
  exact (computeEntryTotals_charges_once _ _ _ H).
Defined.

Lemma computeEntryTotals_idem (entry : Entry.t) (settings : Settings.t)
      (blockedNumbers : list BlockedNumber.t) (e' : Entry.t) :
  Compute.computeEntryTotals entry settings blockedNumbers = Ok e' ->
  Compute.computeEntryTotals e' settings blockedNumbers = Ok e'.
Proof.
  unfold Compute.computeEntryTotals.
  destruct (Expand.expandNumber (Entry.raw entry) (Entry.category entry))
    as [combos | e] eqn:E; simpl; [ | discriminate].
  intros H. injection H as <-. simpl. rewrite E. reflexivity.
Qed.

Lemma fold_left_totals (entries : list Entry.t) (a : Z) :
  fold_left (fun sum entry => (sum + Bill.totalOr0 entry)%Z) entries a
  = (a + Spec.sumZ (map Bill.totalOr0 entries))%Z.
Proof.
  revert a. induction entries as [| e l IH]; intros a; simpl; [lia | ].
  rewrite IH. lia.
Qed.

Lemma mapEntries_Ok (f : Entry.t -> Result Expand.Error Entry.t)
      (entries entries' : list Entry.t) :
  Bill.mapEntries f entries = Ok entries' ->
  Forall2 (fun e e' => f e = Ok e') entries entries'.
Proof.
  revert entries'. induction entries as [| e l IH]; intros entries'; simpl.
  - intros H. injection H as <-. constructor.
  - destruct (f e) as [e1 | err] eqn:E; simpl; [ | discriminate].
    destruct (Bill.mapEntries f l) as [l1 | err]; simpl; [ | discriminate].
    intros H. injection H as <-. constructor; [exact E | now apply IH].
Qed.

Lemma mapEntries_Forall2 (f : Entry.t -> Result Expand.Error Entry.t)
      (entries entries' : list Entry.t) :
  Forall2 (fun e e' => f e = Ok e') entries entries' ->
  Bill.mapEntries f entries = Ok entries'.
Proof.
  induction 1 as [| e e' l l' He _ IH]; simpl; [reflexivity | ].
  rewrite He. simpl. rewrite IH. reflexivity.
Qed.

(** X7: a ticket that [recomputeTicket] returns has a [billTotal] equal to
    its [computeTicketTotal], which is the sum of [unitPrice * quantity] over
    the entries; it keeps the identity of the ticket and the number of its
    entries; and recomputing it again under the same settings and blocked
    numbers returns it unchanged. *)
Theorem recomputeTicket_consistent (ticket : Ticket.t) (settings : Settings.t)
        (blockedNumbers : list BlockedNumber.t) (t' : Ticket.t)
        (Hres : Bill.recomputeTicket ticket settings blockedNumbers = Ok t') :
  Ticket.billTotal t' = Bill.computeTicketTotal t'
  /\ Ticket.billTotal t'
     = Spec.sumZ (map (fun e => (Entry.unitPrice e * Entry.quantity e)%Z)
                      (Ticket.entries ticket))
  /\ List.length (Ticket.entries t') = List.length (Ticket.entries ticket)
  /\ Ticket.id t' = Ticket.id ticket
  /\ Ticket.deleted t' = Ticket.deleted ticket
  /\ Bill.recomputeTicket t' settings blockedNumbers = Ok t'.
Proof.
  unfold Bill.recomputeTicket in Hres.
  destruct (Bill.mapEntries _ (Ticket.entries ticket)) as [updated | err]
    eqn:E; simpl in Hres; [ | discriminate].
  injection Hres as <-. apply mapEntries_Ok in E.
  unfold Bill.computeTicketTotal. simpl.
  split; [reflexivity | ].
  split; [ | split; [ | split; [reflexivity | split; [reflexivity | ]]]].
  - rewrite fold_left_totals. simpl.
    induction E as [| e e' l l' He _ IH]; [reflexivity | ].
    simpl. rewrite IH. f_equal.
    destruct (computeEntryTotals_inv _ _ _ He)
      as (combos & pcs & Hexp & _ & Hpcs & Hmap & Hall & Htotal & _).
    unfold Bill.totalOr0. rewrite Htotal.
    destruct (Category_eqb (Entry.category e) C3tod
              || Category_eqb (Entry.category e) C2tod) eqn:Et;
      [reflexivity | ].
    apply orb_false_iff in Et. destruct Et as [E3 E2].
    apply Category_eqb_neq in E3, E2.
    rewrite (expandNumber_plain (expandNumber_Ok_valid _ _ Hexp) E3 E2)
      in Hexp.
    injection Hexp as <-.
    destruct pcs as [| p [| p' pcs]]; try discriminate Hmap.
    simpl. destruct (Hall p (or_introl eq_refl)) as (_ & _ & Hsold & _).
    rewrite Hsold. lia.
  - symmetry. exact (Forall2_length E).
  - unfold Bill.recomputeTicket. simpl.
    assert (Hidem : Bill.mapEntries
                      (fun entry =>
                         Compute.computeEntryTotals entry settings
                                                    blockedNumbers)
                      updated
                    = Ok updated).
    { apply mapEntries_Forall2.
      clear - E. induction E as [| e e' l l' He _ IH]; constructor.
      - exact (computeEntryTotals_idem _ _ _ He).
      - exact IH. }
    rewrite Hidem. reflexivity.
Qed.

Lemma recomputeTicket_consistent_witness :
  Bill.recomputeTicket SampleTickets.t1 DEFAULT_SETTINGS [] = Ok SampleTickets.t1
  /\ Ticket.billTotal SampleTickets.t1 = 200%Z
  /\ Ticket.billTotal SampleTickets.t1
     = Bill.computeTicketTotal SampleTickets.t1.
Proof.
  assert (H : Bill.recomputeTicket SampleTickets.t1 DEFAULT_SETTINGS []
              = Ok SampleTickets.t1) by (vm_compute; reflexivity).
  split; [exact H | ]. split; [vm_compute; reflexivity | ].
  exact (proj1 (recomputeTicket_consistent _ _ _ H)).
Defined.

(** X8: [recomputeTicket] returns a ticket exactly when every entry is
    valid; otherwise it raises the error of the first entry that is not,
    and returns no ticket. *)
Theorem recomputeTicket_fails_on_first_invalid (ticket : Ticket.t)
        (settings : Settings.t) (blockedNumbers : list BlockedNumber.t) :
  ((exists t', Bill.recomputeTicket ticket settings blockedNumbers = Ok t')
   <-> forall e, In e (Ticket.entries ticket) ->
                 Spec.ValidRaw (Entry.raw e) (Entry.category e))
  /\ (forall err,
        Bill.recomputeTicket ticket settings blockedNumbers = Throw err
        <-> exists before e after,
            Ticket.entries ticket = before ++ e :: after
            /\ (forall x, In x before ->
                          Spec.ValidRaw (Entry.raw x) (Entry.category x))
            /\ Expand.expandNumber (Entry.raw e) (Entry.category e)
               = Throw err).
Proof.
  unfold Bill.recomputeTicket.
  generalize (Ticket.entries ticket) as entries.
  assert (Hmap : forall entries,
             (forall l, Bill.mapEntries
                          (fun entry =>
                             Compute.computeEntryTotals entry settings
                                                        blockedNumbers)
                          entries = Ok l ->
                        forall e, In e entries ->
                                  Spec.ValidRaw (Entry.raw e)
                                                (Entry.category e))
             /\ (forall err,
                    Bill.mapEntries
                      (fun entry =>
                         Compute.computeEntryTotals entry settings
                                                    blockedNumbers)
                      entries = Throw err ->
                    exists before e after,
                      entries = before ++ e :: after
                      /\ (forall x, In x before ->
                                    Spec.ValidRaw (Entry.raw x)
                                                  (Entry.category x))
                      /\ Expand.expandNumber (Entry.raw e) (Entry.category e)
                         = Throw err)).
  { induction entries as [| e l [IHok IHerr]]; simpl.
    - split; [intros _ _ _ [] | discriminate].
    - unfold Compute.computeEntryTotals at 1 3.
      destruct (Expand.expandNumber (Entry.raw e) (Entry.category e))
        as [combos | err0] eqn:Ee; simpl.
      + pose proof (expandNumber_Ok_valid _ _ Ee) as Hv.
        destruct (Bill.mapEntries _ l) as [l1 | err1]; simpl.
        * split; [ | discriminate].
          intros l0 _ x [<- | Hx]; [exact Hv | exact (IHok l1 eq_refl x Hx)].
        * split; [discriminate | ]. intros err H. injection H as <-.
          destruct (IHerr err1 eq_refl)
            as (before & x & after & -> & Hb & Hx).
          exists (e :: before), x, after. split; [reflexivity | ].
          split; [ | exact Hx].
          intros y [<- | Hy]; [exact Hv | now apply Hb].
      + split; [discriminate | ]. intros err H. injection H as <-.
        exists [], e, l. split; [reflexivity | ]. split; [intros _ [] | exact Ee]. }
  intros entries. destruct (Hmap entries) as [Hok Herr].
  destruct (Bill.mapEntries _ entries) as [l | err0] eqn:E; simpl.
  - split.
    + split; [intros _; exact (Hok l eq_refl) | intros _; eexists; reflexivity].
    + intros err. split; [discriminate | ].
      intros (before & e & after & -> & _ & He).
      pose proof (Hok l eq_refl e (in_elt e before after)) as Hv.
      destruct (expandNumber_valid_Ok Hv) as (combos & Hc). congruence.
  - destruct (Herr err0 eq_refl) as (before & e & after & -> & Hb & He).
    split.
    + split; [intros (t' & H); discriminate H | ].
      intros Hall. pose proof (Hall e (in_elt e before after)) as Hv.
      destruct (expandNumber_valid_Ok Hv) as (combos & Hc). congruence.
    + intros err. split.
      * intros H. injection H as <-. now exists before, e, after.
      * intros (before' & e' & after' & Heq & Hb' & He'). f_equal.
        revert before' Heq Hb'. clear Hok Herr E.
        induction before as [| b before IH]; intros before' Heq Hb'.
        -- destruct before' as [| b' before']; simpl in Heq.
           ++ injection Heq as <- _. congruence.
           ++ injection Heq as <- _.
              pose proof (Hb' e (or_introl eq_refl)) as Hv.
              destruct (expandNumber_valid_Ok Hv) as (combos & Hc).
              congruence.
        -- destruct before' as [| b' before']; simpl in Heq.
           ++ injection Heq as <- _.
              pose proof (Hb b (or_introl eq_refl)) as Hv.
              destruct (expandNumber_valid_Ok Hv) as (combos & Hc).
              congruence.
           ++ injection Heq as <- Heq.
              apply (IH (fun x Hx => Hb x (or_intror Hx)) before' Heq).
              intros x Hx. apply Hb'. now right.
Qed.

Lemma recomputeTicket_fails_on_first_invalid_witness :
  Bill.recomputeTicket
    (Sample.ticket "t" "2025-01-10" false
       [Sample.entry C3top "123" 10 1; Sample.entry C2top "1" 10 1;
        Sample.entry C2top "ab" 10 1])
    DEFAULT_SETTINGS []
  = Throw (Expand.WrongLength "1" 1 C2top 2).
Proof.
  apply (proj2 (recomputeTicket_fails_on_first_invalid
                  (Sample.ticket "t" "2025-01-10" false
                     [Sample.entry C3top "123" 10 1;
                      Sample.entry C2top "1" 10 1;
                      Sample.entry C2top "ab" 10 1])
                  DEFAULT_SETTINGS [])).
  exists [Sample.entry C3top "123" 10 1], (Sample.entry C2top "1" 10 1),
    [Sample.entry C2top "ab" 10 1].
  split; [reflexivity | ]. split; [ | vm_compute; reflexivity].
  intros x [<- | []]. valid_raw.
Defined.

(* ------------------------------------------------------------------ *)
(** * More on aggregation by key *)

Section JsMapMore.
Variable V : Type.
Implicit Types (m : JsMap.t V) (k : string) (v : V).

Lemma set_absent m k v :
  JsMap.get k m = None -> JsMap.set k v m = m ++ [(k, v)].
Proof.
  induction m as [| [k' v'] m IH]; simpl; [reflexivity | ].
  destruct (String.eqb k k'); [discriminate | ].
  intros H. now rewrite IH.
Qed.

Lemma sumValues_set_absent (w : V -> Z) m k v :
  JsMap.get k m = None ->
  Totals.sumValues w (JsMap.set k v m) = (Totals.sumValues w m + w v)%Z.
Proof.
  intros H. rewrite set_absent by exact H. unfold Totals.sumValues.
  rewrite map_app, sumZ_app. simpl. lia.
Qed.

Lemma sumValues_set_present (w : V -> Z) m k v old :
  JsMap.get k m = Some old ->
  Totals.sumValues w (JsMap.set k v m)
  = (Totals.sumValues w m - w old + w v)%Z.
Proof.
  unfold Totals.sumValues.
  induction m as [| [k' v'] m IH]; simpl; [discriminate | ].
  destruct (String.eqb k k'); simpl.
  - intros H. injection H as ->. lia.
  - intros H. rewrite (IH H). lia.
Qed.

End JsMapMore.

Section UpsertMore.
Variables A V : Type.
Variable key : A -> string.
Variable init : A -> V.
Variable merge : V -> A -> V.

Let upsert := Aggregate.upsert key init merge.

(** A measure that the merge adds up is conserved by the aggregation. *)
Lemma sumValues_fold_upsert (w : V -> Z) (wa : A -> Z) (l : list A) :
  (forall a, w (init a) = wa a) ->
  (forall v a, w (merge v a) = (w v + wa a)%Z) ->
  Totals.sumValues w (fold_left upsert l []) = Spec.sumZ (map wa l).
Proof.
  intros Hinit Hmerge.
  induction l as [| a l IH] using rev_ind; [reflexivity | ].
  rewrite fold_left_app, map_app, sumZ_app. simpl.
  unfold upsert at 1, Aggregate.upsert.
  destruct (JsMap.get (key a) (fold_left upsert l [])) as [old | ] eqn:E.
  - rewrite (@sumValues_set_present V w _ (key a) (merge old a) old E).
    rewrite IH, Hmerge. lia.
  - rewrite (@sumValues_set_absent V w _ (key a) (init a) E).
    rewrite IH, Hinit. lia.
Qed.

Lemma keys_fold_upsert (l : list A) (k : string) :
  In k (JsMap.keys (fold_left upsert l [])) <-> In k (map key l).
Proof.
  pose proof (get_None_iff (fold_left upsert l []) k) as Hnone.
  pose proof (get_fold_upsert key init merge l k) as Hget.
  fold upsert in Hget.
  destruct (filter (fun a => String.eqb (key a) k) l) as [| x r] eqn:E.
  - simpl in Hget. split.
    + intros Hin. apply Hnone in Hget. contradiction.
    + intros Hin. apply in_map_iff in Hin. destruct Hin as (a & Ha & Hin).
      assert (H : In a (filter (fun a => String.eqb (key a) k) l)).
      { apply filter_In. split; [exact Hin | now apply String.eqb_eq]. }
      rewrite E in H. contradiction.
  - split.
    + intros _.
      assert (H : In x (filter (fun a => String.eqb (key a) k) l))
        by (rewrite E; now left).
      apply filter_In in H. destruct H as [H1 H2].
      apply String.eqb_eq in H2. apply in_map_iff. now exists x.
    + intros _.
      destruct (in_dec string_dec k (JsMap.keys (fold_left upsert l [])))
        as [Hin | Hout]; [exact Hin | ].
      apply Hnone in Hout. simpl in Hget. congruence.
Qed.

(** Items of distinct keys are stored one by one, in order. *)
Lemma fold_upsert_distinct (l : list A) :
  NoDup (map key l) ->
  fold_left upsert l [] = map (fun a => (key a, init a)) l.
Proof.
  induction l as [| a l IH] using rev_ind; intros Hnd; [reflexivity | ].
  rewrite map_app in Hnd. apply NoDup_app_remove_r in Hnd as Hl.
  rewrite fold_left_app, map_app. simpl.
  unfold upsert at 1, Aggregate.upsert.
  assert (Hnone : JsMap.get (key a) (fold_left upsert l []) = None).
  { apply get_None_iff. rewrite keys_fold_upsert. intros Hin.
    apply NoDup_remove_2 in Hnd. apply Hnd. rewrite app_nil_r. exact Hin. }
  rewrite Hnone. rewrite set_absent by exact Hnone.
  rewrite (IH Hl). reflexivity.
Qed.

End UpsertMore.

Lemma NoDup_map_injective (A B : Type) (f : A -> B) (l : list A) :
  (forall x y, f x = f y -> x = y) -> NoDup l -> NoDup (map f l).
Proof.
  intros Hinj. induction 1 as [| x l Hx _ IH]; simpl; constructor;
    [ | exact IH].
  intros Hin. apply in_map_iff in Hin. destruct Hin as (y & Hy & Hin).
  apply Hinj in Hy. now subst y.
Qed.

Lemma filter_first (A : Type) (p : A -> bool) (l : list A) (x : A)
      (r : list A) :
  filter p l = x :: r ->
  exists before after,
    l = before ++ x :: after
    /\ (forall y, In y before -> p y = false)
    /\ filter p after = r.
Proof.
  induction l as [| y l IH]; simpl; [discriminate | ].
  destruct (p y) eqn:E.
  - intros H. injection H as -> <-. exists [], l.
    split; [reflexivity | ]. split; [intros _ [] | reflexivity].
  - intros H. destruct (IH H) as (before & after & -> & Hb & Ha).
    exists (y :: before), after. split; [reflexivity | ].
    split; [ | exact Ha]. intros z [<- | Hz]; [exact E | now apply Hb].
Qed.

(* ------------------------------------------------------------------ *)
(** * Merging duplicate entries *)

Lemma mergeDuplicateEntries_flat (entries : list Entry.t) :
  Bill.mergeDuplicateEntries entries
  = JsMap.values
      (fold_left (Aggregate.upsert Bill.entryKey (fun e => e) Bill.mergeInto)
                 entries []).
Proof. reflexivity. Qed.

Lemma entryKey_pair (e x : Entry.t) :
  Bill.entryKey x = Bill.entryKey e <-> Totals.entryPair x = Totals.entryPair e.
Proof.
  unfold Totals.entryPair. split.
  - intros H. apply comboKey_inj in H. destruct H as [-> ->]. reflexivity.
  - intros H. injection H as Hc Hr. unfold Bill.entryKey. now rewrite Hc, Hr.
Qed.

Lemma fold_mergeInto (rest : list Entry.t) (first : Entry.t) :
  let m := fold_left Bill.mergeInto rest first in
  Entry.id m = Entry.id first
  /\ Entry.category m = Entry.category first
  /\ Entry.raw m = Entry.raw first
  /\ Entry.expanded m = Entry.expanded first
  /\ Entry.unitPrice m = Entry.unitPrice first
  /\ Entry.perComboTotals m = Entry.perComboTotals first
  /\ Entry.quantity m
     = (Entry.quantity first + Spec.sumZ (map Entry.quantity rest))%Z
  /\ Bill.totalOr0 m
     = (Bill.totalOr0 first + Spec.sumZ (map Bill.totalOr0 rest))%Z.
Proof.
  revert first. induction rest as [| e rest IH]; intros first; simpl.
  - repeat split; lia.
  - destruct (IH (Bill.mergeInto first e))
      as (H1 & H2 & H3 & H4 & H5 & H6 & H7 & H8).
    change (Bill.totalOr0 (Bill.mergeInto first e))
      with (Bill.totalOr0 first + Bill.totalOr0 e)%Z in H8.
    change (Entry.quantity (Bill.mergeInto first e))
      with (Entry.quantity first + Entry.quantity e)%Z in H7.
    rewrite H7, H8.
    repeat (split; [assumption | ]). split; lia.
Qed.

Lemma merged_binding (entries : list Entry.t) (k : string) (m : Entry.t) :
  In (k, m)
     (fold_left (Aggregate.upsert Bill.entryKey (fun e => e) Bill.mergeInto)
                entries []) ->
  exists first rest,
    filter (fun x => String.eqb (Bill.entryKey x) k) entries = first :: rest
    /\ m = fold_left Bill.mergeInto rest first
    /\ Bill.entryKey first = k.
Proof.
  intros Hin.
  pose proof (NoDup_keys_fold_upsert Bill.entryKey (fun e => e) Bill.mergeInto
                                     entries) as Hnd.
  pose proof (In_get_Some _ _ _ Hnd Hin) as Hget.
  rewrite get_fold_upsert in Hget.
  destruct (filter _ entries) as [| first rest] eqn:E; [discriminate Hget | ].
  simpl in Hget. injection Hget as <-.
  exists first, rest. split; [reflexivity | ]. split; [reflexivity | ].
  assert (H : In first (filter (fun x => String.eqb (Bill.entryKey x) k)
                               entries)) by (rewrite E; now left).
  apply filter_In in H. now apply String.eqb_eq.
Qed.

Lemma merged_keys (entries : list Entry.t) :
  map Bill.entryKey (Bill.mergeDuplicateEntries entries)
  = JsMap.keys
      (fold_left (Aggregate.upsert Bill.entryKey (fun e => e) Bill.mergeInto)
                 entries []).
Proof.
  rewrite mergeDuplicateEntries_flat. unfold JsMap.values, JsMap.keys.
  rewrite map_map. apply map_ext_in. intros [k m] Hin.
  destruct (merged_binding _ _ _ Hin) as (first & rest & _ & -> & <-).
  simpl. unfold Bill.entryKey.
  destruct (fold_mergeInto rest first) as (_ & Hc & Hr & _).
  now rewrite Hc, Hr.
Qed.

Lemma merged_pairs_NoDup (entries : list Entry.t) :
  NoDup (map Totals.entryPair (Bill.mergeDuplicateEntries entries)).
Proof.
  assert (Hkeys : NoDup (map Bill.entryKey
                             (Bill.mergeDuplicateEntries entries))).
  { rewrite merged_keys. apply NoDup_keys_fold_upsert. }
  replace (map Bill.entryKey (Bill.mergeDuplicateEntries entries))
    with (map (fun pr => Compute.comboKey (fst pr) (snd pr))
              (map Totals.entryPair (Bill.mergeDuplicateEntries entries)))
    in Hkeys by (rewrite map_map; reflexivity).
  exact (NoDup_map_inv _ _ Hkeys).
Qed.

(** X12: [mergeDuplicateEntries] keeps one entry per (category, raw
    number) pair of its input, for exactly the pairs of the input, and
    conserves the sum of the quantities and the sum of the totals (an absent
    total counting as 0). *)
Theorem mergeDuplicateEntries_conserves (entries : list Entry.t) :
  NoDup (map Totals.entryPair (Bill.mergeDuplicateEntries entries))
  /\ (forall pair,
        In pair (map Totals.entryPair (Bill.mergeDuplicateEntries entries))
        <-> In pair (map Totals.entryPair entries))
  /\ Spec.sumZ (map Entry.quantity (Bill.mergeDuplicateEntries entries))
     = Spec.sumZ (map Entry.quantity entries)
  /\ Spec.sumZ (map Bill.totalOr0 (Bill.mergeDuplicateEntries entries))
     = Spec.sumZ (map Bill.totalOr0 entries)
  /\ (List.length (Bill.mergeDuplicateEntries entries)
      <= List.length entries)%nat.
Proof.
  pose proof (merged_pairs_NoDup entries) as Hnd.
  assert (Hsame : forall pair,
             In pair (map Totals.entryPair
                          (Bill.mergeDuplicateEntries entries))
             <-> In pair (map Totals.entryPair entries)).
  { intros [c r].
    assert (Hk : forall l : list Entry.t,
               In (c, r) (map Totals.entryPair l)
               <-> In (Compute.comboKey c r) (map Bill.entryKey l)).
    { intros l. rewrite !in_map_iff. split.
      - intros (e & He & Hin). exists e. split; [ | exact Hin].
        unfold Totals.entryPair in He. injection He as <- <-. reflexivity.
      - intros (e & He & Hin). exists e. split; [ | exact Hin].
        apply comboKey_inj in He. destruct He as [<- <-]. reflexivity. }
    rewrite !Hk, merged_keys. apply keys_fold_upsert. }
  split; [exact Hnd | ]. split; [exact Hsame | ]. split; [ | split].
  - rewrite mergeDuplicateEntries_flat. unfold JsMap.values.
    rewrite map_map.
    exact (sumValues_fold_upsert Bill.entryKey (fun e => e) Bill.mergeInto
             Entry.quantity Entry.quantity entries
             (fun _ => eq_refl) (fun _ _ => eq_refl)).
  - rewrite mergeDuplicateEntries_flat. unfold JsMap.values.
    rewrite map_map.
    exact (sumValues_fold_upsert Bill.entryKey (fun e => e) Bill.mergeInto
             Bill.totalOr0 Bill.totalOr0 entries
             (fun _ => eq_refl) (fun _ _ => eq_refl)).
  - rewrite <- (length_map Totals.entryPair (Bill.mergeDuplicateEntries _)).
    rewrite <- (length_map Totals.entryPair entries).
    apply NoDup_incl_length; [exact Hnd | ].
    intros pair Hin. now apply Hsame.
Qed.

(** X13: each entry that [mergeDuplicateEntries] returns stands for the
    first entry of its (category, raw number) pair in the input: it keeps
    that entry's id, unit price, expansion and per-combo totals as they
    are, and its quantity is the sum of the quantities of the entries of
    the pair.  An input without two entries of the same pair is returned
    unchanged, so that merging twice is merging once. *)
Theorem mergeDuplicateEntries_keeps_first (entries : list Entry.t) :
  (forall m, In m (Bill.mergeDuplicateEntries entries) ->
     exists before first after,
       entries = before ++ first :: after
       /\ (forall x, In x before ->
                     Totals.entryPair x <> Totals.entryPair first)
       /\ Totals.entryPair m = Totals.entryPair first
       /\ Entry.id m = Entry.id first
       /\ Entry.unitPrice m = Entry.unitPrice first
       /\ Entry.expanded m = Entry.expanded first
       /\ Entry.perComboTotals m = Entry.perComboTotals first
       /\ Entry.quantity m
          = Spec.sumZ (map Entry.quantity
                           (filter (Totals.samePair first) entries)))
  /\ (NoDup (map Totals.entryPair entries) ->
      Bill.mergeDuplicateEntries entries = entries)
  /\ Bill.mergeDuplicateEntries (Bill.mergeDuplicateEntries entries)
     = Bill.mergeDuplicateEntries entries.
Proof.
  assert (Hdistinct : forall l : list Entry.t,
             NoDup (map Totals.entryPair l) ->
             Bill.mergeDuplicateEntries l = l).
  { intros l Hnd. rewrite mergeDuplicateEntries_flat.
    rewrite fold_upsert_distinct.
    - unfold JsMap.values. rewrite map_map. simpl. apply map_id.
    - replace (map Bill.entryKey l)
        with (map (fun pr => Compute.comboKey (fst pr) (snd pr))
                  (map Totals.entryPair l))
        by (rewrite map_map; reflexivity).
      apply NoDup_map_injective; [ | exact Hnd].
      intros [c1 r1] [c2 r2] H. simpl in H. apply comboKey_inj in H.
      destruct H as [-> ->]. reflexivity. }
  split; [ | split; [exact (Hdistinct entries) | ]].
  - intros m Hm. rewrite mergeDuplicateEntries_flat in Hm.
    unfold JsMap.values in Hm. apply in_map_iff in Hm.
    destruct Hm as ([k m'] & Heq & Hin). simpl in Heq. subst m'.
    destruct (merged_binding _ _ _ Hin) as (first & rest & Hf & -> & <-).
    destruct (filter_first _ _ Hf) as (before & after & Hsplit & Hb & _).
    destruct (fold_mergeInto rest first)
      as (Hid & Hc & Hr & Hex & Hu & Hp & Hq & _).
    exists before, first, after. split; [exact Hsplit | ].
    split; [ | split; [ | repeat (split; [assumption | ])]].
    + intros x Hx Hpair. apply entryKey_pair in Hpair.
      apply String.eqb_eq in Hpair. rewrite (Hb x Hx) in Hpair.
      discriminate Hpair.
    + unfold Totals.entryPair. now rewrite Hc, Hr.
    + rewrite Hq. unfold Totals.samePair. rewrite Hf. reflexivity.
  - apply Hdistinct.
    apply merged_pairs_NoDup.
Qed.

Lemma mergeDuplicateEntries_conserves_witness :
  Bill.mergeDuplicateEntries SampleMerge.entries
  = [Entry.mk "1" C3top "123" (Some []) 100 2 (Some []) (Some 150%Z);
     SampleMerge.other]
  /\ Spec.sumZ (map Entry.quantity
                    (Bill.mergeDuplicateEntries SampleMerge.entries))
     = Spec.sumZ (map Entry.quantity SampleMerge.entries).
Proof.
  split; [vm_compute; reflexivity | ].
  exact (proj1 (proj2 (proj2 (mergeDuplicateEntries_conserves
                                SampleMerge.entries)))).
Defined.

Lemma mergeDuplicateEntries_keeps_first_witness :
  NoDup (map Totals.entryPair [SampleMerge.first; SampleMerge.other])
  /\ Bill.mergeDuplicateEntries [SampleMerge.first; SampleMerge.other]
     = [SampleMerge.first; SampleMerge.other].
Proof.
  assert (Hnd : NoDup (map Totals.entryPair
                           [SampleMerge.first; SampleMerge.other])).
  { repeat constructor; simpl; intuition discriminate. }
  split; [exact Hnd | ].
  exact (proj1 (proj2 (mergeDuplicateEntries_keeps_first
                         [SampleMerge.first; SampleMerge.other])) Hnd).
Defined.

(* ------------------------------------------------------------------ *)
(** * Ceilings *)

Lemma existing_soldAmount (tickets : list Ticket.t) (category : Category)
      (combo : string) :
  match JsMap.get (Compute.comboKey category combo)
                  (Compute.aggregateComboSales tickets) with
  | Some e => Compute.ComboSale.soldAmount e
  | None => 0%Z
  end
  = Spec.soldTotal tickets category combo.
Proof.
  rewrite get_aggregateComboSales. unfold Spec.soldTotal.
  destruct (filter _ _); reflexivity.
Qed.

Lemma checkCombos_Some (tickets : list Ticket.t) (category : Category)
      (perComboMax : Z) (pcs : list PerComboTotal.t) (v : Ceiling.Violation) :
  Ceiling.checkCombos (Compute.aggregateComboSales tickets) category
                      perComboMax pcs = Some v
  <-> exists before p after,
      pcs = before ++ p :: after
      /\ (forall x, In x before ->
                    (CeilingSpec.amountWith tickets category x
                     <= perComboMax)%Z)
      /\ (CeilingSpec.amountWith tickets category p > perComboMax)%Z
      /\ v = Ceiling.mkViolation true (PerComboTotal.combo p)
               (CeilingSpec.amountWith tickets category p) perComboMax.
Proof.
  induction pcs as [| q pcs IH]; cbn [Ceiling.checkCombos].
  - split; [discriminate | ].
    intros (before & p & after & H & _). destruct before; discriminate H.
  - rewrite existing_soldAmount.
    fold (CeilingSpec.amountWith tickets category q).
    destruct (CeilingSpec.amountWith tickets category q >? perComboMax)%Z
      eqn:E.
    + apply Z.gtb_lt in E. split.
      * intros H. injection H as <-. exists [], q, pcs.
        split; [reflexivity | ]. split; [intros _ [] | ]. split; [lia | ].
        reflexivity.
      * intros (before & p & after & Heq & Hb & Hp & ->).
        destruct before as [| b before]; simpl in Heq.
        -- injection Heq as <- _. reflexivity.
        -- injection Heq as <- _. specialize (Hb q (or_introl eq_refl)). lia.
    + assert (Hq : (CeilingSpec.amountWith tickets category q
                    <= perComboMax)%Z).
      { destruct (Z.gtb_spec (CeilingSpec.amountWith tickets category q)
                             perComboMax); [discriminate | lia]. }
      rewrite IH. split.
      * intros (before & p & after & -> & Hb & Hp & ->).
        exists (q :: before), p, after. split; [reflexivity | ].
        split; [ | split; [exact Hp | reflexivity]].
        intros x [<- | Hx]; [exact Hq | now apply Hb].
      * intros (before & p & after & Heq & Hb & Hp & ->).
        destruct before as [| b before]; simpl in Heq.
        -- injection Heq as <- _. lia.
        -- injection Heq as <- ->. exists before, p, after.
           split; [reflexivity | ]. split; [ | split; [exact Hp | reflexivity]].
           intros x Hx. apply Hb. now right.
Qed.

(** X14: [checkCeilingViolation] reports the first combo of the new entry
    whose [soldAmount], added to what the tickets that are not deleted
    already sold on its (category, combo) pair, is strictly over
    [perComboMax], with that amount; it reports nothing exactly when every
    combo stays at or under the ceiling, and always nothing for an entry
    without per-combo totals. *)
Theorem checkCeilingViolation_first_over (tickets : list Ticket.t)
        (newEntry : Entry.t) (settings : Settings.t) :
  (forall v,
      Ceiling.checkCeilingViolation tickets newEntry settings = Some v
      <-> exists before p after,
          Entry.perComboTotals newEntry = Some (before ++ p :: after)
          /\ (forall x, In x before ->
                (CeilingSpec.amountWith tickets (Entry.category newEntry) x
                 <= Settings.perComboMax settings)%Z)
          /\ (CeilingSpec.amountWith tickets (Entry.category newEntry) p
              > Settings.perComboMax settings)%Z
          /\ v = Ceiling.mkViolation true (PerComboTotal.combo p)
                   (CeilingSpec.amountWith tickets (Entry.category newEntry) p)
                   (Settings.perComboMax settings))
  /\ (Ceiling.checkCeilingViolation tickets newEntry settings = None
      <-> forall pcs p,
          Entry.perComboTotals newEntry = Some pcs -> In p pcs ->
          (CeilingSpec.amountWith tickets (Entry.category newEntry) p
           <= Settings.perComboMax settings)%Z).
Proof.
  unfold Ceiling.checkCeilingViolation.
  destruct (Entry.perComboTotals newEntry) as [pcs | ].
  - assert (Hsome : forall v,
               Ceiling.checkCombos (Compute.aggregateComboSales tickets)
                 (Entry.category newEntry) (Settings.perComboMax settings) pcs
               = Some v
               <-> exists before p after,
                   Some pcs = Some (before ++ p :: after)
                   /\ (forall x, In x before ->
                         (CeilingSpec.amountWith
                            tickets (Entry.category newEntry) x
                          <= Settings.perComboMax settings)%Z)
                   /\ (CeilingSpec.amountWith
                         tickets (Entry.category newEntry) p
                       > Settings.perComboMax settings)%Z
                   /\ v = Ceiling.mkViolation true (PerComboTotal.combo p)
                            (CeilingSpec.amountWith
                               tickets (Entry.category newEntry) p)
                            (Settings.perComboMax settings)).
    { intros v. rewrite checkCombos_Some. split.
      - intros (before & p & after & -> & H). now exists before, p, after.
      - intros (before & p & after & Heq & H). injection Heq as ->.
        now exists before, p, after. }
    split; [exact Hsome | ].
    destruct (Ceiling.checkCombos _ _ _ pcs) as [v | ] eqn:E.
    + split; [discriminate | ]. intros Hall.
      destruct (proj1 (Hsome v) eq_refl)
        as (before & p & after & Heq & _ & Hp & _).
      injection Heq as ->.
      specialize (Hall _ p eq_refl (in_elt p before after)). lia.
    + split; [ | reflexivity]. intros _ pcs' p Heq Hp. injection Heq as <-.
      destruct (Z_le_gt_dec
                  (CeilingSpec.amountWith tickets (Entry.category newEntry) p)
                  (Settings.perComboMax settings)) as [Hle | Hgt];
        [exact Hle | ].
      exfalso.
      assert (Hex : exists v,
                 Ceiling.checkCombos (Compute.aggregateComboSales tickets)
                   (Entry.category newEntry) (Settings.perComboMax settings)
                   pcs = Some v).
      { clear E Hsome. induction pcs as [| q pcs IH]; [contradiction | ].
        cbn [Ceiling.checkCombos]. destruct (_ >? _)%Z eqn:Eq;
          [eexists; reflexivity | ].
        destruct Hp as [-> | Hp]; [ | now apply IH].
        rewrite existing_soldAmount in Eq.
        fold (CeilingSpec.amountWith tickets (Entry.category newEntry) p)
          in Eq.
        destruct (Z.gtb_spec
                    (CeilingSpec.amountWith tickets (Entry.category newEntry)
                                            p)
                    (Settings.perComboMax settings)); [discriminate | lia]. }
      destruct Hex as (v & Hv). congruence.
  - split.
    + intros v. split; [discriminate | ].
      intros (before & p & after & H & _). discriminate H.
    + split; [ | reflexivity]. intros _ pcs p H. discriminate H.
Qed.

Lemma checkCeilingViolation_first_over_witness :
  Ceiling.checkCeilingViolation
    SampleTickets.tickets
    (Sample.computed (Sample.entry C2top "12" 9381 1) [])
    DEFAULT_SETTINGS
  = Some (Ceiling.mkViolation true "12" 10001 10000)
  /\ Ceiling.checkCeilingViolation
       SampleTickets.tickets
       (Sample.computed (Sample.entry C2top "12" 9380 1) [])
       DEFAULT_SETTINGS
     = None.
Proof.
  split; [ | vm_compute; reflexivity].
  apply (proj1 (checkCeilingViolation_first_over
                  SampleTickets.tickets
                  (Sample.computed (Sample.entry C2top "12" 9381 1) [])
                  DEFAULT_SETTINGS)).
  exists [], (PerComboTotal.mk "12" 9381 1 9381 70), [].
  split; [vm_compute; reflexivity | ].
  split; [intros _ [] | ].
  split; vm_compute; reflexivity.
Defined.

(** X15: [checkNumberCeiling] reports as [current] the total of the
    (category, number) key over the tickets of the date that are not
    deleted, 0 for a number not sold on the date, and [exceeds] exactly
    when the number was sold on the date and that total is at least
    [perNumberMax]: a number not sold never exceeds, even under a ceiling
    of 0. *)
Theorem checkNumberCeiling_exact (number : string) (category : Category)
        (tickets : list Ticket.t) (date : string) (perNumberMax : Z) :
  Ceiling.current
    (Ceiling.checkNumberCeiling number category tickets date perNumberMax)
  = Spec.numberTotal tickets date category number
  /\ Ceiling.max
       (Ceiling.checkNumberCeiling number category tickets date perNumberMax)
     = perNumberMax
  /\ (Ceiling.exceeds
        (Ceiling.checkNumberCeiling number category tickets date perNumberMax)
      = true
      <-> CeilingSpec.SoldOn tickets date category number
          /\ (Spec.numberTotal tickets date category number
              >= perNumberMax)%Z)
  /\ (~ CeilingSpec.SoldOn tickets date category number ->
      Ceiling.checkNumberCeiling number category tickets date perNumberMax
      = Ceiling.mkNumberCeiling false 0 perNumberMax).
Proof.
  unfold Ceiling.checkNumberCeiling, CeilingSpec.SoldOn.
  rewrite get_getNumberTotals. rewrite <- dateNumbers_In.
  unfold Spec.numberTotal.
  destruct (filter (Spec.isNumber category number)
                   (Spec.dateNumbers tickets date)) as [| x l]; simpl.
  - split; [reflexivity | ]. split; [reflexivity | ].
    split; [ | reflexivity].
    split; [discriminate | intros [H _]; now elim H].
  - split; [reflexivity | ]. split; [reflexivity | ]. split.
    + rewrite Z.geb_le. split.
      * intros H. split; [discriminate | lia].
      * intros [_ H]. lia.
    + intros H. elim H. discriminate.
Qed.

Lemma checkNumberCeiling_exact_witness :
  Ceiling.checkNumberCeiling "12" C2top SampleTickets.tickets "2025-01-10" 120
  = Ceiling.mkNumberCeiling true 120 120
  /\ Ceiling.checkNumberCeiling "99" C2top SampleTickets.tickets
                                "2025-01-10" 0
     = Ceiling.mkNumberCeiling false 0 0.
Proof.
  split; [vm_compute; reflexivity | ].
  apply (proj2 (proj2 (proj2 (checkNumberCeiling_exact
                                "99" C2top SampleTickets.tickets
                                "2025-01-10" 0)))).
  intros (t & e & Ht & _ & He & Hc & Hn).
  vm_compute in Ht.
  repeat (destruct Ht as [<- | Ht];
          [vm_compute in He;
           repeat (destruct He as [<- | He];
                   [vm_compute in Hn;
                    repeat (destruct Hn as [Hn | Hn];
                            [discriminate Hn | ]);
                    try contradiction; try discriminate Hc | ]);
           try contradiction | ]).
  contradiction.
Defined.

(* ------------------------------------------------------------------ *)
(** * Summaries *)

Lemma keepTicket_iff (tz : Z) (date : string) (round : option string)
      (t : Ticket.t) :
  Summary.keepTicket tz date round t = true
  <-> SummarySpec.Counted tz date round t.
Proof.
  unfold Summary.keepTicket, SummarySpec.Counted.
  destruct (Ticket.deleted t); [split; [discriminate | intros [H _]; discriminate H] | ].
  destruct (DrawPeriod.isDateInDrawPeriod tz (Ticket.date t) date) eqn:Ep;
    destruct (String.eqb_spec (Ticket.date t) date) as [Hd | Hd]; simpl.
  4: { split; [discriminate | ]. intros (_ & [H | H] & _); congruence. }
  all: destruct round as [r | ];
    [ destruct (String.eqb_spec r "") as [Hr | Hr];
      destruct (String.eqb_spec (Ticket.round t) r) as [Ht | Ht]; simpl
    | ];
    split; try discriminate; try reflexivity;
    try (intros _; split; [reflexivity | ]; split; [auto | ];
         intros r' Hr'; try discriminate Hr'; injection Hr' as <-;
         intros Hne; congruence);
    try (intros (_ & _ & H); elim Ht; apply (H r eq_refl Hr)).
Qed.

Lemma fold_addTicket (l : list Ticket.t) (acc : Summary.Acc) :
  Summary.acc_gross (fold_left Summary.addTicket l acc)
  = (Summary.acc_gross acc + Spec.sumZ (map Ticket.billTotal l))%Z
  /\ Summary.acc_expectedPayout (fold_left Summary.addTicket l acc)
     = (Summary.acc_expectedPayout acc
        + Spec.sumZ (map Bill.computeTicketExpectedPayout l))%Z
  /\ Summary.acc_agentTotals (fold_left Summary.addTicket l acc)
     = fold_left (Aggregate.upsert Ticket.agentId SummarySpec.agentInit
                                   SummarySpec.agentMerge)
                 l (Summary.acc_agentTotals acc).
Proof.
  revert acc. induction l as [| t l IH]; intros acc; simpl.
  - repeat split; lia.
  - destruct (IH (Summary.addTicket acc t)) as (Hg & He & Ha).
    rewrite Hg, He, Ha. simpl. repeat split; try lia.
Qed.

Lemma fold_left_rows (A B : Type) (g : A -> B) (l : list A) (acc : list B) :
  fold_left (fun acc x => acc ++ [g x]) l acc = acc ++ map g l.
Proof.
  revert acc. induction l as [| x l IH]; intros acc; simpl.
  - now rewrite app_nil_r.
  - rewrite IH, <- app_assoc. reflexivity.
Qed.

Lemma sumZ_perm (l1 l2 : list Z) :
  Permutation l1 l2 -> Spec.sumZ l1 = Spec.sumZ l2.
Proof. induction 1; simpl; lia. Qed.


(** The summary, with its loop and its rows written out. *)
Lemma computeSummary_unfold (tz : Z) (tickets : list Ticket.t)
      (settings : Settings.t) (agents : list Agent.t) (date : string)
      (round : option string) :
  let kept := SummarySpec.counted tz tickets date round in
  let totals :=
    fold_left (Aggregate.upsert Ticket.agentId SummarySpec.agentInit
                                SummarySpec.agentMerge) kept [] in
  Summary.computeSummary tz tickets settings agents date round
  = Summary.mk date round
      (Spec.sumZ (map Ticket.billTotal kept))
      (Spec.sumZ (map Bill.computeTicketExpectedPayout kept))
      (Spec.sumZ (map Ticket.billTotal kept)
       - Spec.sumZ (map Bill.computeTicketExpectedPayout kept))%Z
      (Z.of_nat (List.length kept))
      (Js.sort_by
         (fun a b => (AgentSummary.gross b - AgentSummary.gross a)%Z)
         (map (Summary.agentRow agents) totals))
      (Compute.findRiskyNumbers kept (Settings.riskyThreshold settings)).
Proof.
  intros kept totals. unfold Summary.computeSummary.
  fold (SummarySpec.counted tz tickets date round). fold kept.
  destruct (fold_addTicket kept (Summary.mkAcc 0 0 [])) as (Hg & He & Ha).
  rewrite Hg, He, Ha, fold_left_rows. reflexivity.
Qed.

(** The expected payout of a summary is added up ticket by ticket, in
    the order of the tickets. *)
Lemma fold_addTicket_expected (l : list Ticket.t) (acc : Summary.Acc) :
  Summary.acc_expectedPayout (fold_left Summary.addTicket l acc)
  = fold_left (fun sum t => (sum + Bill.computeTicketExpectedPayout t)%Z) l
              (Summary.acc_expectedPayout acc).
Proof.
  revert acc. induction l as [| t l IH]; intros acc; simpl; [reflexivity | ].
  rewrite IH. reflexivity.
Qed.

(** X16: in every time zone, the summary counts the tickets that are not
    deleted, whose date [isDateInDrawPeriod] puts in the draw period named
    by [date] or is [date] itself, and, when a non-empty round is given,
    whose round is that round.  Its gross is the sum of their bill totals
    and its ticket count their number; its expected payout is their
    expected payouts added in the order of the tickets, and its profit the
    gross minus the expected payout; its risky numbers are those of the
    counted tickets at the threshold of the settings; and the gross and the
    ticket count of the per-agent rows add up to those of the summary. *)
Theorem computeSummary_totals (tz : Z) (tickets : list Ticket.t)
        (settings : Settings.t) (agents : list Agent.t) (date : string)
        (round : option string) :
  let s := Summary.computeSummary tz tickets settings agents date round in
  let kept := SummarySpec.counted tz tickets date round in
  (forall t, In t kept
             <-> In t tickets /\ SummarySpec.Counted tz date round t)
  /\ Summary.gross s = Spec.sumZ (map Ticket.billTotal kept)
  /\ Summary.ticketCount s = Z.of_nat (List.length kept)
  /\ Summary.expectedPayout s
     = fold_left (fun sum t => (sum + Bill.computeTicketExpectedPayout t)%Z)
                 kept 0%Z
  /\ Summary.profit s = (Summary.gross s - Summary.expectedPayout s)%Z
  /\ Summary.riskyNumbers s
     = Compute.findRiskyNumbers kept (Settings.riskyThreshold settings)
  /\ Spec.sumZ (map AgentSummary.gross (Summary.perAgent s))
     = Summary.gross s
  /\ Spec.sumZ (map AgentSummary.ticketCount (Summary.perAgent s))
     = Summary.ticketCount s.
Proof.
  intros s kept.
  assert (Hexp : Summary.expectedPayout s
                 = fold_left
                     (fun sum t =>
                        (sum + Bill.computeTicketExpectedPayout t)%Z)
                     kept 0%Z).
  { subst s. unfold Summary.computeSummary.
    fold (SummarySpec.counted tz tickets date round). fold kept.
    cbn [Summary.expectedPayout]. now rewrite fold_addTicket_expected. }
  revert Hexp. subst s. rewrite computeSummary_unfold. fold kept.
  cbn [Summary.gross Summary.expectedPayout Summary.profit
       Summary.ticketCount Summary.perAgent Summary.riskyNumbers].
  intros Hexp. split.
  { intros t. unfold kept, SummarySpec.counted.
    rewrite filter_In, keepTicket_iff. reflexivity. }
  split; [reflexivity | ]. split; [reflexivity | ].
  split; [exact Hexp | ]. split; [reflexivity | ]. split; [reflexivity | ].
  assert (Hrows : forall (w : AgentSummary.t -> Z)
                         (v : Summary.AgentTotals.t -> Z),
             (forall kv, w (Summary.agentRow agents kv) = v (snd kv)) ->
             Spec.sumZ
               (map w
                    (Js.sort_by
                       (fun a b =>
                          (AgentSummary.gross b - AgentSummary.gross a)%Z)
                       (map (Summary.agentRow agents)
                            (fold_left
                               (Aggregate.upsert Ticket.agentId
                                  SummarySpec.agentInit SummarySpec.agentMerge)
                               kept []))))
             = Totals.sumValues v
                 (fold_left
                    (Aggregate.upsert Ticket.agentId SummarySpec.agentInit
                                      SummarySpec.agentMerge)
                    kept [])).
  { intros w v Hwv.
    rewrite (sumZ_perm (Permutation_map w (sort_by_perm _ _))).
    unfold Totals.sumValues. rewrite map_map. f_equal.
    apply map_ext. exact Hwv. }
  split.
  - rewrite (Hrows AgentSummary.gross Summary.AgentTotals.gross
                   (fun _ => eq_refl)).
    apply sumValues_fold_upsert; reflexivity.
  - rewrite (Hrows AgentSummary.ticketCount Summary.AgentTotals.ticketCount
                   (fun _ => eq_refl)).
    rewrite (sumValues_fold_upsert Ticket.agentId SummarySpec.agentInit
               SummarySpec.agentMerge Summary.AgentTotals.ticketCount
               (fun _ => 1%Z) kept (fun _ => eq_refl) (fun _ _ => eq_refl)).
    clear. induction kept as [| t l IH]; [reflexivity | ].
    cbn [map Spec.sumZ List.length]. rewrite IH. lia.
Qed.



(** The sample summary of the period of 16 January 2025: the tickets of
    10 and 11 January count, the deleted one does not. *)
Example computeSummary_sample :
  Summary.gross SampleSummary.summary = 820%Z
  /\ Summary.ticketCount SampleSummary.summary = 3%Z
  /\ map (fun r => (AgentSummary.agentName r, AgentSummary.gross r,
                    AgentSummary.ticketCount r))
         (Summary.perAgent SampleSummary.summary)
     = [("Unknown", 500, 1); ("Somchai", 200, 1); ("Unknown", 120, 1)]%Z.
Proof. repeat split; vm_compute; reflexivity. Qed.

(* ------------------------------------------------------------------ *)
(** * The current draw period *)

Lemma years_ok : forallb PeriodChecks.year_ok PeriodChecks.years = true.
Proof. vm_compute. reflexivity. Qed.

Lemma year_digits (y : Z) :
  (1000 <= y <= 9999)%Z ->
  exists a b c d va vb vc vd,
    Period.toString y = String a (String b (String c (String d EmptyString)))
    /\ DrawPeriod.digitValue a = Some va
    /\ DrawPeriod.digitValue b = Some vb
    /\ DrawPeriod.digitValue c = Some vc
    /\ DrawPeriod.digitValue d = Some vd
    /\ (va * 1000 + vb * 100 + vc * 10 + vd = y)%Z.
Proof.
  intros Hy.
  assert (Hin : In y PeriodChecks.years).
  { unfold PeriodChecks.years. apply in_map_iff.
    exists (Z.to_nat (y - 1000)). split; [lia | apply in_seq; lia]. }
  pose proof (proj1 (forallb_forall _ _) years_ok y Hin) as Hok.
  unfold PeriodChecks.year_ok in Hok.
  destruct (list_ascii_of_string (Period.toString y))
    as [| a [| b [| c [| d [| e l]]]]] eqn:E; try discriminate Hok.
  destruct (DrawPeriod.digitValue a) as [va | ] eqn:Ea;
    [ | discriminate Hok].
  destruct (DrawPeriod.digitValue b) as [vb | ] eqn:Eb;
    [ | discriminate Hok].
  destruct (DrawPeriod.digitValue c) as [vc | ] eqn:Ec;
    [ | discriminate Hok].
  destruct (DrawPeriod.digitValue d) as [vd | ] eqn:Ed;
    [ | discriminate Hok].
  apply Z.eqb_eq in Hok.
  exists a, b, c, d, va, vb, vc, vd.
  split; [ | repeat split; assumption].
  rewrite <- (string_of_list_ascii_of_string (Period.toString y)), E.
  reflexivity.
Qed.

(** The identifier of a period writes the anchor day of its month and
    year. *)
Lemma parse_period_id (kind : Period.Kind) (y m : Z) :
  (1000 <= y <= 9999)%Z -> (0 <= m <= 11)%Z ->
  Spec.writtenDate (Period.id (Period.periodOf kind y m))
  = Some (DrawPeriod.mkDate y m (PeriodChecks.anchorDay kind)).
Proof.
  intros Hy Hm.
  destruct (year_digits Hy)
    as (a & b & c & d & va & vb & vc & vd & Hs & Ha & Hb & Hc & Hd & Hval).
  unfold Period.periodOf. cbn [Period.id]. rewrite Hs.
  assert (Hcases : (m = 0 \/ m = 1 \/ m = 2 \/ m = 3 \/ m = 4 \/ m = 5
                    \/ m = 6 \/ m = 7 \/ m = 8 \/ m = 9 \/ m = 10
                    \/ m = 11)%Z) by lia.
  repeat (destruct Hcases as [-> | Hcases]); try subst m;
    destruct kind;
    match goal with
    | |- context [Period.padStart2 (Period.toString ?x)] =>
        let v := eval vm_compute in (Period.padStart2 (Period.toString x)) in
        change (Period.padStart2 (Period.toString x)) with v
    end;
    unfold Spec.writtenDate;
    cbn -[Z.add Z.mul Z.leb DrawPeriod.digitValue DrawPeriod.daysInMonth];
    rewrite Ha, Hb, Hc, Hd;
    change (DrawPeriod.digitValue "0") with (Some 0%Z);
    change (DrawPeriod.digitValue "1") with (Some 1%Z);
    change (DrawPeriod.digitValue "2") with (Some 2%Z);
    change (DrawPeriod.digitValue "3") with (Some 3%Z);
    change (DrawPeriod.digitValue "4") with (Some 4%Z);
    change (DrawPeriod.digitValue "5") with (Some 5%Z);
    change (DrawPeriod.digitValue "6") with (Some 6%Z);
    change (DrawPeriod.digitValue "7") with (Some 7%Z);
    change (DrawPeriod.digitValue "8") with (Some 8%Z);
    change (DrawPeriod.digitValue "9") with (Some 9%Z);
    cbv iota beta; rewrite Hval;
    match goal with
    | |- context [DrawPeriod.daysInMonth ?yy ?mm] =>
        pose proof (proj1 (daysInMonth_bounds yy mm)) as Hdays
    end;
    match goal with
    | |- (if ?cond then _ else _) = _ =>
        assert (Hcond : cond = true);
        [ repeat (apply andb_true_iff; split);
          try reflexivity; apply Z.leb_le; lia
        | rewrite Hcond; reflexivity ]
    end.
Qed.

Lemma periodOf_fields (kind : Period.Kind) (y m : Z) :
  Period.year (Period.periodOf kind y m) = y
  /\ Period.month (Period.periodOf kind y m) = (m + 1)%Z
  /\ Period.period (Period.periodOf kind y m) = kind.
Proof. repeat split. Qed.

(** X18: in a time zone at or east of UTC, a ticket whose date writes
    today's calendar day belongs to the draw period that
    [getCurrentDrawPeriod] returns for today, for every calendar day of the
    years 1000 to 9998; and the identifier of that period is read as its
    anchor day, in the month and year that the period records. *)
Theorem today_is_in_current_period (tz : Z) (ticketDate : string)
        (today : DrawPeriod.JsDate)
        (Hzone : (0 <= tz)%Z)
        (Htoday : Spec.writtenDate ticketDate = Some today)
        (Hyear : (1000 <= DrawPeriod.getFullYear today <= 9998)%Z) :
  DrawPeriod.parseDate tz (Period.id (Period.getCurrentDrawPeriod today))
  = Some (DrawPeriod.mkDate
            (Period.year (Period.getCurrentDrawPeriod today))
            (Period.month (Period.getCurrentDrawPeriod today) - 1)
            (PeriodChecks.anchorDay
               (Period.period (Period.getCurrentDrawPeriod today))))
  /\ DrawPeriod.isDateInDrawPeriod
       tz ticketDate (Period.id (Period.getCurrentDrawPeriod today))
     = true.
Proof.
  pose proof (writtenDate_range _ Htoday) as [Hm Hd].
  pose proof (parseDate_east _ Hzone Htoday) as Hlocal.
  destruct today as [y m d]. simpl in Hyear, Hm, Hd.
  assert (Hcur : exists kind y' m',
             Period.getCurrentDrawPeriod (DrawPeriod.mkDate y m d)
             = Period.periodOf kind y' m'
             /\ (1000 <= y' <= 9999)%Z /\ (0 <= m' <= 11)%Z
             /\ ((kind = Period.Period1 /\ (18 <= d)%Z
                  /\ (y' * 12 + m' = y * 12 + m + 1)%Z)
                 \/ (kind = Period.Period1 /\ d = 1%Z /\ y' = y /\ m' = m)
                 \/ (kind = Period.Period16 /\ (2 <= d <= 17)%Z
                     /\ y' = y /\ m' = m))).
  { unfold Period.getCurrentDrawPeriod. simpl.
    destruct (Z.geb_spec d 18).
    - destruct (Z.eqb_spec m 11).
      + exists Period.Period1, (y + 1)%Z, 0%Z.
        split; [reflexivity | ]. repeat split; try lia.
        left. repeat split; lia.
      + exists Period.Period1, y, (m + 1)%Z.
        split; [reflexivity | ]. repeat split; try lia.
        left. repeat split; lia.
    - destruct (Z.leb_spec d 1).
      + exists Period.Period1, y, m.
        split; [reflexivity | ]. repeat split; try lia.
        right. left. repeat split; lia.
      + exists Period.Period16, y, m.
        split; [reflexivity | ]. repeat split; try lia.
        right. right. repeat split; lia. }
  destruct Hcur as (kind & y' & m' & -> & Hy' & Hm' & Hcase).
  pose proof (parseDate_east _ Hzone (parse_period_id kind Hy' Hm'))
    as Hparse.
  destruct (periodOf_fields kind y' m') as (-> & -> & ->).
  replace (m' + 1 - 1)%Z with m' by lia.
  split; [exact Hparse | ].
  unfold DrawPeriod.isDateInDrawPeriod. rewrite Hlocal, Hparse.
  cbn [DrawPeriod.getDate DrawPeriod.getMonth DrawPeriod.getFullYear].
  destruct Hcase as [(-> & Hd18 & Hidx) | [(-> & -> & -> & ->)
                                          | (-> & Hd2 & -> & ->)]];
    cbn [PeriodChecks.anchorDay].
  - change (1 =? 1)%Z with true. cbv iota.
    destruct (Z.eqb_spec m' 0) as [-> | Hm0].
    + assert (y = y' - 1 /\ m = 11)%Z as [-> ->] by lia.
      rewrite !Z.eqb_refl. destruct (Z.geb_spec d 18); [reflexivity | lia].
    + assert (y = y' /\ m = m' - 1)%Z as [-> ->] by lia.
      rewrite !Z.eqb_refl. destruct (Z.geb_spec d 18); [reflexivity | lia].
  - change (1 =? 1)%Z with true. cbv iota. rewrite !Z.eqb_refl.
    destruct (_ && _); reflexivity.
  - change (16 =? 1)%Z with false. change (16 =? 16)%Z with true. cbv iota.
    rewrite !Z.eqb_refl.
    destruct (Z.geb_spec d 2), (Z.leb_spec d 17); try reflexivity; lia.
Qed.

Lemma today_is_in_current_period_witness :
  (0 <= 420)%Z
  /\ Spec.writtenDate "2024-12-31" = Some (DrawPeriod.mkDate 2024 11 31)
  /\ Period.id (Period.getCurrentDrawPeriod (DrawPeriod.mkDate 2024 11 31))
     = "2025-01-01"
  /\ DrawPeriod.isDateInDrawPeriod
       420 "2024-12-31"
       (Period.id (Period.getCurrentDrawPeriod (DrawPeriod.mkDate 2024 11 31)))
     = true.
Proof.
  split; [lia | ]. split; [reflexivity | ]. split; [vm_compute; reflexivity | ].
  refine (proj2 (@today_is_in_current_period
                   420 "2024-12-31" (DrawPeriod.mkDate 2024 11 31)
                   _ eq_refl _)).
  - lia.
  - simpl. lia.
Defined.

(** X19: in a time zone at or east of UTC, a date belongs to no other draw
    period than the current one of that day: when [isDateInDrawPeriod]
    accepts a period for a date, both written as calendar days, the period
    has the year, the month and the anchor day of the period that
    [getCurrentDrawPeriod] returns for that date. *)
Theorem draw_period_is_unique (tz : Z) (ticketDate drawPeriodId : string)
        (t p : DrawPeriod.JsDate)
        (Hzone : (0 <= tz)%Z)
        (Ht : Spec.writtenDate ticketDate = Some t)
        (Hp : Spec.writtenDate drawPeriodId = Some p)
        (Hin : DrawPeriod.isDateInDrawPeriod tz ticketDate drawPeriodId
               = true) :
  DrawPeriod.getFullYear p = Period.year (Period.getCurrentDrawPeriod t)
  /\ (DrawPeriod.getMonth p + 1)%Z
     = Period.month (Period.getCurrentDrawPeriod t)
  /\ DrawPeriod.getDate p
     = PeriodChecks.anchorDay (Period.period (Period.getCurrentDrawPeriod t)).
Proof.
  pose proof (writtenDate_range _ Ht) as [Htm Htd].
  pose proof (writtenDate_range _ Hp) as [Hpm Hpd].
  unfold DrawPeriod.isDateInDrawPeriod in Hin.
  rewrite (parseDate_east _ Hzone Ht), (parseDate_east _ Hzone Hp) in Hin.
  destruct t as [ty tm td], p as [py pm pd].
  unfold Period.getCurrentDrawPeriod. simpl in *.
  destruct (Z.eqb_spec pd 1) as [-> | Hd1].
  - destruct (Z.eqb_spec pm 0) as [-> | Hm0].
    + destruct (Z.eqb_spec ty (py - 1)), (Z.eqb_spec tm 11),
        (Z.geb_spec td 18), (Z.eqb_spec ty py), (Z.eqb_spec tm 0),
        (Z.eqb_spec td 1), (Z.leb_spec td 1);
        simpl in Hin; try discriminate Hin; simpl; repeat split; lia.
    + destruct (Z.eqb_spec ty py), (Z.eqb_spec tm (pm - 1)),
        (Z.geb_spec td 18), (Z.eqb_spec tm pm), (Z.eqb_spec td 1),
        (Z.eqb_spec tm 11), (Z.leb_spec td 1);
        simpl in Hin; try discriminate Hin; simpl; repeat split; lia.
  - destruct (Z.eqb_spec pd 16) as [-> | Hd16]; [ | discriminate Hin].
    destruct (Z.eqb_spec ty py), (Z.eqb_spec tm pm),
      (Z.geb_spec td 2), (Z.leb_spec td 17), (Z.geb_spec td 18),
      (Z.leb_spec td 1);
      simpl in Hin; try discriminate Hin; simpl; repeat split; lia.
Qed.

Lemma draw_period_is_unique_witness :
  (0 <= 420)%Z
  /\ Spec.writtenDate "2025-03-17" = Some (DrawPeriod.mkDate 2025 2 17)
  /\ Spec.writtenDate "2025-03-16" = Some (DrawPeriod.mkDate 2025 2 16)
  /\ DrawPeriod.isDateInDrawPeriod 420 "2025-03-17" "2025-03-16" = true
  /\ Period.id (Period.getCurrentDrawPeriod (DrawPeriod.mkDate 2025 2 17))
     = "2025-03-16"
  /\ 16%Z
     = PeriodChecks.anchorDay
         (Period.period
            (Period.getCurrentDrawPeriod (DrawPeriod.mkDate 2025 2 17))).
Proof.
  split; [lia | ]. split; [reflexivity | ]. split; [reflexivity | ].
  split; [reflexivity | ]. split; [vm_compute; reflexivity | ].
  refine (proj2 (proj2 (@draw_period_is_unique
                          420 "2025-03-17" "2025-03-16"
                          (DrawPeriod.mkDate 2025 2 17)
                          (DrawPeriod.mkDate 2025 2 16)
                          _ eq_refl eq_refl eq_refl))).
  lia.
Defined.
